(** * Consultant Tracker backend: a shallow embedding and its properties

    The development follows the layout of [backend/app]:
    - [core/auth.py], [core/models.py]: password handling, role gates,
      account lookup;
    - [modules/jobs], [modules/submissions], [modules/consultants]:
      repositories over MongoDB collections and their routers;
    - [core/ai_service.py]: normalisation of the classification answer.

    Python exceptions are values of [exn]; a function that may raise
    returns a [result].  MongoDB documents are finite maps from field
    names to Python values, collections are lists of documents in
    insertion order, and every operation that writes takes the database
    and returns the new one. *)

From Stdlib Require Import ZArith QArith List Bool Ascii String Lia.
From stdpp Require Import base option list strings gmap pretty.

(** ** Exceptions and results *)

Inductive exn : Type :=
| ValueError (msg : string)
| TypeError
| AttributeError
| InvalidId
| KeyError (key : string)
| UnicodeEncodeError
| ValidationError (msg : string)
| DuplicateKeyError
| OSError
| OverflowError
| HTTPException (status_code : Z) (detail : string).

Inductive result (A : Type) : Type :=
| Ok (a : A)
| Raise (e : exn).
Arguments Ok {A} a.
Arguments Raise {A} e.

Notation "'let!' x ':=' c 'in' k" :=
  (match c with Ok x => k | Raise e => Raise e end)
  (at level 10, x pattern, c at level 100, k at level 200, only parsing).

Definition is_ok {A} (r : result A) : bool :=
  match r with Ok _ => true | Raise _ => false end.

(** ** Python [str] and [bytes] for passwords

    A password is inspected through its UTF-8 encoding, so it is kept as
    the list of its code points; [bytes] are integers in [0, 255]. *)

Definition pystr := list Z.
Definition bytes := list Z.

(** [str.encode('utf-8')] on one code point.  A lone surrogate raises
    [UnicodeEncodeError]; values outside [0, 0x10FFFF] do not occur in a
    Python [str]. *)
Definition utf8_encode_char (c : Z) : option bytes :=
  if (c <? 0)%Z then None
  else if (c <? 0x80)%Z then Some [c]
  else if (c <? 0x800)%Z then Some [0xC0 + c / 64; 0x80 + c mod 64]%Z
  else if (c <? 0x10000)%Z then
    if ((0xD800 <=? c) && (c <=? 0xDFFF))%Z then None
    else Some [0xE0 + c / 4096; 0x80 + (c / 64) mod 64; 0x80 + c mod 64]%Z
  else if (c <=? 0x10FFFF)%Z then
    Some [0xF0 + c / 262144; 0x80 + (c / 4096) mod 64;
          0x80 + (c / 64) mod 64; 0x80 + c mod 64]%Z
  else None.

Fixpoint utf8_encode (s : pystr) : option bytes :=
  match s with
  | [] => Some []
  | c :: s' =>
    match utf8_encode_char c, utf8_encode s' with
    | Some bs, Some rest => Some (bs ++ rest)
    | _, _ => None
    end
  end.

Definition is_continuation (b : Z) : bool := ((0x80 <=? b) && (b <=? 0xBF))%Z.

Definition two_byte_seq (b0 b1 : Z) : bool :=
  ((0xC2 <=? b0) && (b0 <=? 0xDF))%Z && is_continuation b1.

Definition three_byte_seq (b0 b1 b2 : Z) : bool :=
  ((0xE0 <=? b0) && (b0 <=? 0xEF))%Z && is_continuation b1 && is_continuation b2
  && (negb (b0 =? 0xE0)%Z || (0xA0 <=? b1)%Z)
  && (negb (b0 =? 0xED)%Z || (b1 <=? 0x9F)%Z).

Definition four_byte_seq (b0 b1 b2 b3 : Z) : bool :=
  ((0xF0 <=? b0) && (b0 <=? 0xF4))%Z
  && is_continuation b1 && is_continuation b2 && is_continuation b3
  && (negb (b0 =? 0xF0)%Z || (0x90 <=? b1)%Z)
  && (negb (b0 =? 0xF4)%Z || (b1 <=? 0x8F)%Z).

(** [bytes.decode('utf-8', errors='ignore')]: a well-formed sequence gives
    its code point, any byte that does not start one is dropped. *)
Fixpoint utf8_decode_ignore (bs : bytes) : pystr :=
  match bs with
  | [] => []
  | b0 :: r0 =>
    if ((0 <=? b0) && (b0 <? 0x80))%Z then b0 :: utf8_decode_ignore r0
    else
      match r0 with
      | [] => utf8_decode_ignore r0
      | b1 :: r1 =>
        if two_byte_seq b0 b1
        then ((b0 - 0xC0) * 64 + (b1 - 0x80))%Z :: utf8_decode_ignore r1
        else
          match r1 with
          | [] => utf8_decode_ignore r0
          | b2 :: r2 =>
            if three_byte_seq b0 b1 b2
            then ((b0 - 0xE0) * 4096 + (b1 - 0x80) * 64 + (b2 - 0x80))%Z
                   :: utf8_decode_ignore r2
            else
              match r2 with
              | [] => utf8_decode_ignore r0
              | b3 :: r3 =>
                if four_byte_seq b0 b1 b2 b3
                then ((b0 - 0xF0) * 262144 + (b1 - 0x80) * 4096
                      + (b2 - 0x80) * 64 + (b3 - 0x80))%Z
                       :: utf8_decode_ignore r3
                else utf8_decode_ignore r0
              end
          end
      end
  end.

(** ** [core/config.py] *)

Definition PASSWORD_MAX_BYTES : nat := 72.

(** ** [core/auth.py]: password hashing *)

(** The hashing library ([passlib]'s [CryptContext]) is a collaborator
    known by its interface only. *)
Class CryptContext : Type := {
  salt : Type;
  pwd_hash : salt → pystr → string;
  pwd_verify : pystr → string → bool;
}.

(** What is assumed of it: within the 72-byte limit of the algorithm, a
    hash verifies exactly the password it was made from. *)
Class CryptContextLaws (ctx : CryptContext) : Prop := {
  pwd_verify_hash : ∀ (sl : salt) (s s' : pystr) (bs bs' : bytes),
    utf8_encode s = Some bs → utf8_encode s' = Some bs' →
    (length bs ≤ PASSWORD_MAX_BYTES)%nat →
    (length bs' ≤ PASSWORD_MAX_BYTES)%nat →
    pwd_verify s (pwd_hash sl s') = true ↔ s = s';
}.

(** The log lines that tell which branch ran. *)
Inductive log_event : Type :=
| LogTruncating (n : nat)
| LogError (where_ : string).

(** [truncated[-1] & 0x80 and not truncated[-1] & 0x40] *)
Definition incomplete_tail (b : Z) : bool :=
  negb (Z.land b 0x80 =? 0)%Z && (Z.land b 0x40 =? 0)%Z.

(** [while truncated and ...: truncated = truncated[:-1]], run on the
    reversed byte string. *)
Fixpoint drop_incomplete_rev (r : bytes) : bytes :=
  match r with
  | [] => []
  | b :: r' => if incomplete_tail b then drop_incomplete_rev r' else r
  end.

Definition drop_incomplete (truncated : bytes) : bytes :=
  rev (drop_incomplete_rev (rev truncated)).

Section Passwords.
Context {ctx : CryptContext}.

Definition verify_password (plain_password : pystr) (hashed_password : string)
  : list log_event * bool :=
  match utf8_encode plain_password with
  | None => ([LogError "verify_password"], false)
  | Some password_bytes =>
    if (PASSWORD_MAX_BYTES <? length password_bytes)%nat then
      let truncated := take PASSWORD_MAX_BYTES password_bytes in
      let truncated := drop_incomplete truncated in
      let plain_password := utf8_decode_ignore truncated in
      ([LogTruncating (length password_bytes)],
       pwd_verify plain_password hashed_password)
    else ([], pwd_verify plain_password hashed_password)
  end.

Definition get_password_hash (sl : salt) (password : pystr)
  : list log_event * result string :=
  match utf8_encode password with
  | None =>
    ([LogError "get_password_hash"], Raise (ValueError "Password hashing failed"))
  | Some password_bytes =>
    if (PASSWORD_MAX_BYTES <? length password_bytes)%nat then
      let truncated := take PASSWORD_MAX_BYTES password_bytes in
      let truncated := drop_incomplete truncated in
      let password := utf8_decode_ignore truncated in
      ([LogTruncating (length password_bytes)], Ok (pwd_hash sl password))
    else ([], Ok (pwd_hash sl password))
  end.

End Passwords.

(** ** Python [str] for text

    Text other than passwords is kept by its UTF-8 encoding, a string of
    bytes.  Its characters are the groups made of a byte and the
    continuation bytes that follow it, which for an encoded [str] are
    exactly the encodings of its code points. *)

Definition is_continuation_byte (c : ascii) : bool :=
  let n := nat_of_ascii c in
  ((128 <=? n) && (n <=? 191))%nat.

(** Text that does not begin in the middle of a character. *)
Definition starts_char (s : string) : bool :=
  match s with
  | String c _ => negb (is_continuation_byte c)
  | EmptyString => true
  end.

Fixpoint chars (s : string) : list string :=
  match s with
  | EmptyString => []
  | String c s' =>
    match chars s' with
    | ch :: rest =>
      if starts_char ch then String c EmptyString :: ch :: rest
      else String c ch :: rest
    | [] => [String c EmptyString]
    end
  end.

(** [len(s)] *)
Definition py_len (s : string) : nat := length (chars s).

(** The code points for which [str.isspace] holds, and their
    encodings. *)
Definition space_codepoints : list Z :=
  [0x9; 0xA; 0xB; 0xC; 0xD; 0x1C; 0x1D; 0x1E; 0x1F; 0x20; 0x85; 0xA0; 0x1680;
   0x2000; 0x2001; 0x2002; 0x2003; 0x2004; 0x2005; 0x2006; 0x2007; 0x2008;
   0x2009; 0x200A; 0x2028; 0x2029; 0x202F; 0x205F; 0x3000]%Z.

Definition string_of_bytes (bs : bytes) : string :=
  string_of_list_ascii (map (λ b, ascii_of_nat (Z.to_nat b)) bs).

Definition char_of_codepoint (c : Z) : string :=
  string_of_bytes (default [] (utf8_encode_char c)).

Definition space_chars : list string := Eval vm_compute in
  map char_of_codepoint space_codepoints.

(** [ch.isspace()] on one character *)
Definition py_isspace (ch : string) : bool := existsb (String.eqb ch) space_chars.

(** [not v.strip()]: every character is white space. *)
Definition is_blank (s : string) : bool := forallb py_isspace (chars s).

(** [s.strip()] *)
Fixpoint drop_spaces (l : list string) : list string :=
  match l with
  | ch :: l' => if py_isspace ch then drop_spaces l' else l
  | [] => []
  end.

Definition join_chars (l : list string) : string := foldr String.append EmptyString l.

Definition strip (s : string) : string :=
  join_chars (rev (drop_spaces (rev (drop_spaces (chars s))))).

(** ** Python values held in documents

    Numbers of type [float] are kept as rationals: the code only stores
    them and compares them with zero.  A list holds text and a dictionary
    maps text to text, as the lists and dictionaries of the models do. *)

Global Instance Q_eq_dec : EqDecision Q.
Proof. solve_decision. Defined.

Inductive pyval : Type :=
| VNone
| VBool (b : bool)
| VInt (n : Z)
| VFloat (x : Q)
| VStr (s : string)
| VOid (o : string)
| VDate (t : Z)
| VList (l : list string)
| VDict (m : list (string * string)).

Global Instance pyval_eq_dec : EqDecision pyval.
Proof. solve_decision. Defined.

(** A document, and a Python [dict] with string keys. *)
Abbreviation doc := (gmap string pyval).

(** Truth value of a Python object ([if x:], [not x], [x or y]). *)
Definition truthy (v : pyval) : bool :=
  match v with
  | VNone => false
  | VBool b => b
  | VInt n => negb (n =? 0)%Z
  | VFloat x => negb (Qnum x =? 0)%Z
  | VStr s => negb (String.eqb s "")
  | VOid _ => true
  | VDate _ => true
  | VList l => negb (bool_decide (l = []))
  | VDict m => negb (bool_decide (m = []))
  end.

(** [d.get(k)]: [None] when the key is absent. *)
Definition dict_get (d : doc) (k : string) : pyval := default VNone (d !! k).

(** *** [bson.ObjectId] *)

Definition is_hex_digit (c : ascii) : bool :=
  let n := nat_of_ascii c in
  ((48 <=? n) && (n <=? 57) || (65 <=? n) && (n <=? 70)
   || (97 <=? n) && (n <=? 102))%nat.

Definition lower_hex (c : ascii) : ascii :=
  let n := nat_of_ascii c in
  if ((65 <=? n) && (n <=? 70))%nat then ascii_of_nat (n + 32) else c.

Fixpoint string_forallb (f : ascii → bool) (s : string) : bool :=
  match s with
  | EmptyString => true
  | String c s' => f c && string_forallb f s'
  end.

Fixpoint string_map (f : ascii → ascii) (s : string) : string :=
  match s with
  | EmptyString => EmptyString
  | String c s' => String (f c) (string_map f s')
  end.

(** The white space that [bytes.fromhex] skips: the ASCII characters
    from tab to carriage return, and the space. *)
Definition is_ascii_space (c : ascii) : bool :=
  let n := nat_of_ascii c in
  ((9 <=? n) && (n <=? 13) || (n =? 32))%nat.

(** [bytes.fromhex(s)], by the hexadecimal digits of the bytes it
    returns: the text is read as pairs of digits, white space being
    skipped before a pair and at the end, never inside a pair; [None]
    when it raises. *)
Fixpoint fromhex (s : string) : option string :=
  match s with
  | EmptyString => Some EmptyString
  | String c s' =>
    if is_ascii_space c then fromhex s'
    else
      match s' with
      | String c' s'' =>
        if is_hex_digit c && is_hex_digit c'
        then option_map (λ r, String c (String c' r)) (fromhex s'')
        else None
      | EmptyString => None
      end
  end.

(** [ObjectId(x)]: an [ObjectId] is taken as it is; a [str] must have 24
    characters that [bytes.fromhex] reads ([InvalidId] otherwise), so
    white space between the pairs of digits is accepted and gives an id
    of fewer than twelve bytes; any other type is a [TypeError].  An id
    is kept by the lower-case digits of its bytes, which is what
    [str(oid)] prints.  [ObjectId(None)] would draw a new id; every
    caller below passes text or tests for [None] first. *)
Definition ObjectId (x : pyval) : result string :=
  match x with
  | VOid o => Ok o
  | VStr s =>
    if (py_len s =? 24)%nat
    then match fromhex s with
         | Some digits => Ok (string_map lower_hex digits)
         | None => Raise InvalidId
         end
    else Raise InvalidId
  | _ => Raise TypeError
  end.

(** [str(x)] on the values that are used as identifiers.  Floats, dates,
    lists and dictionaries are never identifiers; they print
    schematically. *)
Definition py_str (x : pyval) : string :=
  match x with
  | VNone => "None"
  | VBool true => "True"
  | VBool false => "False"
  | VInt n => pretty n
  | VStr s => s
  | VOid o => o
  | VFloat _ => "<float>"
  | VDate _ => "<datetime>"
  | VList _ => "<list>"
  | VDict _ => "<dict>"
  end.

(** ** MongoDB collections *)

Abbreviation collection := (list (gmap string pyval)).

(** An equality filter [{k1: v1, ...}]. *)
Definition matches (query : list (string * pyval)) (d : doc) : bool :=
  forallb (λ kv, bool_decide (d !! kv.1 = Some kv.2)) query.

Definition find (query : list (string * pyval)) (c : collection) : collection :=
  List.filter (matches query) c.

(** A stored document always carries an [_id], so a document that was
    found is never an empty (false) dictionary. *)
Definition find_one (query : list (string * pyval)) (c : collection) : option doc :=
  List.find (matches query) c.

(** [update_one(filter, {"$set": upd})]: the first match takes the new
    fields; nothing happens without a match. *)
Fixpoint update_one (query : list (string * pyval)) (upd : doc) (c : collection)
  : collection :=
  match c with
  | [] => []
  | d :: c' =>
    if matches query d then (upd ∪ d) :: c' else d :: update_one query upd c'
  end.

(** [insert_one(d)]: a document without [_id] gets the new id; an [_id]
    already in the collection is refused.  The stored document and the
    inserted id are returned ([pymongo] adds [_id] to the caller's
    dictionary). *)
Definition insert_one (oid : string) (d : doc) (c : collection)
  : result (collection * doc * pyval) :=
  let d' := match d !! "_id" with Some _ => d | None => <["_id" := VOid oid]> d end in
  let i := dict_get d' "_id" in
  if existsb (λ x, bool_decide (x !! "_id" = Some i)) c
  then Raise DuplicateKeyError
  else Ok (c ++ [d'], d', i).

(** [update_one(filter, {"$set": upd, "$setOnInsert": dflt}, upsert=True)]
    with an equality filter: without a match, a document made of the
    filter, [dflt] and [upd] is inserted. *)
Definition upsert_one (oid : string) (query : list (string * pyval))
    (upd dflt : doc) (c : collection) : result collection :=
  match find_one query c with
  | Some _ => Ok (update_one query upd c)
  | None =>
    let! r := insert_one oid (upd ∪ dflt ∪ list_to_map query) c in
    Ok r.1.1
  end.

(** [cursor.skip(n)] and [cursor.limit(n)]; a limit of zero is no limit. *)
Definition cursor_skip (n : nat) (c : collection) : collection := drop n c.
Definition cursor_limit (n : nat) (c : collection) : collection :=
  if (n =? 0)%nat then c else take n c.

Record Database : Type := {
  recruiters : collection;
  consultants : collection;
  admins : collection;
  users : collection;
  job_descriptions : collection;
  submissions : collection;
  consultant_profiles : collection;
}.

(** ** The world a request runs in

    [db_handle] is [None] until [init_db] has run; [files] is the upload
    directory; [log] collects the log lines that are modelled.  What a
    request draws from outside (clock, new ids, random bytes, whether the
    disk accepts a write) comes in an [Env]. *)

Record World : Type := {
  db_handle : option Database;
  files : gmap string (list Z);
  log : list log_event;
}.

Record Env : Type := {
  utcnow : Z;
  new_oid : string;      (* the id given to the document the request inserts *)
  upsert_oid : string;   (* the id given to a profile created by an upsert *)
  urandom_hex : string;  (* [os.urandom(4).hex()] *)
  disk_ok : bool;        (* whether the upload directory accepts the write *)
}.

Definition M (A : Type) : Type := World → result A * World.

Definition ret {A} (a : A) : M A := λ w, (Ok a, w).
Definition raise {A} (e : exn) : M A := λ w, (Raise e, w).
Definition lift {A} (r : result A) : M A := λ w, (r, w).

Definition bind {A B} (m : M A) (k : A → M B) : M B :=
  λ w, match m w with
       | (Ok a, w') => k a w'
       | (Raise e, w') => (Raise e, w')
       end.

(** [try: m except Exception as e: h e] *)
Definition catch {A} (m : M A) (h : exn → M A) : M A :=
  λ w, match m w with
       | (Ok a, w') => (Ok a, w')
       | (Raise e, w') => h e w'
       end.

Notation "'let*' x ':=' m 'in' k" := (bind m (λ x, k))
  (at level 10, x pattern, m at level 100, k at level 200, only parsing).

(** The exceptions an [except ValueError] clause catches: [ValueError]
    and its subclasses. *)
Definition is_ValueError (e : exn) : bool :=
  match e with
  | ValueError _ | UnicodeEncodeError | ValidationError _ => true
  | _ => false
  end.

(** [core/db.py]: [get_database] *)
Definition get_database : M Database :=
  λ w, match db_handle w with
       | Some db => (Ok db, w)
       | None => (Raise (ValueError "Database not initialized. Call init_db() first."), w)
       end.

Definition put_database (db : Database) : M unit :=
  λ w, (Ok tt, {| db_handle := Some db; files := files w; log := log w |}).

Definition emit (l : list log_event) : M unit :=
  λ w, (Ok tt, {| db_handle := db_handle w; files := files w; log := log w ++ l |}).

(** [d[k]] *)
Definition getitem (d : doc) (k : string) : result pyval :=
  match d !! k with
  | Some v => Ok v
  | None => Raise (KeyError k)
  end.

(** [except ValueError as e: h e]; other exceptions pass through. *)
Definition catch_ValueError {A} (m : M A) (h : exn → M A) : M A :=
  catch m (λ e, if is_ValueError e then h e else raise e).

(** [str(e)] *)
Definition str_exn (e : exn) : string :=
  match e with
  | ValueError msg => msg
  | ValidationError msg => msg
  | HTTPException _ detail => detail
  | TypeError => "TypeError"
  | AttributeError => "AttributeError"
  | InvalidId => "InvalidId"
  | KeyError key => key
  | UnicodeEncodeError => "UnicodeEncodeError"
  | DuplicateKeyError => "DuplicateKeyError"
  | OSError => "OSError"
  | OverflowError => "OverflowError"
  end.

(** The status a client sees: the code of an [HTTPException], and 500
    for any exception no handler caught. *)
Definition response_status {A} (r : result A) : Z :=
  match r with
  | Ok _ => 200
  | Raise (HTTPException code _) => code
  | Raise _ => 500
  end.

(** ** Reading typed fields out of a document

    What constructing a pydantic model from a document checks, field by
    field; the exception names the first field that is refused.  The
    readers of accounts and submissions come first: they convert
    nothing, a [str] field wants a [str]. *)

Definition req_str (d : doc) (k : string) : result string :=
  match d !! k with
  | Some (VStr s) => Ok s
  | _ => Raise (ValidationError k)
  end.

Definition opt_str (d : doc) (k : string) : result (option string) :=
  match d !! k with
  | None | Some VNone => Ok None
  | Some (VStr s) => Ok (Some s)
  | _ => Raise (ValidationError k)
  end.

Definition req_date (d : doc) (k : string) : result Z :=
  match d !! k with
  | Some (VDate t) => Ok t
  | _ => Raise (ValidationError k)
  end.

Definition bool_or (d : doc) (k : string) (dflt : bool) : result bool :=
  match d !! k with
  | None => Ok dflt
  | Some (VBool b) => Ok b
  | _ => Raise (ValidationError k)
  end.

(** *** The conversions of pydantic

    Jobs and profiles are read with the library's own conversions.
    pydantic turns the value given for a field into a value of the
    field's type where it can: which values of another type it takes (a
    number written as text, 0 and 1 for a [bool], text for a date)
    depends on its version, which the repository does not pin, so the
    conversions are an interface.  [None] stands for a value that is
    refused. *)
Class Pydantic : Type := {
  str_value : pyval → option string;
  float_value : pyval → option Q;
  bool_value : pyval → option bool;
  datetime_value : pyval → option Z;
  list_str_value : pyval → option (list string);
  dict_value : pyval → option (list (string * string));
  dict_str_value : pyval → option (list (string * string));
}.

(** What every version does: a value of the field's own type is taken
    as it is, an [int] is taken for a [float], and [None] is no value of
    any of these types. *)
Class PydanticLaws (pd : Pydantic) : Prop := {
  str_value_str : ∀ s, str_value (VStr s) = Some s;
  float_value_float : ∀ x, float_value (VFloat x) = Some x;
  float_value_int : ∀ n, float_value (VInt n) = Some (inject_Z n);
  bool_value_bool : ∀ b, bool_value (VBool b) = Some b;
  datetime_value_date : ∀ t, datetime_value (VDate t) = Some t;
  list_str_value_list : ∀ l, list_str_value (VList l) = Some l;
  dict_value_dict : ∀ m, dict_value (VDict m) = Some m;
  dict_str_value_dict : ∀ m, dict_str_value (VDict m) = Some m;
  str_value_None : str_value VNone = None;
  float_value_None : float_value VNone = None;
  bool_value_None : bool_value VNone = None;
  datetime_value_None : datetime_value VNone = None;
  list_str_value_None : list_str_value VNone = None;
  dict_value_None : dict_value VNone = None;
  dict_str_value_None : dict_str_value VNone = None;
}.

(** A required field and a field with a default, each with the
    conversion of its type. *)
Definition field_required {A} (conv : pyval → option A) (d : doc) (k : string)
  : result A :=
  match d !! k with
  | Some v =>
    match conv v with
    | Some a => Ok a
    | None => Raise (ValidationError k)
    end
  | None => Raise (ValidationError k)
  end.

Definition field_default {A} (conv : pyval → option A) (dflt : A) (d : doc)
    (k : string) : result A :=
  match d !! k with
  | Some v =>
    match conv v with
    | Some a => Ok a
    | None => Raise (ValidationError k)
    end
  | None => Ok dflt
  end.

(** An [Optional] type takes [None] and what the type takes; an
    [Optional] field with the default [None]. *)
Definition optional {A} (conv : pyval → option A) (v : pyval) : option (option A) :=
  match v with
  | VNone => Some None
  | _ => Some <$> conv v
  end.

Definition field_optional {A} (conv : pyval → option A) (d : doc) (k : string)
  : result (option A) :=
  field_default (optional conv) None d k.

(** The constraint [ge=0], checked on the converted number. *)
Definition ge0 (conv : pyval → option Q) (v : pyval) : option Q :=
  match conv v with
  | Some x => if (0 <=? Qnum x)%Z then Some x else None
  | None => None
  end.

(** ** [core/models.py] *)

Inductive UserRole : Type := ADMIN | RECRUITER | CONSULTANT.

Global Instance UserRole_eq_dec : EqDecision UserRole.
Proof. solve_decision. Defined.

Definition UserRole_value (r : UserRole) : string :=
  match r with
  | ADMIN => "ADMIN"
  | RECRUITER => "RECRUITER"
  | CONSULTANT => "CONSULTANT"
  end.

Definition UserRole_of_string (s : string) : option UserRole :=
  if String.eqb s "ADMIN" then Some ADMIN
  else if String.eqb s "RECRUITER" then Some RECRUITER
  else if String.eqb s "CONSULTANT" then Some CONSULTANT
  else None.

Module User.
Record t : Type := mk {
  id : string;
  email : string;
  name : string;
  role : UserRole;
  is_active : bool;
  hashed_password : string;
  created_at : Z;
  updated_at : Z;
}.
End User.

(** [EmailStr] is checked by a library; it returns the address in its
    normal form or rejects it. *)
Class EmailValidator : Type := {
  validate_email : string → option string;
}.

Section CoreModels.
Context {ev : EmailValidator}.

(** The fields of [UserBase] *)
Definition UserBase_check (email name role : string)
  : result (string * string * UserRole) :=
  match validate_email email with
  | None => Raise (ValidationError "email")
  | Some e' =>
    if negb ((1 <=? py_len name) && (py_len name <=? 100))%nat
    then Raise (ValidationError "name")
    else
      match UserRole_of_string role with
      | None => Raise (ValidationError "role")
      | Some r' => Ok (e', name, r')
      end
  end.

Definition UserBase_fields (d : doc)
  : result (string * string * UserRole * bool) :=
  let! e := req_str d "email" in
  let! n := req_str d "name" in
  let! r := req_str d "role" in
  let! (e', n', r') := UserBase_check e n r in
  let! a := bool_or d "is_active" true in
  Ok (e', n', r', a).

(** [User] built from the stored fields *)
Definition User_of_doc (d : doc) : result User.t :=
  let! (e, n, r, a) := UserBase_fields d in
  let! i := req_str d "id" in
  if is_blank i then Raise (ValidationError "User ID is required")
  else
    let! c := req_date d "created_at" in
    let! u := req_date d "updated_at" in
    let! h := req_str d "hashed_password" in
    Ok (User.mk i e n r a h c u).

End CoreModels.

(** ** [core/auth.py]: role gates *)

Definition require_role (required_role : UserRole) (current_user : User.t)
  : result User.t :=
  if negb (bool_decide (User.role current_user = required_role))
     && negb (bool_decide (User.role current_user = ADMIN))
  then Raise (HTTPException 403 "Not enough permissions")
  else Ok current_user.

Definition require_recruiter_or_admin (current_user : User.t) : result User.t :=
  let allowed_roles := [RECRUITER; ADMIN] in
  if negb (bool_decide (User.role current_user ∈ allowed_roles))
  then Raise (HTTPException 403 "Recruiter or admin access required")
  else Ok current_user.

(** ** [modules/jobs/models.py] *)

Inductive JobType : Type := CONTRACT | FULL_TIME | C2C | W2.

Definition JobType_value (t : JobType) : string :=
  match t with
  | CONTRACT => "Contract"
  | FULL_TIME => "Full-time"
  | C2C => "C2C"
  | W2 => "W2"
  end.

(** [JobType(v)]: the member whose value equals [v]; only text equals a
    member's value. *)
Definition JobType_of_value (v : pyval) : option JobType :=
  match v with
  | VStr s => List.find (λ t, String.eqb (JobType_value t) s) [CONTRACT; FULL_TIME; C2C; W2]
  | _ => None
  end.

Module JobDescription.
Record t : Type := mk {
  title : string;
  description : string;
  client_name : option string;
  experience_required : Q;
  tech_required : list string;
  location : option string;
  visa_required : option string;
  start_date : option Z;
  job_type : option JobType;
  jd_summary : option string;
  additional_notes : option string;
  jd_file_url : option string;
  notes : option string;
  status : string;
  id : string;
  recruiter_id : string;
  created_at : Z;
  updated_at : Z;
  recruiter_name : option string;
  recruiter_email : option string;
}.
End JobDescription.

(** [JobDescription] built from a document: the fields of
    [JobDescriptionBase], then those of [JobDescription]; keys that are
    no field are ignored. *)
Definition JobDescription_of_doc {pd : Pydantic} (d : doc) : result JobDescription.t :=
  let! title := field_required str_value d "title" in
  if (py_len title <? 1)%nat then Raise (ValidationError "title")
  else
    let! description := field_required str_value d "description" in
    let! client_name := field_optional str_value d "client_name" in
    let! experience_required :=
      field_required (ge0 float_value) d "experience_required" in
    let! tech_required := field_default list_str_value [] d "tech_required" in
    let! location := field_optional str_value d "location" in
    let! visa_required := field_optional str_value d "visa_required" in
    let! start_date := field_optional datetime_value d "start_date" in
    let! job_type := field_optional JobType_of_value d "job_type" in
    let! jd_summary := field_optional str_value d "jd_summary" in
    let! additional_notes := field_optional str_value d "additional_notes" in
    let! jd_file_url := field_optional str_value d "jd_file_url" in
    let! notes := field_optional str_value d "notes" in
    let! status := field_default str_value "OPEN" d "status" in
    let! id := field_required str_value d "id" in
    let! recruiter_id := field_required str_value d "recruiter_id" in
    let! created_at := field_required datetime_value d "created_at" in
    let! updated_at := field_required datetime_value d "updated_at" in
    let! recruiter_name := field_optional str_value d "recruiter_name" in
    let! recruiter_email := field_optional str_value d "recruiter_email" in
    Ok {| JobDescription.title := title;
          JobDescription.description := description;
          JobDescription.client_name := client_name;
          JobDescription.experience_required := experience_required;
          JobDescription.tech_required := tech_required;
          JobDescription.location := location;
          JobDescription.visa_required := visa_required;
          JobDescription.start_date := start_date;
          JobDescription.job_type := job_type;
          JobDescription.jd_summary := jd_summary;
          JobDescription.additional_notes := additional_notes;
          JobDescription.jd_file_url := jd_file_url;
          JobDescription.notes := notes;
          JobDescription.status := status;
          JobDescription.id := id;
          JobDescription.recruiter_id := recruiter_id;
          JobDescription.created_at := created_at;
          JobDescription.updated_at := updated_at;
          JobDescription.recruiter_name := recruiter_name;
          JobDescription.recruiter_email := recruiter_email |}.

(** ** [modules/jobs/repository.py]

    Every method is wrapped in [try: ... except Exception: log; raise],
    which changes nothing and is not written out.  The driver itself is
    taken to answer: only an uninitialised handle, an id that [ObjectId]
    refuses and a duplicate [_id] make a database call raise. *)

Definition set_job_descriptions (db : Database) (c : collection) : Database :=
  {| recruiters := recruiters db; consultants := consultants db;
     admins := admins db; users := users db;
     job_descriptions := c; submissions := submissions db;
     consultant_profiles := consultant_profiles db |}.

(** [_merge_recruiter_data] *)
Definition _merge_recruiter_data (jd_doc : doc) (db : Database) : doc :=
  let recruiter_id := dict_get jd_doc "recruiter_id" in
  if negb (truthy recruiter_id) then
    <["recruiter_email" := VStr "N/A"]>
      (<["recruiter_name" := VStr "Unknown Recruiter"]> jd_doc)
  else
    match ObjectId recruiter_id with
    | Raise _ =>
      <["recruiter_email" := VStr "N/A"]>
        (<["recruiter_name" := VStr "Invalid ID"]> jd_doc)
    | Ok oid =>
      match find_one [("_id", VOid oid)] (recruiters db) with
      | Some user_data =>
        <["recruiter_email" := default (VStr "") (user_data !! "email")]>
          (<["recruiter_name" := default (VStr "Unknown") (user_data !! "name")]>
             jd_doc)
      | None =>
        <["recruiter_email" := VStr "N/A"]>
          (<["recruiter_name" := VStr "Unknown Recruiter"]> jd_doc)
      end
    end.

(** The body of the [async for doc in cursor] loops and of [get_by_id]. *)
Definition job_of_stored {pd : Pydantic} (db : Database) (d : doc) : result JobDescription.t :=
  let! i := getitem d "_id" in
  let d := <["id" := VStr (py_str i)]> d in
  let d := _merge_recruiter_data d db in
  JobDescription_of_doc d.

Fixpoint mapM_result {A B} (f : A → result B) (l : list A) : result (list B) :=
  match l with
  | [] => Ok []
  | a :: l' =>
    let! b := f a in
    let! bs := mapM_result f l' in
    Ok (b :: bs)
  end.

Definition JobRepository_get_all {pd : Pydantic} (skip limit : nat) (status : option string)
  : M (list JobDescription.t) :=
  let* db := get_database in
  let query :=
    match status with
    | Some s => if negb (String.eqb s "") then [("status", VStr s)] else []
    | None => []
    end in
  let cursor := cursor_limit limit (cursor_skip skip (find query (job_descriptions db))) in
  lift (mapM_result (job_of_stored db) cursor).

Definition JobRepository_get_by_id {pd : Pydantic} (jd_id : string) : M (option JobDescription.t) :=
  let* db := get_database in
  let* oid := lift (ObjectId (VStr jd_id)) in
  match find_one [("_id", VOid oid)] (job_descriptions db) with
  | Some d => let* jd := lift (job_of_stored db d) in ret (Some jd)
  | None => ret None
  end.

(** [{k: v for k, v in data.dict().items() if v is not None}] *)
Definition drop_none (d : doc) : doc := filter (λ kv, kv.2 ≠ VNone) d.

(** [update]; [jd_data] is [JobDescriptionUpdate.dict()]. *)
Definition JobRepository_update {pd : Pydantic} (env : Env) (jd_id : string) (jd_data : doc)
    (recruiter_id : string) : M (option JobDescription.t) :=
  let* db := get_database in
  let* oid := lift (ObjectId (VStr jd_id)) in
  match find_one [("_id", VOid oid)] (job_descriptions db) with
  | None => ret None
  | Some jd =>
    if negb (String.eqb (py_str (dict_get jd "recruiter_id"))
                        (py_str (VStr recruiter_id)))
    then raise (ValueError "Unauthorized: You can only update your own jobs")
    else
      let update_data := drop_none jd_data in
      let update_data := <["updated_at" := VDate (utcnow env)]> update_data in
      let* oid' := lift (ObjectId (VStr jd_id)) in
      let* _ := put_database
            (set_job_descriptions db
               (update_one [("_id", VOid oid')] update_data (job_descriptions db))) in
      JobRepository_get_by_id jd_id
  end.

(** ** [modules/jobs/router.py]

    The file carries unresolved merge markers around its imports and its
    file endpoints; the endpoints below are the same on every side. *)

Definition get_jobs {pd : Pydantic} (status : option string) (current_user : User.t)
  : M (list JobDescription.t) :=
  if bool_decide (User.role current_user = CONSULTANT)
  then JobRepository_get_all 0 100 (Some "OPEN")
  else JobRepository_get_all 0 100 status.

Definition get_job {pd : Pydantic} (jd_id : string) (current_user : User.t) : M JobDescription.t :=
  let* jd := JobRepository_get_by_id jd_id in
  match jd with
  | None => raise (HTTPException 404 "Job not found")
  | Some jd => ret jd
  end.

Definition update_job {pd : Pydantic} (env : Env) (jd_id : string) (jd_data : doc)
    (current_user : User.t) : M JobDescription.t :=
  let* current_user := lift (require_recruiter_or_admin current_user) in
  catch_ValueError
    (let* updated_jd := JobRepository_update env jd_id jd_data (User.id current_user) in
     match updated_jd with
     | None => raise (HTTPException 404 "Job not found or unauthorized")
     | Some jd => ret jd
     end)
    (λ e, raise (HTTPException 403 (str_exn e))).

(** ** [modules/consultants/models.py] *)

Module ConsultantProfile.
Record t : Type := mk {
  experience_years : Q;
  tech_stack : list string;
  available : bool;
  location : option string;
  visa_status : option string;
  rating : option Q;
  notes : option string;
  professional_summary : option string;
  linkedin_url : option string;
  github_url : option string;
  portfolio_url : option string;
  education : option (list (string * string));
  certifications : list string;
  phone : option string;
  resume_path : option string;
  tech_stack_proficiency : option (list (string * string));
  id : string;
  user_id : string;
  email : option string;
  name : option string;
}.
End ConsultantProfile.

(** [ConsultantProfile] built from a document: the fields of
    [ConsultantProfileBase], then those of [ConsultantProfile]; [phone],
    declared by both, keeps its first place. *)
Definition ConsultantProfile_of_doc {pd : Pydantic} (d : doc)
  : result ConsultantProfile.t :=
  let! experience_years := field_required (ge0 float_value) d "experience_years" in
  let! tech_stack := field_default list_str_value [] d "tech_stack" in
  let! available := field_default bool_value true d "available" in
  let! location := field_optional str_value d "location" in
  let! visa_status := field_optional str_value d "visa_status" in
  let! rating := field_optional float_value d "rating" in
  let! notes := field_optional str_value d "notes" in
  let! professional_summary := field_optional str_value d "professional_summary" in
  let! linkedin_url := field_optional str_value d "linkedin_url" in
  let! github_url := field_optional str_value d "github_url" in
  let! portfolio_url := field_optional str_value d "portfolio_url" in
  let! education := field_optional dict_value d "education" in
  let! certifications := field_default list_str_value [] d "certifications" in
  let! phone := field_optional str_value d "phone" in
  let! resume_path := field_optional str_value d "resume_path" in
  let! tech_stack_proficiency :=
    field_optional dict_str_value d "tech_stack_proficiency" in
  let! id := field_required str_value d "id" in
  let! user_id := field_required str_value d "user_id" in
  let! email := field_optional str_value d "email" in
  let! name := field_optional str_value d "name" in
  Ok {| ConsultantProfile.experience_years := experience_years;
        ConsultantProfile.tech_stack := tech_stack;
        ConsultantProfile.available := available;
        ConsultantProfile.location := location;
        ConsultantProfile.visa_status := visa_status;
        ConsultantProfile.rating := rating;
        ConsultantProfile.notes := notes;
        ConsultantProfile.professional_summary := professional_summary;
        ConsultantProfile.linkedin_url := linkedin_url;
        ConsultantProfile.github_url := github_url;
        ConsultantProfile.portfolio_url := portfolio_url;
        ConsultantProfile.education := education;
        ConsultantProfile.certifications := certifications;
        ConsultantProfile.phone := phone;
        ConsultantProfile.resume_path := resume_path;
        ConsultantProfile.tech_stack_proficiency := tech_stack_proficiency;
        ConsultantProfile.id := id;
        ConsultantProfile.user_id := user_id;
        ConsultantProfile.email := email;
        ConsultantProfile.name := name |}.

(** [ConsultantProfileUpdate(experience_years=x).dict()] *)
Definition ConsultantProfileUpdate_experience (x : Q) : doc :=
  list_to_map
    [("experience_years", VFloat x); ("tech_stack", VNone); ("available", VNone);
     ("location", VNone); ("visa_status", VNone); ("notes", VNone);
     ("professional_summary", VNone); ("linkedin_url", VNone);
     ("github_url", VNone); ("portfolio_url", VNone); ("education", VNone);
     ("certifications", VNone); ("phone", VNone); ("resume_path", VNone);
     ("tech_stack_proficiency", VNone)].

(** ** [modules/consultants/repository.py] *)

Definition set_consultants (db : Database) (c : collection) : Database :=
  {| recruiters := recruiters db; consultants := c;
     admins := admins db; users := users db;
     job_descriptions := job_descriptions db; submissions := submissions db;
     consultant_profiles := consultant_profiles db |}.

Definition set_consultant_profiles (db : Database) (c : collection) : Database :=
  {| recruiters := recruiters db; consultants := consultants db;
     admins := admins db; users := users db;
     job_descriptions := job_descriptions db; submissions := submissions db;
     consultant_profiles := c |}.

(** [k not in d or d[k] is None] *)
Definition absent_or_none (d : doc) (k : string) : bool :=
  match d !! k with
  | None | Some VNone => true
  | Some _ => false
  end.

(** [_merge_user_data] *)
Definition _merge_user_data (profile_doc : doc) (db : Database) : doc :=
  let profile_doc :=
    if absent_or_none profile_doc "tech_stack"
    then <["tech_stack" := VList []]> profile_doc else profile_doc in
  let profile_doc :=
    if absent_or_none profile_doc "experience_years"
    then <["experience_years" := VFloat 0]> profile_doc else profile_doc in
  let consultant_id := dict_get profile_doc "consultant_id" in
  if negb (truthy consultant_id) then
    <["email" := VStr "N/A"]> (<["name" := VStr "Unknown User"]> profile_doc)
  else
    match ObjectId consultant_id with
    | Raise _ => <["name" := VStr "Invalid ID"]> profile_doc
    | Ok oid =>
      match find_one [("_id", VOid oid)] (consultants db) with
      | Some user_data =>
        <["phone" := default (VStr "") (user_data !! "phone")]>
          (<["name" := default (VStr "Unknown") (user_data !! "name")]>
             (<["email" := default (VStr "") (user_data !! "email")]> profile_doc))
      | None =>
        <["email" := VStr "N/A"]> (<["name" := VStr "Unknown User"]> profile_doc)
      end
    end.

(** The body shared by [get_by_user_id] and the loop of [get_all]. *)
Definition profile_of_stored {pd : Pydantic} (db : Database) (d : doc)
  : result ConsultantProfile.t :=
  let! i := getitem d "_id" in
  let d := <["id" := VStr (py_str i)]> d in
  let d :=
    match d !! "consultant_id" with
    | Some c => <["user_id" := c]> d
    | None => d
    end in
  let d := _merge_user_data d db in
  ConsultantProfile_of_doc d.

Definition ConsultantRepository_get_by_user_id {pd : Pydantic} (user_id : string)
  : M (option ConsultantProfile.t) :=
  let* db := get_database in
  match find_one [("consultant_id", VStr user_id)] (consultant_profiles db) with
  | Some profile_data =>
    let* p := lift (profile_of_stored db profile_data) in ret (Some p)
  | None => ret None
  end.

(** [create_or_update]; [profile_data] is [ConsultantProfileUpdate.dict()]. *)
Definition ConsultantRepository_create_or_update {pd : Pydantic} (env : Env) (user_id : string)
    (profile_data : doc) : M (option ConsultantProfile.t) :=
  let* db := get_database in
  let update_data := drop_none profile_data in
  let phone := dict_get update_data "phone" in
  let update_data := delete "phone" update_data in
  let* db :=
    if bool_decide (phone ≠ VNone) then
      match ObjectId (VStr user_id) with
      | Ok oid =>
        let db' :=
          set_consultants db
            (update_one [("_id", VOid oid)]
               (<["updated_at" := VDate (utcnow env)]> {[ "phone" := phone ]})
               (consultants db)) in
        let* _ := put_database db' in ret db'
      | Raise _ => ret db
      end
    else ret db in
  let update_data := delete "email" update_data in
  let update_data := <["updated_at" := VDate (utcnow env)]> update_data in
  let defaults : doc :=
    list_to_map
      [("created_at", VDate (utcnow env)); ("consultant_id", VStr user_id);
       ("tech_stack", VList []); ("experience_years", VFloat 0)] in
  let defaults :=
    if bool_decide (is_Some (update_data !! "experience_years"))
    then delete "experience_years" defaults else defaults in
  let defaults :=
    if bool_decide (is_Some (update_data !! "tech_stack"))
    then delete "tech_stack" defaults else defaults in
  let* profiles :=
    lift (upsert_one (upsert_oid env) [("consultant_id", VStr user_id)]
            update_data defaults (consultant_profiles db)) in
  let* _ := put_database (set_consultant_profiles db profiles) in
  ConsultantRepository_get_by_user_id user_id.

(** [get_all]; the filter on [user_ids] is [{"$in": user_ids}]. *)
Definition ConsultantRepository_get_all {pd : Pydantic} (skip limit : nat)
    (user_ids : option (list string)) : M (list ConsultantProfile.t) :=
  let* db := get_database in
  let selected :=
    match user_ids with
    | None => consultant_profiles db
    | Some ids =>
      List.filter
        (λ d, existsb (λ i, bool_decide (d !! "consultant_id" = Some (VStr i))) ids)
        (consultant_profiles db)
    end in
  let cursor := cursor_limit limit (cursor_skip skip selected) in
  lift (mapM_result (profile_of_stored db) cursor).

(** ** [modules/consultants/router.py] *)

Definition get_consultant_profile {pd : Pydantic} (user_id : string) (current_user : User.t)
  : M ConsultantProfile.t :=
  let* current_user := lift (require_recruiter_or_admin current_user) in
  let* profile := ConsultantRepository_get_by_user_id user_id in
  match profile with
  | None => raise (HTTPException 404 "Consultant profile not found")
  | Some p => ret p
  end.

Definition get_all_consultants {pd : Pydantic} (skip limit : nat) (current_user : User.t)
  : M (list ConsultantProfile.t) :=
  let* current_user := lift (require_recruiter_or_admin current_user) in
  ConsultantRepository_get_all skip limit None.

(** ** [modules/submissions/models.py] *)

Inductive SubmissionStatus : Type :=
| SUBMITTED | INTERVIEW | OFFER | JOINED | REJECTED | ON_HOLD | WITHDRAWN.

Global Instance SubmissionStatus_eq_dec : EqDecision SubmissionStatus.
Proof. solve_decision. Defined.

Definition SubmissionStatus_value (s : SubmissionStatus) : string :=
  match s with
  | SUBMITTED => "SUBMITTED"
  | INTERVIEW => "INTERVIEW"
  | OFFER => "OFFER"
  | JOINED => "JOINED"
  | REJECTED => "REJECTED"
  | ON_HOLD => "ON_HOLD"
  | WITHDRAWN => "WITHDRAWN"
  end.

Definition SubmissionStatus_all : list SubmissionStatus :=
  [SUBMITTED; INTERVIEW; OFFER; JOINED; REJECTED; ON_HOLD; WITHDRAWN].

Definition SubmissionStatus_of_string (s : string) : option SubmissionStatus :=
  List.find (λ st, String.eqb (SubmissionStatus_value st) s) SubmissionStatus_all.

Module Submission.
Record t : Type := mk {
  id : string;
  jd_id : string;
  comments : option string;
  consultant_id : string;
  recruiter_id : string;
  resume_path : string;
  status : SubmissionStatus;
  recruiter_read : bool;
  created_at : Z;
  updated_at : Z;
  consultant_name : option string;
  consultant_email : option string;
  jd_title : option string;
}.
End Submission.

(** [Submission] built from the stored fields. *)
Definition Submission_of_doc (d : doc) : result Submission.t :=
  let! jd_id := req_str d "jd_id" in
  let! comments := opt_str d "comments" in
  let! id := req_str d "id" in
  let! consultant_id := req_str d "consultant_id" in
  let! recruiter_id := req_str d "recruiter_id" in
  let! resume_path := req_str d "resume_path" in
  let! status_text := req_str d "status" in
  match SubmissionStatus_of_string status_text with
  | None => Raise (ValidationError "status")
  | Some status =>
    let! recruiter_read := bool_or d "recruiter_read" false in
    let! created_at := req_date d "created_at" in
    let! updated_at := req_date d "updated_at" in
    let! consultant_name := opt_str d "consultant_name" in
    let! consultant_email := opt_str d "consultant_email" in
    let! jd_title := opt_str d "jd_title" in
    Ok (Submission.mk id jd_id comments consultant_id recruiter_id resume_path
          status recruiter_read created_at updated_at
          consultant_name consultant_email jd_title)
  end.

(** [SubmissionUpdate]: the body of a status request. *)
Module SubmissionUpdate.
Record t : Type := mk {
  status : option SubmissionStatus;
  comments : option string;
  recruiter_read : option bool;
}.
End SubmissionUpdate.

(** ** [modules/submissions/repository.py] *)

Definition set_submissions (db : Database) (c : collection) : Database :=
  {| recruiters := recruiters db; consultants := consultants db;
     admins := admins db; users := users db;
     job_descriptions := job_descriptions db; submissions := c;
     consultant_profiles := consultant_profiles db |}.

Definition opt_str_val (o : option string) : pyval :=
  match o with Some s => VStr s | None => VNone end.

(** [create]; [jd_id] and [comments] are the fields of [SubmissionCreate]. *)
Definition SubmissionRepository_create (env : Env) (jd_id : string)
    (comments : option string) (consultant_id : string) (recruiter_id : pyval)
    (resume_path : string) : M Submission.t :=
  let* db := get_database in
  let d : doc := list_to_map [("jd_id", VStr jd_id); ("comments", opt_str_val comments)] in
  let d := <["consultant_id" := VStr consultant_id]> d in
  let d := <["recruiter_id" := VStr (py_str recruiter_id)]> d in
  let d := <["resume_path" := VStr resume_path]> d in
  let d := <["status" := VStr (SubmissionStatus_value SUBMITTED)]> d in
  let d := <["recruiter_read" := VBool false]> d in
  let d := <["created_at" := VDate (utcnow env)]> d in
  let d := <["updated_at" := VDate (utcnow env)]> d in
  let* r := lift (insert_one (new_oid env) d (submissions db)) in
  let '(c, d, inserted_id) := r in
  let* _ := put_database (set_submissions db c) in
  let d := <["id" := VStr (py_str inserted_id)]> d in
  lift (Submission_of_doc d).

Definition SubmissionRepository_get_by_id (submission_id : string)
  : M (option Submission.t) :=
  let* db := get_database in
  let* oid := lift (ObjectId (VStr submission_id)) in
  match find_one [("_id", VOid oid)] (submissions db) with
  | Some d =>
    let* i := lift (getitem d "_id") in
    let d := <["id" := VStr (py_str i)]> d in
    let* s := lift (Submission_of_doc d) in ret (Some s)
  | None => ret None
  end.

(** [update_status]: the [recruiter_id] argument is received and not read. *)
Definition SubmissionRepository_update_status (env : Env) (submission_id : string)
    (status : SubmissionStatus) (recruiter_id : string) : M (option Submission.t) :=
  let* db := get_database in
  let* oid := lift (ObjectId (VStr submission_id)) in
  let upd : doc :=
    list_to_map [("status", VStr (SubmissionStatus_value status));
                 ("updated_at", VDate (utcnow env))] in
  let* _ := put_database
              (set_submissions db (update_one [("_id", VOid oid)] upd (submissions db))) in
  SubmissionRepository_get_by_id submission_id.

(** ** [modules/submissions/router.py] *)

(** [os.path.splitext(name)[1]]: the text from the last dot of the last
    path component, leading dots of that component apart. *)
Fixpoint last_component (acc : list ascii) (s : list ascii) : list ascii :=
  match s with
  | [] => acc
  | c :: s' => if Ascii.eqb c "/" then last_component [] s'
               else last_component (acc ++ [c]) s'
  end.

Fixpoint ext_from_last_dot (s : list ascii) : option (list ascii) :=
  match s with
  | [] => None
  | c :: s' =>
    match ext_from_last_dot s' with
    | Some e => Some e
    | None => if Ascii.eqb c "." then Some (c :: s') else None
    end
  end.

Fixpoint drop_leading_dots (l : list ascii) : list ascii :=
  match l with
  | c :: l' => if Ascii.eqb c "." then drop_leading_dots l' else l
  | [] => []
  end.

Definition splitext_ext (filename : string) : string :=
  let base := last_component [] (list_ascii_of_string filename) in
  match ext_from_last_dot (drop_leading_dots base) with
  | Some e => string_of_list_ascii e
  | None => ""
  end.

(** An uploaded file. *)
Record UploadFile : Type := {
  filename : string;
  file : list Z;
}.

Definition UPLOAD_DIR : string := "uploads".

(** [with open(path, "wb") as buffer: shutil.copyfileobj(src, buffer)] *)
Definition write_file (env : Env) (path : string) (content : list Z) : M unit :=
  λ w, if disk_ok env
       then (Ok tt, {| db_handle := db_handle w; files := <[path := content]> (files w);
                       log := log w |})
       else (Raise OSError, w).

Definition create_submission {pd : Pydantic} (env : Env) (jd_id : string) (comments : option string)
    (resume : UploadFile) (current_user : User.t) : M Submission.t :=
  let* current_user := lift (require_role CONSULTANT current_user) in
  let* jd := JobRepository_get_by_id jd_id in
  match jd with
  | None => raise (HTTPException 404 "Job not found")
  | Some jd =>
    if negb (String.eqb (JobDescription.status jd) "OPEN")
    then raise (HTTPException 400 "Job is not open for applications")
    else
      let* _ :=
        catch
          (let* profile := ConsultantRepository_get_by_user_id (User.id current_user) in
           match profile with
           | Some _ => ret tt
           | None =>
             let* _ := ConsultantRepository_create_or_update env
                         (User.id current_user)
                         (ConsultantProfileUpdate_experience 0) in
             ret tt
           end)
          (λ _, ret tt) in
      catch
        (let file_ext := splitext_ext (filename resume) in
         let filename :=
           User.id current_user +:+ "_" +:+ jd_id +:+ "_" +:+ urandom_hex env
             +:+ file_ext in
         let file_path := UPLOAD_DIR +:+ "/" +:+ filename in
         let* _ := write_file env file_path (file resume) in
         SubmissionRepository_create env jd_id comments (User.id current_user)
           (VStr (JobDescription.recruiter_id jd)) file_path)
        (λ e, raise (HTTPException 500 ("Error processing submission: " +:+ str_exn e)))
  end.

Definition update_submission_status (env : Env) (submission_id : string)
    (status_update : SubmissionUpdate.t) (current_user : User.t)
  : M (option Submission.t) :=
  let* current_user := lift (require_recruiter_or_admin current_user) in
  match SubmissionUpdate.status status_update with
  | None => raise (HTTPException 400 "Status is required")
  | Some status =>
    let* submission := SubmissionRepository_get_by_id submission_id in
    match submission with
    | None => raise (HTTPException 404 "Submission not found")
    | Some _ =>
      SubmissionRepository_update_status env submission_id status
        (User.id current_user)
    end
  end.

(** ** [core/models.py]: [UserCreate] *)

(** [validate_password_length] *)
Definition validate_password_length (v : pystr) : result pystr :=
  if bool_decide (v = []) then Raise (ValueError "Password is required")
  else
    match utf8_encode v with
    | None => Raise UnicodeEncodeError
    | Some password_bytes =>
      let byte_count := length password_bytes in
      if (72 <? byte_count)%nat then Raise (ValueError "Password is too long")
      else if (length v <? 6)%nat
      then Raise (ValueError "Password must be at least 6 characters")
      else Ok v
    end.

Module UserCreate.
Record t : Type := mk {
  email : string;
  name : string;
  role : UserRole;
  is_active : bool;
  password : pystr;
}.
End UserCreate.

(** The body of a registration request, before validation. *)
Record UserCreateBody : Type := {
  body_email : string;
  body_name : string;
  body_role : string;
  body_is_active : option bool;
  body_password : pystr;
}.

(** [str.isspace] on one code point. *)
Definition isspace_codepoint (c : Z) : bool :=
  ((9 <=? c) && (c <=? 13) || (28 <=? c) && (c <=? 32) || (c =? 0x85) || (c =? 0xA0)
   || (c =? 0x1680) || (0x2000 <=? c) && (c <=? 0x200A) || (c =? 0x2028)
   || (c =? 0x2029) || (c =? 0x202F) || (c =? 0x205F) || (c =? 0x3000))%Z.

(** [UserLogin]: the password must be present; its length is not
    checked. *)
Definition validate_password_present (v : pystr) : result pystr :=
  if bool_decide (v = []) || forallb isspace_codepoint v
  then Raise (ValidationError "Password is required")
  else Ok v.

(** ** [core/auth.py]: account lookup and authentication *)

Section Accounts.
Context {ev : EmailValidator} {ctx : CryptContext}.

(** [get_user_by_email]: every failure inside is logged and turned
    into [None]. *)
Definition get_user_by_email (email : string) (w : World) : option User.t :=
  if is_blank email then None
  else
    match db_handle w with
    | None => None
    | Some db =>
      let user_data := find_one [("email", VStr email)] (recruiters db) in
      let user_data :=
        match user_data with
        | Some d => Some d
        | None => find_one [("email", VStr email)] (consultants db)
        end in
      let user_data :=
        match user_data with
        | Some d => Some d
        | None => find_one [("email", VStr email)] (admins db)
        end in
      match user_data with
      | Some user_data =>
        match getitem user_data "_id" with
        | Raise _ => None
        | Ok i =>
          let user_data := <["id" := VStr (py_str i)]> user_data in
          match User_of_doc user_data with
          | Ok user => Some user
          | Raise _ => None
          end
        end
      | None => None
      end
    end.

(** [authenticate_user] *)
Definition authenticate_user (email : string) (password : pystr)
  : M (option User.t) :=
  λ w,
    match get_user_by_email email w with
    | None => (Ok None, w)
    | Some user =>
      let '(l, ok) := verify_password password (User.hashed_password user) in
      let w' := {| db_handle := db_handle w; files := files w; log := log w ++ l |} in
      if ok then (Ok (Some user), w') else (Ok None, w')
    end.

(** [login], up to the choice of the account the token is issued for:
    the result is the subject of the token. *)
Definition login (email : string) (password : pystr) : M string :=
  match validate_email email, validate_password_present password with
  | Some email, Ok password =>
    let* user := authenticate_user email password in
    match user with
    | None => raise (HTTPException 401 "Incorrect email or password")
    | Some user =>
      if negb (User.is_active user)
      then raise (HTTPException 401 "User account is deactivated")
      else ret (User.email user)
    end
  | _, _ => raise (HTTPException 422 "validation error")
  end.

(** Building [UserCreate] from a request body: the field constraints,
    [min_length=6] among them, then the [password] validator. *)
Definition UserCreate_validate (b : UserCreateBody) : result UserCreate.t :=
  let! (e, n, r) := UserBase_check (body_email b) (body_name b) (body_role b) in
  if (length (body_password b) <? 6)%nat then Raise (ValidationError "password")
  else
    match validate_password_length (body_password b) with
    | Raise e => Raise (ValidationError (str_exn e))
    | Ok p => Ok (UserCreate.mk e n r (default true (body_is_active b)) p)
    end.

(** ** [modules/auth/user_repositories]: [create]

    The three repositories differ in the collection they write and in
    the role they stamp. *)

Definition role_collection (role : UserRole) (db : Database) : collection :=
  match role with
  | RECRUITER => recruiters db
  | CONSULTANT => consultants db
  | ADMIN => admins db
  end.

Definition set_role_collection (role : UserRole) (db : Database) (c : collection)
  : Database :=
  {| recruiters := if bool_decide (role = RECRUITER) then c else recruiters db;
     consultants := if bool_decide (role = CONSULTANT) then c else consultants db;
     admins := if bool_decide (role = ADMIN) then c else admins db;
     users := users db;
     job_descriptions := job_descriptions db; submissions := submissions db;
     consultant_profiles := consultant_profiles db |}.

Definition set_users (db : Database) (c : collection) : Database :=
  {| recruiters := recruiters db; consultants := consultants db;
     admins := admins db; users := c;
     job_descriptions := job_descriptions db; submissions := submissions db;
     consultant_profiles := consultant_profiles db |}.

(** The outer handlers: a [ValueError] is raised again, anything else
    becomes a [ValueError]. *)
Definition role_noun (role : UserRole) : string :=
  match role with
  | RECRUITER => "recruiter"
  | CONSULTANT => "consultant"
  | ADMIN => "admin"
  end.

Definition as_ValueError {A} (role : UserRole) (m : M A) : M A :=
  catch m (λ e, if is_ValueError e then raise e
                else raise (ValueError ("Failed to create " +:+ role_noun role
                                        +:+ ": " +:+ str_exn e))).

Definition UserRepository_create (env : Env) (sl : salt) (role : UserRole)
    (user_data : UserCreate.t) : M User.t :=
  as_ValueError role
    (let* db := get_database in
     let q := [("email", VStr (UserCreate.email user_data))] in
     if bool_decide (is_Some (find_one q (recruiters db)))
        || bool_decide (is_Some (find_one q (consultants db)))
        || bool_decide (is_Some (find_one q (admins db)))
     then raise (ValueError "Email already exists")
     else
       match utf8_encode (UserCreate.password user_data) with
       | None => raise UnicodeEncodeError
       | Some _ =>
         let '(l, hashed) := get_password_hash sl (UserCreate.password user_data) in
         let* _ := emit l in
         let* hashed_password := lift hashed in
         let d : doc :=
           list_to_map
             [("email", VStr (UserCreate.email user_data));
              ("name", VStr (UserCreate.name user_data));
              ("role", VStr (UserRole_value role));
              ("is_active", VBool (UserCreate.is_active user_data));
              ("hashed_password", VStr hashed_password);
              ("created_at", VDate (utcnow env));
              ("updated_at", VDate (utcnow env))] in
         match insert_one (new_oid env) d (role_collection role db) with
         | Raise DuplicateKeyError =>
           raise (ValueError "Email already exists (duplicate key constraint)")
         | Raise e => raise e
         | Ok (c, d, inserted) =>
           let inserted_id := py_str inserted in
           let db := set_role_collection role db c in
           let db :=
             match insert_one (new_oid env) d (users db) with
             | Ok (u, _, _) => set_users db u
             | Raise _ => db
             end in
           let* _ := put_database db in
           let d := <["id" := VStr inserted_id]> d in
           lift (User_of_doc d)
         end
       end).

(** [modules/auth/repository.py]: [AuthRepository.create_user] *)
Definition AuthRepository_create_user (env : Env) (sl : salt)
    (user_data : UserCreate.t) : M User.t :=
  UserRepository_create env sl (UserCreate.role user_data) user_data.

(** [modules/auth/router.py]: [register].  The framework builds
    [UserCreate] from the body and answers 422 when that fails; the
    handler runs only afterwards. *)
Definition register (env : Env) (sl : salt) (body : UserCreateBody) : M User.t :=
  match UserCreate_validate body with
  | Raise e => raise (HTTPException 422 (str_exn e))
  | Ok user_data =>
    catch (AuthRepository_create_user env sl user_data)
      (λ e, if is_ValueError e then raise (HTTPException 400 (str_exn e))
            else raise (HTTPException 400 ("Registration failed: " +:+ str_exn e)))
  end.

(** [modules/auth/router.py]: [create_user] (admin only) *)
Definition create_user (env : Env) (sl : salt) (body : UserCreateBody)
    (current_user : User.t) : M User.t :=
  match UserCreate_validate body with
  | Raise e => raise (HTTPException 422 (str_exn e))
  | Ok user_data =>
    if negb (bool_decide (User.role current_user = ADMIN))
    then raise (HTTPException 403 "Admin access required")
    else
      catch (AuthRepository_create_user env sl user_data)
        (λ e, if is_ValueError e then raise (HTTPException 400 (str_exn e))
              else raise (HTTPException 500 "Failed to create user"))
  end.

End Accounts.

(** ** [core/ai_service.py] *)

(** What [json.loads] returns. *)
#[local] Unset Elimination Schemes.
Inductive json : Type :=
| JNull
| JBool (b : bool)
| JInt (n : Z)
| JFloat (x : Q)
| JStr (s : string)
| JList (l : list json)
| JDict (d : list (string * json)).
#[local] Set Elimination Schemes.

Definition json_truthy (v : json) : bool :=
  match v with
  | JNull => false
  | JBool b => b
  | JInt n => negb (n =? 0)%Z
  | JFloat x => negb (Qnum x =? 0)%Z
  | JStr s => negb (String.eqb s "")
  | JList l => match l with [] => false | _ => true end
  | JDict d => match d with [] => false | _ => true end
  end.

(** [x or None] *)
Definition or_None (v : json) : json := if json_truthy v then v else JNull.

Fixpoint assoc_get (d : list (string * json)) (k : string) : option json :=
  match d with
  | [] => None
  | (k', v) :: d' => if String.eqb k' k then Some v else assoc_get d' k
  end.

(** [data.get(k, dflt)]; on anything but a dictionary the attribute is
    missing. *)
Definition json_get (data : json) (k : string) (dflt : json) : result json :=
  match data with
  | JDict d => Ok (default dflt (assoc_get d k))
  | _ => Raise AttributeError
  end.

(** The parts of the Python runtime and of the libraries that the
    adapter calls. *)
Class PyRuntime : Type := {
  float_of_int : Z → option Q;            (* [float(n)], [None]: overflow *)
  float_of_string : string → option Q;    (* [float(s)], [None]: not a number *)
  fromisoformat : string → option Z;      (* [datetime.fromisoformat] *)
  json_loads : string → option json;
}.

(** [s.replace("Z", "+00:00")] *)
Fixpoint replace_Z (s : string) : string :=
  match s with
  | EmptyString => EmptyString
  | String c s' =>
    if Ascii.eqb c "Z" then "+00:00" +:+ replace_Z s' else String c (replace_Z s')
  end.

Fixpoint string_drop (n : nat) (s : string) : string :=
  match n, s with
  | O, _ => s
  | S n', String _ s' => string_drop n' s'
  | S _, EmptyString => EmptyString
  end.

Definition startswith (s p : string) : bool := String.prefix p s.
Definition endswith (s p : string) : bool := String.prefix (String.rev p) (String.rev s).

(** [s[:-n]] *)
Definition string_drop_end (n : nat) (s : string) : string :=
  String.rev (string_drop n (String.rev s)).

Module Classified.
Record t : Type := mk {
  title : string;
  client_name : json;
  experience_required : Q;
  tech_required : json;
  location : json;
  visa_required : json;
  start_date : json;
  job_type : json;
  jd_summary : json;
  additional_notes : json;
  description : string;
}.
End Classified.

Section AIService.
Context {rt : PyRuntime}.

(** [float(x)] *)
Definition py_float (v : json) : result Q :=
  match v with
  | JInt n =>
    match float_of_int n with Some x => Ok x | None => Raise OverflowError end
  | JFloat x => Ok x
  | JBool b => Ok (if b then 1%Q else 0%Q)
  | JStr s =>
    match float_of_string s with
    | Some x => Ok x
    | None => Raise (ValueError "could not convert string to float")
    end
  | _ => Raise TypeError
  end.

(** [v.strip()] *)
Definition json_strip (v : json) : result string :=
  match v with
  | JStr s => Ok (strip s)
  | _ => Raise AttributeError
  end.

(** The check on [start_date]: a true value stays only when it is text
    that [fromisoformat] reads once [Z] is replaced. *)
Definition check_start_date (v : json) : json :=
  if json_truthy v then
    match v with
    | JStr s =>
      match fromisoformat (replace_Z s) with
      | Some _ => v
      | None => JNull
      end
    | _ => JNull
    end
  else v.

(** The block "Validate and normalize the response". *)
Definition normalize_classified (classified_data : json) (jd_text : string)
  : result Classified.t :=
  let! t := json_get classified_data "title" (JStr "") in
  let! title := json_strip t in
  let! client_name := json_get classified_data "client_name" JNull in
  let! e := json_get classified_data "experience_required" (JInt 0) in
  let! experience_required := py_float e in
  let! tech_required := json_get classified_data "tech_required" (JList []) in
  let! location := json_get classified_data "location" JNull in
  let! visa_required := json_get classified_data "visa_required" JNull in
  let! start_date := json_get classified_data "start_date" JNull in
  let! job_type := json_get classified_data "job_type" JNull in
  let! jd_summary := json_get classified_data "jd_summary" JNull in
  let! additional_notes := json_get classified_data "additional_notes" JNull in
  let title := if String.eqb title "" then "Untitled Position" else title in
  let tech_required :=
    match tech_required with JList _ => tech_required | _ => JList [] end in
  let start_date := check_start_date (or_None start_date) in
  Ok (Classified.mk title (or_None client_name) experience_required
        tech_required (or_None location) (or_None visa_required) start_date
        (or_None job_type) (or_None jd_summary) (or_None additional_notes)
        jd_text).

(** Removal of a Markdown code fence around the answer. *)
Definition strip_code_fence (response_text : string) : string :=
  let response_text := strip response_text in
  let response_text :=
    if startswith response_text "```json" then string_drop 7 response_text
    else response_text in
  let response_text :=
    if startswith response_text "```" then string_drop 3 response_text
    else response_text in
  let response_text :=
    if endswith response_text "```" then string_drop_end 3 response_text
    else response_text in
  strip response_text.

(** [classify_job_description]; [api_key] is [settings.GEMINI_API_KEY]
    and [response] is what the call to the text service gave. *)
Definition classify_job_description (api_key : string) (response : result string)
    (jd_text : string) : result Classified.t :=
  if String.eqb api_key "" then Raise (ValueError "GEMINI_API_KEY is not configured")
  else
    let body :=
      let! text := response in
      match json_loads (strip_code_fence text) with
      | None => Raise (ValueError "AI returned invalid JSON")
      | Some classified_data => normalize_classified classified_data jd_text
      end in
    match body with
    | Ok r => Ok r
    | Raise e => Raise (ValueError ("Failed to classify job description: " +:+ str_exn e))
    end.

End AIService.

(** ** Notions used to state the properties *)

(** The text that [verify_password] and [get_password_hash] hand to the
    hashing library, [None] when the password cannot be encoded. *)
Definition password_for_hashing (password : pystr) : option pystr :=
  match utf8_encode password with
  | None => None
  | Some password_bytes =>
    if (PASSWORD_MAX_BYTES <? length password_bytes)%nat
    then Some (utf8_decode_ignore
                 (drop_incomplete (take PASSWORD_MAX_BYTES password_bytes)))
    else Some password
  end.

(** A computation that leaves the world as it found it, and one that
    writes no log line. *)
Definition read_only {A} (m : M A) : Prop := ∀ w, (m w).2 = w.
Definition keeps_log {A} (m : M A) : Prop := ∀ w, log (m w).2 = log w.

(** [w'] differs from [w] at most in the collections of accounts and
    profiles. *)
Definition same_business_data (w w' : World) : Prop :=
  files w' = files w ∧ log w' = log w
  ∧ submissions <$> db_handle w' = submissions <$> db_handle w
  ∧ job_descriptions <$> db_handle w' = job_descriptions <$> db_handle w.

(** The path [create_submission] stores an upload under. *)
Definition resume_file_path (env : Env) (user_id jd_id : string) (resume : UploadFile)
  : string :=
  UPLOAD_DIR +:+ "/" +:+
    (user_id +:+ "_" +:+ jd_id +:+ "_" +:+ urandom_hex env
       +:+ splitext_ext (filename resume)).

(** What a reference to an account turns out to be when it is looked up:
    empty or absent, refused by [ObjectId], an id without a document, or
    found. *)
Inductive reference_state : Type :=
| RefEmpty
| RefMalformed
| RefMissing
| RefFound (user_data : doc).

Definition resolve_reference (ref : pyval) (accounts : collection) : reference_state :=
  if negb (truthy ref) then RefEmpty
  else
    match ObjectId ref with
    | Raise _ => RefMalformed
    | Ok oid =>
      match find_one [("_id", VOid oid)] accounts with
      | Some user_data => RefFound user_data
      | None => RefMissing
      end
    end.




(** What is assumed of the address check: it accepts no blank text. *)
Class EmailValidatorLaws (ev : EmailValidator) : Prop := {
  validated_email_not_blank : ∀ s s', validate_email s = Some s' → is_blank s = false;
}.

Section AccountNotions.
Context {ev : EmailValidator}.

(** The account a stored document stands for. *)
Definition stored_account (d : doc) : result User.t :=
  let! i := getitem d "_id" in
  User_of_doc (<["id" := VStr (py_str i)]> d).

(** Every document of the three account collections is a valid
    account, as the repositories that write them ensure. *)
Definition accounts_valid (db : Database) : Prop :=
  Forall (λ d, is_ok (stored_account d) = true)
    (recruiters db ++ consultants db ++ admins db).
End AccountNotions.

(** The lookup as the specification words it: the collections are
    probed in the order recruiters, consultants, admins and the first
    document with the address is taken. *)
Definition first_account_doc (email : string) (db : Database) : option doc :=
  head (List.filter (matches [("email", VStr email)])
          (recruiters db ++ consultants db ++ admins db)).

(** ** Reference instances of the interfaces

    They make the definitions above runnable in the examples. *)

(** A hashing context that keeps no secret: the "hash" is a printable
    code of the password. *)
Definition plain_hash (p : pystr) : string := pretty (Npos (encode p)).

Definition plain_context : CryptContext :=
  {| salt := unit;
     pwd_hash := λ _ p, plain_hash p;
     pwd_verify := λ p h, String.eqb (plain_hash p) h |}.

(** An address is accepted when it has an [@]; it is kept as it is. *)
Definition at_sign_validator : EmailValidator :=
  {| validate_email := λ s,
       if existsb (Ascii.eqb "@") (list_ascii_of_string s) then Some s else None |}.

(** A parsed answer with a blank title, skills given as text and a date
    in words. *)
Definition sample_answer : list (string * json) :=
  [("title", JStr "   "); ("client_name", JStr "Acme");
   ("experience_required", JInt 5); ("tech_required", JStr "python, mongodb");
   ("start_date", JStr "next month")].

(** A runtime that converts small integers, reads no text as a number,
    knows one date and parses one answer. *)
Definition small_runtime : PyRuntime :=
  {| float_of_int := λ n, if (Z.abs n <? 2 ^ 1000)%Z then Some (inject_Z n) else None;
     float_of_string := λ _, None;
     fromisoformat := λ s, if String.eqb s "2025-01-15" then Some 20103%Z else None;
     json_loads := λ s,
       if String.eqb s "answer" then Some (JDict sample_answer) else None |}.

(** The conversions that take a value of the field's own type, an [int]
    for a [float], and nothing else. *)
Definition strict_pydantic : Pydantic :=
  {| str_value := λ v, match v with VStr s => Some s | _ => None end;
     float_value := λ v,
       match v with
       | VFloat x => Some x
       | VInt n => Some (inject_Z n)
       | _ => None
       end;
     bool_value := λ v, match v with VBool b => Some b | _ => None end;
     datetime_value := λ v, match v with VDate t => Some t | _ => None end;
     list_str_value := λ v, match v with VList l => Some l | _ => None end;
     dict_value := λ v, match v with VDict m => Some m | _ => None end;
     dict_str_value := λ v, match v with VDict m => Some m | _ => None end |}.

(** Conversions that also read the digits of a small number written as
    text. *)
Definition digits_pydantic : Pydantic :=
  {| str_value := str_value (Pydantic := strict_pydantic);
     float_value := λ v,
       match v with
       | VStr "0" => Some 0%Q
       | VStr "1" => Some 1%Q
       | VStr "2" => Some 2%Q
       | VStr "3" => Some 3%Q
       | _ => float_value (Pydantic := strict_pydantic) v
       end;
     bool_value := bool_value (Pydantic := strict_pydantic);
     datetime_value := datetime_value (Pydantic := strict_pydantic);
     list_str_value := list_str_value (Pydantic := strict_pydantic);
     dict_value := dict_value (Pydantic := strict_pydantic);
     dict_str_value := dict_str_value (Pydantic := strict_pydantic) |}.

(** Twenty-four euro signs are exactly 72 bytes, twenty-five are 75. *)
Definition euros (n : nat) : pystr := repeat 0x20AC%Z n.

(** ** Sample data for the examples *)

Definition account_doc (oid email name role : string) (h : string) : doc :=
  list_to_map
    [("_id", VOid oid); ("email", VStr email); ("name", VStr name);
     ("role", VStr role); ("is_active", VBool true); ("hashed_password", VStr h);
     ("created_at", VDate 1000); ("updated_at", VDate 1000)].

Definition job_doc (oid recruiter_id title status : string) : doc :=
  list_to_map
    [("_id", VOid oid); ("recruiter_id", VStr recruiter_id); ("title", VStr title);
     ("description", VStr "Build and run services"); ("experience_required", VInt 3);
     ("tech_required", VList ["python"; "mongodb"]); ("status", VStr status);
     ("created_at", VDate 2000); ("updated_at", VDate 2000)].

Definition submission_doc (oid jd_id consultant_id recruiter_id status : string) : doc :=
  list_to_map
    [("_id", VOid oid); ("jd_id", VStr jd_id); ("comments", VNone);
     ("consultant_id", VStr consultant_id); ("recruiter_id", VStr recruiter_id);
     ("resume_path", VStr "uploads/cv.pdf"); ("status", VStr status);
     ("recruiter_read", VBool false);
     ("created_at", VDate 3000); ("updated_at", VDate 3000)].

Definition profile_doc (oid : string) (consultant_id : pyval) : doc :=
  list_to_map
    [("_id", VOid oid); ("consultant_id", consultant_id);
     ("experience_years", VFloat 4); ("tech_stack", VList ["python"]);
     ("updated_at", VDate 1500)].

Definition rita_id : string := "aaaaaaaaaaaaaaaaaaaaaa01".
Definition raul_id : string := "aaaaaaaaaaaaaaaaaaaaaa02".
Definition carl_id : string := "cccccccccccccccccccccc01".
Definition ada_id : string := "dddddddddddddddddddddd01".
Definition gone_id : string := "eeeeeeeeeeeeeeeeeeeeee01".
Definition open_job_id : string := "bbbbbbbbbbbbbbbbbbbbbb01".
Definition closed_job_id : string := "bbbbbbbbbbbbbbbbbbbbbb02".
Definition stray_job_id : string := "bbbbbbbbbbbbbbbbbbbbbb03".
Definition orphan_job_id : string := "bbbbbbbbbbbbbbbbbbbbbb04".
Definition submission_id : string := "ffffffffffffffffffffff01".

Definition sample_db : Database :=
  {| recruiters :=
       [account_doc rita_id "rita@example.com" "Rita" "RECRUITER" "h-rita";
        account_doc raul_id "raul@example.com" "Raul" "RECRUITER" "h-raul"];
     consultants :=
       [account_doc carl_id "carl@example.com" "Carl" "CONSULTANT" "h-carl";
        account_doc "cccccccccccccccccccccc02" "rita@example.com" "Rita C."
          "CONSULTANT" "h-rita-c"];
     admins := [account_doc ada_id "ada@example.com" "Ada" "ADMIN" "h-ada"];
     users := [];
     job_descriptions :=
       [job_doc open_job_id rita_id "Backend engineer" "OPEN";
        job_doc closed_job_id rita_id "Data engineer" "CLOSED";
        job_doc stray_job_id "not-an-id" "Site engineer" "OPEN";
        job_doc orphan_job_id gone_id "Test engineer" "OPEN"];
     submissions :=
       [submission_doc submission_id open_job_id carl_id rita_id "SUBMITTED"];
     consultant_profiles :=
       [profile_doc "999999999999999999999901" (VStr carl_id);
        profile_doc "999999999999999999999902" (VStr "not-an-id");
        profile_doc "999999999999999999999903" (VStr gone_id)] |}.

Definition sample_world : World :=
  {| db_handle := Some sample_db; files := ∅; log := [] |}.

Definition sample_env : Env :=
  {| utcnow := 5000; new_oid := "121212121212121212121212";
     upsert_oid := "343434343434343434343434"; urandom_hex := "deadbeef";
     disk_ok := true |}.

Definition rita : User.t :=
  User.mk rita_id "rita@example.com" "Rita" RECRUITER true "h-rita" 1000 1000.
Definition raul : User.t :=
  User.mk raul_id "raul@example.com" "Raul" RECRUITER true "h-raul" 1000 1000.
Definition carl : User.t :=
  User.mk carl_id "carl@example.com" "Carl" CONSULTANT true "h-carl" 1000 1000.
Definition ada : User.t :=
  User.mk ada_id "ada@example.com" "Ada" ADMIN true "h-ada" 1000 1000.

Definition long_password_body : UserCreateBody :=
  {| body_email := "new@example.com"; body_name := "New"; body_role := "CONSULTANT";
     body_is_active := None; body_password := euros 25 |}.

(** A job of Rita's with no optional field, as it is read. *)
Definition job_of_rita (id title status : string) : JobDescription.t :=
  JobDescription.mk title "Build and run services" None 3 ["python"; "mongodb"]
    None None None None None None None None status id rita_id 2000 2000
    (Some "Rita") (Some "rita@example.com").

Definition open_job : JobDescription.t :=
  job_of_rita open_job_id "Backend engineer" "OPEN".

Definition closed_job : JobDescription.t :=
  job_of_rita closed_job_id "Data engineer" "CLOSED".

Definition resume_upload : UploadFile :=
  {| filename := "carl.cv.pdf"; file := [37; 80; 68; 70]%Z |}.

(** The addresses of the stored accounts, collection by collection. *)
Definition account_emails (db : Database) : list pyval :=
  omap (λ d : doc, d !! "email") (recruiters db ++ consultants db ++ admins db).

(** A database in which every address is stored once. *)
Definition tidy_db : Database :=
  {| recruiters := recruiters sample_db;
     consultants := [account_doc carl_id "carl@example.com" "Carl" "CONSULTANT" "h-carl"];
     admins := admins sample_db;
     users := [];
     job_descriptions := job_descriptions sample_db;
     submissions := submissions sample_db;
     consultant_profiles := consultant_profiles sample_db |}.

Definition tidy_world : World :=
  {| db_handle := Some tidy_db; files := ∅; log := [] |}.

(** The text "password" *)
Definition plain_password_text : pystr := [112; 97; 115; 115; 119; 111; 114; 100]%Z.

Definition nina_body : UserCreateBody :=
  {| body_email := "nina@example.com"; body_name := "Nina"; body_role := "CONSULTANT";
     body_is_active := None; body_password := plain_password_text |}.


(** [modules/jobs/repository.py]: [create]; [jd_data] is
    [JobDescriptionCreate.dict()]. *)
Definition JobRepository_create {pd : Pydantic} (env : Env) (jd_data : doc) (recruiter_id : string)
  : M JobDescription.t :=
  let* db := get_database in
  let jd_doc := jd_data in
  let jd_doc := <["recruiter_id" := VStr recruiter_id]> jd_doc in
  let jd_doc := <["created_at" := VDate (utcnow env)]> jd_doc in
  let jd_doc := <["updated_at" := VDate (utcnow env)]> jd_doc in
  let* r := lift (insert_one (new_oid env) jd_doc (job_descriptions db)) in
  let '(c, jd_doc, inserted_id) := r in
  let* _ := put_database (set_job_descriptions db c) in
  let jd_doc := <["id" := VStr (py_str inserted_id)]> jd_doc in
  lift (JobDescription_of_doc jd_doc).

(** [modules/jobs/router.py]: [create_job] *)
Definition create_job {pd : Pydantic} (env : Env) (jd_data : doc) (current_user : User.t)
  : M JobDescription.t :=
  let* current_user := lift (require_recruiter_or_admin current_user) in
  JobRepository_create env jd_data (User.id current_user).

(** [JobDescriptionCreate(...).dict()] for a job with no optional field. *)
Definition new_job_data : doc :=
  list_to_map
    [("title", VStr "Platform engineer"); ("description", VStr "Keep the platform up");
     ("client_name", VNone); ("experience_required", VFloat 2);
     ("tech_required", VList ["go"]); ("location", VNone); ("visa_required", VNone);
     ("start_date", VNone); ("job_type", VNone); ("jd_summary", VNone);
     ("additional_notes", VNone); ("jd_file_url", VNone); ("notes", VNone);
     ("status", VStr "OPEN")].

(** ** [modules/submissions/repository.py]: the listings *)

(** [cursor.sort(key, -1)] is the database's: it returns the documents
    it was given, in the order it chose. *)
Class CursorSort : Type := {
  sort_desc : string → collection → collection;
}.

Class CursorSortLaws (cs : CursorSort) : Prop := {
  sort_desc_perm : ∀ k c, sort_desc k c ≡ₚ c;
}.

(** [find_one({"_id": ObjectId(ref)})].  [ObjectId(None)] draws a new
    id, which no stored document carries. *)
Definition lookup_by_ref (ref : pyval) (c : collection) : result (option doc) :=
  match ref with
  | VNone => Ok None
  | _ => let! oid := ObjectId ref in Ok (find_one [("_id", VOid oid)] c)
  end.

(** An [Optional[float]] and an [Optional[List[str]]] field. *)
Definition opt_float (d : doc) (k : string) : result (option Q) :=
  match d !! k with
  | None | Some VNone => Ok None
  | Some (VInt n) => Ok (Some (inject_Z n))
  | Some (VFloat x) => Ok (Some x)
  | _ => Raise (ValidationError k)
  end.

Definition opt_list_str (d : doc) (k : string) : result (option (list string)) :=
  match d !! k with
  | None | Some VNone => Ok None
  | Some (VList l) => Ok (Some l)
  | _ => Raise (ValidationError k)
  end.

(** [Submission] with the fields of the job that only [get_all] fills. *)
Module SubmissionListed.
Record t : Type := mk {
  submission : Submission.t;
  jd_location : option string;
  jd_experience_required : option Q;
  jd_tech_required : option (list string);
  jd_description : option string;
}.
End SubmissionListed.

Definition SubmissionListed_of_doc (d : doc) : result SubmissionListed.t :=
  let! s := Submission_of_doc d in
  let! jd_location := opt_str d "jd_location" in
  let! jd_experience_required := opt_float d "jd_experience_required" in
  let! jd_tech_required := opt_list_str d "jd_tech_required" in
  let! jd_description := opt_str d "jd_description" in
  Ok (SubmissionListed.mk s jd_location jd_experience_required jd_tech_required
        jd_description).

(** The body of the loop of [get_by_consultant]. *)
Definition consultant_row (db : Database) (d : doc) : result Submission.t :=
  let! i := getitem d "_id" in
  let d := <["id" := VStr (py_str i)]> d in
  let d :=
    match (let! j := getitem d "jd_id" in lookup_by_ref j (job_descriptions db)) with
    | Ok (Some jd) => <["jd_title" := default (VStr "Unknown Job") (jd !! "title")]> d
    | Ok None => d
    | Raise _ => <["jd_title" := VStr "Unknown Job"]> d
    end in
  Submission_of_doc d.

(** The body of the loop of [get_all]. *)
Definition listed_row (db : Database) (d : doc) : result SubmissionListed.t :=
  let! i := getitem d "_id" in
  let d := <["id" := VStr (py_str i)]> d in
  let d :=
    match (let! c := getitem d "consultant_id" in lookup_by_ref c (consultants db)) with
    | Ok (Some consultant_user) =>
      <["consultant_email" := default (VStr "") (consultant_user !! "email")]>
        (<["consultant_name" := default (VStr "Unknown") (consultant_user !! "name")]> d)
    | _ => <["consultant_email" := VStr ""]> (<["consultant_name" := VStr "Unknown"]> d)
    end in
  let d :=
    match (let! j := getitem d "jd_id" in lookup_by_ref j (job_descriptions db)) with
    | Ok (Some jd) =>
      <["jd_description" := dict_get jd "description"]>
        (<["jd_tech_required" := default (VList []) (jd !! "tech_required")]>
           (<["jd_experience_required" := dict_get jd "experience_required"]>
              (<["jd_location" := dict_get jd "location"]>
                 (<["jd_title" := default (VStr "Unknown") (jd !! "title")]> d))))
    | _ => <["jd_title" := VStr "Unknown"]> d
    end in
  SubmissionListed_of_doc d.

Section Listings.
Context {cs : CursorSort}.

Definition SubmissionRepository_get_by_consultant (consultant_id : string)
  : M (list Submission.t) :=
  let* db := get_database in
  let cursor :=
    sort_desc "created_at"
      (find [("consultant_id", VStr consultant_id)] (submissions db)) in
  lift (mapM_result (consultant_row db) cursor).

Definition SubmissionRepository_get_all (recruiter_id : option string)
  : M (list SubmissionListed.t) :=
  let* db := get_database in
  let query :=
    match recruiter_id with
    | Some r => if negb (String.eqb r "") then [("recruiter_id", VStr (py_str (VStr r)))]
                else []
    | None => []
    end in
  let cursor := sort_desc "created_at" (find query (submissions db)) in
  lift (mapM_result (listed_row db) cursor).

(** ** [modules/submissions/router.py]: the listings *)

Definition get_my_submissions (current_user : User.t) : M (list Submission.t) :=
  let* current_user := lift (require_role CONSULTANT current_user) in
  SubmissionRepository_get_by_consultant (User.id current_user).

Definition get_all_submissions (current_user : User.t) : M (list SubmissionListed.t) :=
  let* current_user := lift (require_recruiter_or_admin current_user) in
  if bool_decide (User.role current_user = RECRUITER)
  then SubmissionRepository_get_all (Some (User.id current_user))
  else SubmissionRepository_get_all None.

(** ** [modules/consultants/router.py]: [get_application_stats] *)

(** [timedelta(days=n)]; a datetime counts seconds. *)
Definition timedelta_days (n : Z) : Z := (n * 86400)%Z.

(** [sum(1 for s in submissions if s.status == status)] *)
Definition count_status (submissions : list Submission.t) (status : SubmissionStatus)
  : nat :=
  length (List.filter (λ s, bool_decide (Submission.status s = status)) submissions).

(** The statistics returned; [success_rate], a rounded float, is left
    out. *)
Record ApplicationStats : Type := {
  total : nat;
  pending : nat;
  interviews : nat;
  offers : nat;
  joined : nat;
  rejected : nat;
  withdrawn : nat;
  recent_30_days : nat;
  by_status : list (string * nat);
}.

(** [stats_by_status.get(k, 0)] *)
Definition stats_get (stats_by_status : list (string * nat)) (k : string) : nat :=
  default 0%nat (snd <$> List.find (λ kv, String.eqb kv.1 k) stats_by_status).

Definition get_application_stats (env : Env) (current_user : User.t)
  : M ApplicationStats :=
  if negb (bool_decide (User.role current_user = CONSULTANT))
  then raise (HTTPException 403 "Only consultants can view their statistics")
  else
    catch
      (let* submissions := SubmissionRepository_get_by_consultant (User.id current_user) in
       let total := length submissions in
       let stats_by_status :=
         map (λ status, (SubmissionStatus_value status, count_status submissions status))
           SubmissionStatus_all in
       let pending :=
         (stats_get stats_by_status (SubmissionStatus_value SUBMITTED)
          + stats_get stats_by_status (SubmissionStatus_value ON_HOLD))%nat in
       let interviews := stats_get stats_by_status (SubmissionStatus_value INTERVIEW) in
       let offers := stats_get stats_by_status (SubmissionStatus_value OFFER) in
       let joined := stats_get stats_by_status (SubmissionStatus_value JOINED) in
       let rejected := stats_get stats_by_status (SubmissionStatus_value REJECTED) in
       let withdrawn := stats_get stats_by_status (SubmissionStatus_value WITHDRAWN) in
       let thirty_days_ago := (utcnow env - timedelta_days 30)%Z in
       let recent_submissions :=
         List.filter (λ s, (thirty_days_ago <=? Submission.created_at s)%Z) submissions in
       let recent_count := length recent_submissions in
       ret {| total := total; pending := pending; interviews := interviews;
              offers := offers; joined := joined; rejected := rejected;
              withdrawn := withdrawn; recent_30_days := recent_count;
              by_status := stats_by_status |})
      (λ e, raise (HTTPException 500 ("Error getting statistics: " +:+ str_exn e))).

End Listings.

(** A sort by date for the examples: newest first, documents without a
    date last. *)
Definition date_of (k : string) (d : doc) : Z :=
  match d !! k with Some (VDate t) => t | _ => (-1)%Z end.

Fixpoint insert_desc (k : string) (d : doc) (c : collection) : collection :=
  match c with
  | [] => [d]
  | x :: c' => if (date_of k x <? date_of k d)%Z then d :: c else x :: insert_desc k d c'
  end.

Definition insertion_sort : CursorSort :=
  {| sort_desc := λ k c, foldr (insert_desc k) [] c |}.

(** ** [modules/consultants/router.py]: the caller's own profile *)

Definition get_my_profile {pd : Pydantic} (env : Env) (current_user : User.t)
  : M (option ConsultantProfile.t) :=
  if negb (bool_decide (User.role current_user = CONSULTANT))
  then raise (HTTPException 403 "Only consultants have profiles")
  else
    let* profile := ConsultantRepository_get_by_user_id (User.id current_user) in
    match profile with
    | None =>
      ConsultantRepository_create_or_update env (User.id current_user)
        (ConsultantProfileUpdate_experience 0)
    | Some profile => ret (Some profile)
    end.

(** [profile_data] is [ConsultantProfileUpdate.dict()]. *)
Definition update_my_profile {pd : Pydantic}
    (env : Env) (profile_data : doc) (current_user : User.t)
  : M (option ConsultantProfile.t) :=
  if negb (bool_decide (User.role current_user = CONSULTANT))
  then raise (HTTPException 403 "Only consultants can update their profile")
  else ConsultantRepository_create_or_update env (User.id current_user) profile_data.

(** The consultants the stored profiles belong to, profile by profile. *)
Definition profile_owners (db : Database) : list pyval :=
  omap (λ d : doc, d !! "consultant_id") (consultant_profiles db).

(** A consultant without a stored profile. *)
Definition rita_c : User.t :=
  User.mk "cccccccccccccccccccccc02" "rita@example.com" "Rita C." CONSULTANT true
    "h-rita-c" 1000 1000.

(** ** [core/auth.py]: the remaining role gates *)

Definition require_admin (current_user : User.t) : result User.t :=
  if negb (bool_decide (User.role current_user = ADMIN))
  then Raise (HTTPException 403 "Admin access required")
  else Ok current_user.

Definition require_consultant_or_admin (current_user : User.t) : result User.t :=
  let allowed_roles := [CONSULTANT; ADMIN] in
  if negb (bool_decide (User.role current_user ∈ allowed_roles))
  then Raise (HTTPException 403 "Consultant or admin access required")
  else Ok current_user.

(** ** [core/auth.py]: tokens *)

(** [settings.ACCESS_TOKEN_EXPIRE_MINUTES], read from the environment
    when the module is loaded. *)
Class Settings : Type := {
  ACCESS_TOKEN_EXPIRE_MINUTES : Z;
}.

(** [jose.jwt] with the application's key and algorithm.  Encoding
    returns the token or fails, with a [JWTError] or otherwise;
    decoding at a given time returns the claims, or nothing when it
    raises, whatever it raises. *)
Inductive jwt_failure : Type :=
| JWTError (msg : string)
| JWTOther (e : exn).

Class JWT : Type := {
  jwt_encode : doc → jwt_failure + string;
  jwt_decode : Z → string → option doc;
}.

(** What is assumed of it: until it expires, a token made of a subject
    and an expiry, the only claims the application encodes, decodes to
    claims with that subject. *)
Class JWTLaws (jwt : JWT) : Prop := {
  jwt_decode_encode : ∀ (sub token : string) (now exp : Z),
    jwt_encode (<["exp" := VDate exp]> {[ "sub" := VStr sub ]}) = inr token →
    (now <= exp)%Z →
    ∃ payload, jwt_decode now token = Some payload
               ∧ payload !! "sub" = Some (VStr sub);
}.

(** [timedelta(minutes=n)]; a datetime counts seconds. *)
Definition timedelta_minutes (n : Z) : Z := (n * 60)%Z.

(** [TokenData(email=v).email]: the validator wants text that is not
    blank and has an [@]. *)
Definition TokenData_email (v : pyval) : result (option string) :=
  match v with
  | VNone => Ok None
  | VStr s =>
    if is_blank s then Raise (ValidationError "Email cannot be empty if provided")
    else if negb (existsb (Ascii.eqb "@") (list_ascii_of_string s))
    then Raise (ValidationError "Invalid email format")
    else Ok (Some s)
  | _ => Raise (ValidationError "email")
  end.

Definition credentials_exception : exn :=
  HTTPException 401 "Could not validate credentials".

Section Tokens.
Context {ev : EmailValidator} {ctx : CryptContext} {st : Settings} {jwt : JWT}.

(** [create_access_token]; a [timedelta] of zero counts as none. *)
Definition create_access_token (env : Env) (data : doc) (expires_delta : option Z)
  : result string :=
  let to_encode := data in
  let expire :=
    match expires_delta with
    | Some delta =>
      if negb (delta =? 0)%Z then (utcnow env + delta)%Z
      else (utcnow env + timedelta_minutes ACCESS_TOKEN_EXPIRE_MINUTES)%Z
    | None => (utcnow env + timedelta_minutes ACCESS_TOKEN_EXPIRE_MINUTES)%Z
    end in
  let to_encode := <["exp" := VDate expire]> to_encode in
  match jwt_encode to_encode with
  | inr encoded_jwt => Ok encoded_jwt
  | inl (JWTError msg) => Raise (ValueError ("Token encoding failed: " +:+ msg))
  | inl (JWTOther e) => Raise (ValueError ("Token creation failed: " +:+ str_exn e))
  end.

(** [get_current_user]; [token] is [credentials.credentials]. *)
Definition get_current_user (env : Env) (token : string) : M User.t :=
  λ w,
    match jwt_decode (utcnow env) token with
    | None => (Raise credentials_exception, w)
    | Some payload =>
      let email := dict_get payload "sub" in
      if bool_decide (email = VNone) then (Raise credentials_exception, w)
      else
        match TokenData_email email with
        | Raise _ => (Raise credentials_exception, w)
        | Ok token_data_email =>
          let user :=
            match token_data_email with
            | Some e => get_user_by_email e w
            | None => None
            end in
          match user with
          | None => (Raise credentials_exception, w)
          | Some user => (Ok user, w)
          end
        end
    end.

(** [modules/auth/router.py]: [login] with the token it returns. *)
Definition login_for_token (env : Env) (email : string) (password : pystr) : M string :=
  match validate_email email, validate_password_present password with
  | Some email, Ok password =>
    catch
      (let* user := authenticate_user email password in
       match user with
       | None => raise (HTTPException 401 "Incorrect email or password")
       | Some user =>
         if negb (User.is_active user)
         then raise (HTTPException 401 "User account is deactivated")
         else
           let access_token_expires := timedelta_minutes ACCESS_TOKEN_EXPIRE_MINUTES in
           lift (create_access_token env {[ "sub" := VStr (User.email user) ]}
                   (Some access_token_expires))
       end)
      (λ e, match e with
            | HTTPException _ _ => raise e
            | _ => raise (HTTPException 500 "Login failed due to internal error")
            end)
  | _, _ => raise (HTTPException 422 "validation error")
  end.

(** [refresh_token] *)
Definition refresh_token (env : Env) (current_user : User.t) : result string :=
  match create_access_token env {[ "sub" := VStr (User.email current_user) ]}
          (Some (timedelta_minutes ACCESS_TOKEN_EXPIRE_MINUTES)) with
  | Ok access_token => Ok access_token
  | Raise _ => Raise (HTTPException 500 "Token refresh failed")
  end.

End Tokens.

(** What more is assumed of the address check: an address it returned
    is returned as it is when checked again, and an address it accepts
    has an [@]. *)
Class EmailValidatorNormal (ev : EmailValidator) : Prop := {
  validate_email_idem : ∀ s s', validate_email s = Some s' → validate_email s' = Some s';
  validate_email_at : ∀ s s', validate_email s = Some s' →
    existsb (Ascii.eqb "@") (list_ascii_of_string s) = true;
}.

(** Reference instances: half an hour, and tokens that are the subject
    in clear and never expire. *)
Definition default_settings : Settings := {| ACCESS_TOKEN_EXPIRE_MINUTES := 30 |}.

Definition clear_jwt : JWT :=
  {| jwt_encode := λ claims,
       match claims !! "sub" with
       | Some (VStr sub) => inr sub
       | _ => inl (JWTError "no subject")
       end;
     jwt_decode := λ _ token, Some {[ "sub" := VStr token ]} |}.

(** ** Paths of uploads *)

Definition no_slash_list (l : list ascii) : bool :=
  negb (existsb (Ascii.eqb "/") l).

(** ["/" not in s] *)
Definition no_slash (s : string) : bool :=
  no_slash_list (list_ascii_of_string s).

(** A world in which Carl's stored hash is that of "password". *)
Definition token_world : World :=
  {| db_handle :=
       Some {| recruiters := []; 
               consultants :=
                 [account_doc carl_id "carl@example.com" "Carl" "CONSULTANT"
                    (plain_hash plain_password_text)];
               admins := []; users := []; job_descriptions := [];
               submissions := []; consultant_profiles := [] |};
     files := ∅; log := [] |}.

(** ** [core/config.py]: the origins allowed by CORS *)

Definition DEFAULT_CORS_ORIGINS : list string :=
  ["http://localhost:3000"; "http://localhost:3001"; "http://127.0.0.1:3000";
   "http://127.0.0.1:3001"; "http://frontend:3000"].

(** [s.split(sep)] with a separator of one character: the pieces
    between the separators, empty ones too, at least one piece. *)
Fixpoint py_split (sep : ascii) (s : string) : list string :=
  match s with
  | EmptyString => [EmptyString]
  | String c s' =>
    if Ascii.eqb c sep then EmptyString :: py_split sep s'
    else match py_split sep s' with
         | h :: t => String c h :: t
         | [] => [String c EmptyString]
         end
  end.

(** [Settings.get_cors_origins], as a function of the environment
    variable [CORS_ORIGINS] read when the class is made.  Nothing in
    the guarded block can raise on a string. *)
Definition get_cors_origins (CORS_ORIGINS_ENV : string) : list string :=
  let origins := DEFAULT_CORS_ORIGINS in
  if negb (String.eqb CORS_ORIGINS_ENV "")
  then
    let additional_origins :=
      omap (λ origin, if negb (String.eqb (strip origin) "")
                      then Some (strip origin) else None)
        (py_split "," CORS_ORIGINS_ENV) in
    origins ++ additional_origins
  else origins.

(** Text without a comma; text, empty or not, that begins with a whole
    character and whose first and last characters are not white
    space. *)
Definition comma_free (s : string) : bool :=
  string_forallb (λ c, negb (Ascii.eqb c ",")) s.

Definition trimmed (s : string) : Prop :=
  starts_char s = true
  ∧ ∀ ch, head (chars s) = Some ch ∨ last (chars s) = Some ch → py_isspace ch = false.

(** An entry of the variable: an origin between white space. *)
Definition padded (item : string * string * string) : string :=
  let '(pre, o, post) := item in pre +:+ o +:+ post.

(** ** [modules/auth/user_repositories]: [deactivate] and [activate]

    As for [create], the three repositories differ in the collection
    they write and in the noun of their messages. *)

(** [result.modified_count] of [update_one]: one when the first match
    is changed by the update, zero otherwise. *)
Definition modified_count (query : list (string * pyval)) (upd : doc) (c : collection)
  : nat :=
  match find_one query c with
  | Some d => if bool_decide (upd ∪ d = d) then 0 else 1
  | None => 0
  end.

(** The common body: [deactivate] sets [is_active] to [False],
    [activate] to [True]; the messages name the verb. *)
Definition set_is_active (verb : string) (active : bool) (env : Env) (role : UserRole)
    (user_id : string) : M bool :=
  catch
    (let* object_id :=
       lift (match ObjectId (VStr user_id) with
             | Raise InvalidId =>
               Raise (ValueError ("Invalid " +:+ role_noun role +:+ " ID format: "
                                  +:+ user_id))
             | r => r
             end) in
     let* db := get_database in
     let update_data : doc :=
       list_to_map [("is_active", VBool active); ("updated_at", VDate (utcnow env))] in
     let query := [("_id", VOid object_id)] in
     let result_modified_count :=
       modified_count query update_data (role_collection role db) in
     let db := set_role_collection role db
                 (update_one query update_data (role_collection role db)) in
     let db :=
       if (0 <? result_modified_count)%nat
       then set_users db (update_one query update_data (users db))
       else db in
     let* _ := put_database db in
     ret (0 <? result_modified_count)%nat)
    (λ e, if is_ValueError e then raise e
          else raise (ValueError ("Failed to " +:+ verb +:+ " " +:+ role_noun role
                                  +:+ ": " +:+ str_exn e))).

Definition UserRepository_deactivate : Env → UserRole → string → M bool :=
  set_is_active "deactivate" false.

Definition UserRepository_activate : Env → UserRole → string → M bool :=
  set_is_active "activate" true.

(** An account as it reads after its [is_active] was set. *)
Definition with_is_active (active : bool) (now : Z) (user : User.t) : User.t :=
  User.mk (User.id user) (User.email user) (User.name user) (User.role user) active
    (User.hashed_password user) (User.created_at user) now.

(** ** [modules/auth/user_repositories]: [delete] *)

(** [delete_one(filter)]: the first match is removed;
    [result.deleted_count] tells whether there was one. *)
Fixpoint delete_one (query : list (string * pyval)) (c : collection) : collection :=
  match c with
  | [] => []
  | d :: c' => if matches query d then c' else d :: delete_one query c'
  end.

Definition deleted_count (query : list (string * pyval)) (c : collection) : nat :=
  match find_one query c with
  | Some _ => 1
  | None => 0
  end.

Definition UserRepository_delete (role : UserRole) (user_id : string) : M bool :=
  catch
    (let* object_id :=
       lift (match ObjectId (VStr user_id) with
             | Raise InvalidId =>
               Raise (ValueError ("Invalid " +:+ role_noun role +:+ " ID format: "
                                  +:+ user_id))
             | r => r
             end) in
     let* db := get_database in
     let query := [("_id", VOid object_id)] in
     let deleted := (0 <? deleted_count query (role_collection role db))%nat in
     let db := set_role_collection role db (delete_one query (role_collection role db)) in
     let db := if deleted then set_users db (delete_one query (users db)) else db in
     let* _ := put_database db in
     ret deleted)
    (λ e, if is_ValueError e then raise e
          else raise (ValueError ("Failed to delete " +:+ role_noun role
                                  +:+ ": " +:+ str_exn e))).

(** * Properties *)

(** ** Text *)

Lemma join_chars_chars (s : string) : join_chars (chars s) = s.
Proof.
  induction s as [|c s IH]; [done|]. cbn [chars].
  destruct (chars s) as [|ch rest]; [by rewrite <- IH|].
  change (join_chars (ch :: rest)) with (ch +:+ join_chars rest) in IH.
  destruct (starts_char ch);
    [change (String c (EmptyString +:+ (ch +:+ join_chars rest)) = String c s)
    |change (String c (ch +:+ join_chars rest) = String c s)];
    by rewrite <- IH.
Qed.

Lemma join_chars_app (l1 l2 : list string) :
  join_chars (l1 ++ l2) = join_chars l1 +:+ join_chars l2.
Proof.
  induction l1 as [|ch l1 IH]; [done|].
  change (ch +:+ join_chars (l1 ++ l2) = (ch +:+ join_chars l1) +:+ join_chars l2).
  rewrite IH. clear. induction ch as [|c ch IH]; [done|].
  change (String c (ch +:+ (join_chars l1 +:+ join_chars l2))
          = String c ((ch +:+ join_chars l1) +:+ join_chars l2)).
  by rewrite IH.
Qed.

(** The first character of a text begins with its first byte. *)
Lemma chars_cons (c : ascii) (s : string) :
  ∃ ch rest, chars (String c s) = String c ch :: rest.
Proof.
  cbn [chars]. destruct (chars s) as [|ch rest]; [by eexists _, _|].
  destruct (starts_char ch); by eexists _, _.
Qed.

Lemma chars_starts_char (s : string) :
  match chars s with
  | ch :: _ => starts_char ch = starts_char s
  | [] => s = EmptyString
  end.
Proof.
  destruct s as [|c s]; [done|].
  by destruct (chars_cons c s) as (ch & rest & ->).
Qed.

Lemma chars_app (s1 s2 : string) :
  starts_char s2 = true → chars (s1 +:+ s2) = chars s1 ++ chars s2.
Proof.
  intros Hs2. induction s1 as [|c s1 IH]; [done|].
  change (String c s1 +:+ s2) with (String c (s1 +:+ s2)).
  cbn [chars]. rewrite IH.
  destruct (chars s1) as [|ch rest]; cbn [app]; [|by destruct (starts_char ch)].
  pose proof (chars_starts_char s2) as H2.
  destruct (chars s2) as [|ch2 rest2]; [done|]. by rewrite H2, Hs2.
Qed.

Lemma py_isspace_space_chars (ch : string) :
  py_isspace ch = true → ch ∈ space_chars.
Proof.
  unfold py_isspace. intros (x & Hx & ->%String.eqb_eq)%existsb_exists.
  by apply list_elem_of_In.
Qed.

(** A white-space character is a whole character without [@] and
    without comma. *)
Lemma space_chars_bytes :
  Forall (λ ch, starts_char ch = true
                ∧ existsb (Ascii.eqb "@") (list_ascii_of_string ch) = false
                ∧ existsb (Ascii.eqb ",") (list_ascii_of_string ch) = false)
    space_chars.
Proof. repeat constructor. Qed.

Lemma list_ascii_of_string_append (s1 s2 : string) :
  list_ascii_of_string (s1 +:+ s2) = list_ascii_of_string s1 ++ list_ascii_of_string s2.
Proof. induction s1 as [|c s1 IH]; simpl; [done|]. by rewrite IH. Qed.

(** What holds of no byte of a white-space character holds of no byte
    of a blank text. *)
Lemma is_blank_bytes (f : ascii → bool) (s : string) :
  Forall (λ ch, existsb f (list_ascii_of_string ch) = false) space_chars →
  is_blank s = true → existsb f (list_ascii_of_string s) = false.
Proof.
  intros Hf Hs. rewrite <- (join_chars_chars s). unfold is_blank in Hs.
  induction (chars s) as [|ch l IH]; [done|].
  cbn [forallb] in Hs. apply andb_true_iff in Hs as [Hch Hl].
  cbn [join_chars foldr]. rewrite list_ascii_of_string_append, existsb_app.
  fold (join_chars l). rewrite (IH Hl), orb_false_r.
  apply py_isspace_space_chars in Hch.
  by apply (proj1 (Forall_forall _ _) Hf).
Qed.

Lemma is_blank_no_at (s : string) :
  is_blank s = true → existsb (Ascii.eqb "@") (list_ascii_of_string s) = false.
Proof.
  apply is_blank_bytes. eapply Forall_impl; [apply space_chars_bytes|].
  by intros ch (_ & ? & _).
Qed.

Lemma is_blank_starts_char (s : string) : is_blank s = true → starts_char s = true.
Proof.
  unfold is_blank. intros Hs. pose proof (chars_starts_char s) as H.
  destruct (chars s) as [|ch l]; [by subst|]. rewrite <- H.
  cbn [forallb] in Hs. apply andb_true_iff in Hs as [Hch _].
  apply py_isspace_space_chars in Hch.
  by apply (proj1 (Forall_forall _ _) space_chars_bytes) in Hch as (? & _).
Qed.

Lemma drop_spaces_blank (l : list string) :
  forallb py_isspace l = true → drop_spaces l = [].
Proof.
  induction l as [|ch l IH]; [done|]. cbn [forallb drop_spaces].
  intros [-> Hl]%andb_true_iff. by apply IH.
Qed.

Lemma drop_spaces_app (l1 l2 : list string) :
  forallb py_isspace l1 = true → drop_spaces (l1 ++ l2) = drop_spaces l2.
Proof.
  induction l1 as [|ch l1 IH]; [done|]. cbn [forallb app drop_spaces].
  intros [-> Hl]%andb_true_iff. by apply IH.
Qed.

Lemma drop_spaces_head (l : list string) (ch : string) :
  head l = Some ch → py_isspace ch = false → drop_spaces l = l.
Proof. destruct l as [|x l]; [done|]. cbn [head drop_spaces]. by intros [= ->] ->. Qed.

Lemma strip_blank (s : string) : is_blank s = true → strip s = "".
Proof. intros H. unfold strip. by rewrite (drop_spaces_blank _ H). Qed.


(** ** UTF-8 *)

Ltac bool_hyps :=
  repeat match goal with
  | H : _ && _ = true |- _ => apply andb_prop in H; destruct H
  | H : _ || _ = true |- _ => apply orb_prop in H
  | H : negb _ = true |- _ => apply negb_true_iff in H
  | H : (_ <=? _)%Z = true |- _ => apply Z.leb_le in H
  | H : (_ <? _)%Z = true |- _ => apply Z.ltb_lt in H
  | H : (_ =? _)%Z = false |- _ => apply Z.eqb_neq in H
  | H : (_ =? _)%Z = true |- _ => apply Z.eqb_eq in H
  end.

Lemma utf8_encode_char_length (c : Z) (n : nat) :
  match n with
  | 1%nat => (0 <= c < 0x80)%Z
  | 2%nat => (0x80 <= c < 0x800)%Z
  | 3%nat => (0x800 <= c < 0xD800)%Z ∨ (0xDFFF < c < 0x10000)%Z
  | 4%nat => (0x10000 <= c <= 0x10FFFF)%Z
  | _ => False
  end →
  ∃ bs, utf8_encode_char c = Some bs ∧ length bs = n.
Proof.
  intros H. unfold utf8_encode_char.
  destruct n as [|[|[|[|[|n]]]]]; try done;
    repeat match goal with
    | |- context [(?a <? ?b)%Z] => destruct (Z.ltb_spec a b); try lia
    | |- context [(?a <=? ?b)%Z] => destruct (Z.leb_spec a b); try lia
    end; simpl; eauto.
Qed.

Lemma utf8_encode_cons (c : Z) (s : pystr) (n : nat) (rest : bytes) :
  (∃ bs, utf8_encode_char c = Some bs ∧ length bs = n) →
  utf8_encode s = Some rest →
  ∃ out, utf8_encode (c :: s) = Some out ∧ length out = (n + length rest)%nat.
Proof.
  intros (b & Hb & Hn) Hs. simpl. rewrite Hb, Hs. eexists; split; [done|].
  rewrite length_app. lia.
Qed.

(** Whatever the bytes, what [decode(errors='ignore')] returns can be
    encoded again and is not longer than the bytes it was read from. *)
Lemma utf8_decode_ignore_encodes (n : nat) : ∀ bs : bytes,
  (length bs ≤ n)%nat →
  ∃ out, utf8_encode (utf8_decode_ignore bs) = Some out
         ∧ (length out ≤ length bs)%nat.
Proof.
  induction n as [|n IH]; intros bs Hn.
  { destruct bs; [|simpl in Hn; lia]. exists []. done. }
  destruct bs as [|b0 r0]; [by exists []|].
  simpl in Hn.
  assert (Hskip : ∃ out, utf8_encode (utf8_decode_ignore r0) = Some out
                         ∧ (length out ≤ length (b0 :: r0))%nat).
  { destruct (IH r0) as (o & ? & ?); [lia|]. exists o. simpl. split; [done|lia]. }
  cbn [utf8_decode_ignore].
  destruct ((0 <=? b0)%Z && (b0 <? 128)%Z) eqn:H1.
  { bool_hyps. destruct (IH r0) as (o & Ho & ?); [lia|].
    destruct (utf8_encode_cons b0 (utf8_decode_ignore r0) 1 o) as (out & -> & Hl); [|done|].
    - apply (utf8_encode_char_length b0 1). lia.
    - exists out. simpl. split; [done|lia]. }
  destruct r0 as [|b1 r1]; [done|].
  destruct (two_byte_seq b0 b1) eqn:H2.
  { unfold two_byte_seq, is_continuation in H2. bool_hyps.
    destruct (IH r1) as (o & Ho & ?); [simpl in *; lia|].
    edestruct (utf8_encode_cons ((b0 - 192) * 64 + (b1 - 128))%Z (utf8_decode_ignore r1) 2 o)
      as (out & -> & Hl); [|done|].
    - apply (utf8_encode_char_length _ 2). lia.
    - exists out. simpl. split; [done|lia]. }
  destruct r1 as [|b2 r2]; [done|].
  destruct (three_byte_seq b0 b1 b2) eqn:H3.
  { unfold three_byte_seq, is_continuation in H3. bool_hyps.
    destruct (IH r2) as (o & Ho & ?); [simpl in *; lia|].
    edestruct (utf8_encode_cons
                 ((b0 - 224) * 4096 + (b1 - 128) * 64 + (b2 - 128))%Z (utf8_decode_ignore r2) 3 o)
      as (out & -> & Hl); [|done|].
    - apply (utf8_encode_char_length _ 3). lia.
    - exists out. simpl. split; [done|lia]. }
  destruct r2 as [|b3 r3]; [done|].
  destruct (four_byte_seq b0 b1 b2 b3) eqn:H4; [|done].
  unfold four_byte_seq, is_continuation in H4. bool_hyps.
  destruct (IH r3) as (o & Ho & ?); [simpl in *; lia|].
  edestruct (utf8_encode_cons
               ((b0 - 240) * 262144 + (b1 - 128) * 4096 + (b2 - 128) * 64
                + (b3 - 128))%Z (utf8_decode_ignore r3) 4 o)
    as (out & -> & Hl); [|done|].
  - apply (utf8_encode_char_length _ 4). lia.
  - exists out. simpl. split; [done|lia].
Qed.

Lemma drop_incomplete_rev_length (r : bytes) :
  (length (drop_incomplete_rev r) ≤ length r)%nat.
Proof.
  induction r as [|b r IH]; simpl; [lia|].
  destruct (incomplete_tail b); simpl; lia.
Qed.

Lemma drop_incomplete_length (t : bytes) :
  (length (drop_incomplete t) ≤ length t)%nat.
Proof.
  unfold drop_incomplete. rewrite length_rev.
  etrans; [apply drop_incomplete_rev_length|]. by rewrite length_rev.
Qed.

(** The text handed to the library always fits the 72-byte limit. *)
Lemma password_for_hashing_fits (p t : pystr) :
  password_for_hashing p = Some t →
  ∃ bs, utf8_encode t = Some bs ∧ (length bs ≤ PASSWORD_MAX_BYTES)%nat.
Proof.
  unfold password_for_hashing.
  destruct (utf8_encode p) as [pb|] eqn:Hp; [|done].
  destruct (PASSWORD_MAX_BYTES <? length pb)%nat eqn:Hlen; intros [= <-].
  - destruct (utf8_decode_ignore_encodes _
                (drop_incomplete (take PASSWORD_MAX_BYTES pb)) (Nat.le_refl _))
      as (out & -> & Hout).
    exists out. split; [done|].
    etrans; [exact Hout|]. etrans; [apply drop_incomplete_length|].
    rewrite length_take. lia.
  - exists pb. split; [done|]. apply Nat.ltb_ge in Hlen. done.
Qed.

(** ** Passwords *)

Global Instance plain_context_laws : CryptContextLaws plain_context.
Proof.
  constructor. intros sl s s' bs bs' _ _ _ _. simpl. split.
  - intros H%String.eqb_eq. unfold plain_hash in H.
    apply (inj pretty) in H. injection H as H. by apply (inj encode) in H.
  - intros ->. apply String.eqb_refl.
Qed.

Section PasswordProperties.
Context {ctx : CryptContext} {laws : CryptContextLaws ctx}.

Lemma get_password_hash_result (sl : salt) (p : pystr) :
  (get_password_hash sl p).2 =
  match password_for_hashing p with
  | Some t => Ok (pwd_hash sl t)
  | None => Raise (ValueError "Password hashing failed")
  end.
Proof.
  unfold get_password_hash, password_for_hashing.
  destruct (utf8_encode p) as [pb|]; [|done].
  by destruct (PASSWORD_MAX_BYTES <? length pb)%nat.
Qed.

Lemma verify_password_result (p : pystr) (h : string) :
  (verify_password p h).2 =
  match password_for_hashing p with
  | Some t => pwd_verify t h
  | None => false
  end.
Proof.
  unfold verify_password, password_for_hashing.
  destruct (utf8_encode p) as [pb|]; [|done].
  by destruct (PASSWORD_MAX_BYTES <? length pb)%nat.
Qed.

(** A password verifies against a hash exactly when both reach the
    library as the same text. *)
Lemma verify_after_hash (sl : salt) (p q t : pystr) :
  password_for_hashing p = Some t →
  (verify_password q (pwd_hash sl t)).2 = true ↔ password_for_hashing q = Some t.
Proof.
  intros Hp. rewrite verify_password_result.
  destruct (password_for_hashing q) as [t'|] eqn:Hq; [|done].
  destruct (password_for_hashing_fits _ _ Hp) as (bs & Hbs & Hle).
  destruct (password_for_hashing_fits _ _ Hq) as (bs' & Hbs' & Hle').
  rewrite (pwd_verify_hash sl t' t bs' bs) by done.
  split; [by intros ->|by intros [= ->]].
Qed.

Lemma password_for_hashing_short (p : pystr) (bs : bytes) :
  utf8_encode p = Some bs → (length bs ≤ PASSWORD_MAX_BYTES)%nat →
  password_for_hashing p = Some p.
Proof.
  intros Hp Hle. unfold password_for_hashing. rewrite Hp.
  by apply Nat.ltb_ge in Hle as ->.
Qed.

(** C3 (as amended): for every password [p] that can be encoded as
    UTF-8, [get_password_hash] returns a hash [h] and
    [verify_password p h] is true, whatever the length of [p], since
    both functions cut the password to 72 bytes in the same way.
    [verify_password q h] is true exactly for the passwords [q] that
    are cut to the same text as [p]; in particular it is false for
    every [q] different from [p] when both fit in 72 bytes. *)
Theorem password_round_trip (sl : salt) (p : pystr) :
  utf8_encode p ≠ None →
  ∃ h, (get_password_hash sl p).2 = Ok h
       ∧ (verify_password p h).2 = true
       ∧ (∀ q, (verify_password q h).2 = true
               ↔ password_for_hashing q = password_for_hashing p)
       ∧ (∀ q bp bq, utf8_encode p = Some bp → utf8_encode q = Some bq →
                     (length bp ≤ 72)%nat → (length bq ≤ 72)%nat →
                     q ≠ p → (verify_password q h).2 = false).
Proof.
  intros Henc.
  destruct (password_for_hashing p) as [t|] eqn:Hp; last first.
  { unfold password_for_hashing in Hp. destruct (utf8_encode p) as [pb|]; [|done].
    by destruct (PASSWORD_MAX_BYTES <? length pb)%nat. }
  exists (pwd_hash sl t). rewrite get_password_hash_result, Hp.
  split; [done|]. split; [by apply (verify_after_hash sl p)|].
  split; [intros q; by apply (verify_after_hash sl p)|].
  intros q bp bq Hbp Hbq Hlp Hlq Hne.
  apply not_true_is_false. rewrite (verify_after_hash sl p q t Hp).
  rewrite (password_for_hashing_short q bq Hbq Hlq).
  rewrite (password_for_hashing_short p bp Hbp Hlp) in Hp.
  congruence.
Qed.

End PasswordProperties.

Lemma password_round_trip_witness :
  (utf8_encode (euros 24) ≠ None
   ∧ ∃ h, (get_password_hash (ctx:=plain_context) tt (euros 24)).2 = Ok h
          ∧ (verify_password (ctx:=plain_context) (euros 24) h).2 = true)
  ∧ (utf8_encode (euros 25) ≠ None
     ∧ ∃ h, (get_password_hash (ctx:=plain_context) tt (euros 25)).2 = Ok h
            ∧ (verify_password (ctx:=plain_context) (euros 25) h).2 = true).
Proof.
  split; (split; [vm_compute; discriminate|]).
  - destruct (password_round_trip (ctx:=plain_context) tt (euros 24))
      as (h & H1 & H2 & _); [vm_compute; discriminate|].
    exists h. split; assumption.
  - destruct (password_round_trip (ctx:=plain_context) tt (euros 25))
      as (h & H1 & H2 & _); [vm_compute; discriminate|].
    exists h. split; assumption.
Defined.

(** C3, counterexample: two different passwords of 73 bytes that agree
    on their first 72 bytes verify against each other's hash. *)
Lemma distinct_long_passwords_verify :
  ¬ (∀ (ctx : CryptContext), CryptContextLaws ctx →
       ∀ (sl : salt) (p q : pystr) (h : string),
         q ≠ p → (get_password_hash sl p).2 = Ok h →
         (verify_password q h).2 = false).
Proof.
  intros H.
  specialize (H plain_context _ tt (repeat 97%Z 72 ++ [98%Z]) (repeat 97%Z 72 ++ [99%Z])
                (plain_hash (repeat 97%Z 72))).
  assert (Hv : (verify_password (ctx:=plain_context) (repeat 97%Z 72 ++ [99%Z])
                  (plain_hash (repeat 97%Z 72))).2 = true).
  { rewrite (verify_after_hash (ctx:=plain_context) tt (repeat 97%Z 72 ++ [98%Z]));
      by vm_compute. }
  rewrite H in Hv; [discriminate| |].
  - intros Heq. apply (f_equal (λ l, l !! 72%nat)) in Heq. vm_compute in Heq. discriminate.
  - rewrite get_password_hash_result.
    replace (password_for_hashing (repeat 97%Z 72 ++ [98%Z]))
      with (Some (repeat 97%Z 72)) by (by vm_compute).
    done.
Qed.

(** ** The request monad *)

Create HintDb world discriminated.

Lemma read_only_keeps_log {A} (m : M A) : read_only m → keeps_log m.
Proof. intros H w. by rewrite H. Qed.

Lemma read_only_ret {A} (a : A) : read_only (ret a).
Proof. done. Qed.
Lemma read_only_raise {A} (e : exn) : read_only (raise (A:=A) e).
Proof. done. Qed.
Lemma read_only_lift {A} (r : result A) : read_only (lift r).
Proof. done. Qed.
Lemma read_only_get_database : read_only get_database.
Proof. intros w. unfold get_database. by destruct (db_handle w). Qed.

Lemma read_only_bind {A B} (m : M A) (k : A → M B) :
  read_only m → (∀ a, read_only (k a)) → read_only (bind m k).
Proof.
  intros Hm Hk w. unfold bind. specialize (Hm w).
  destruct (m w) as [[a|e] w']; simpl in *; subst; [apply Hk|done].
Qed.

Lemma read_only_catch {A} (m : M A) (h : exn → M A) :
  read_only m → (∀ e, read_only (h e)) → read_only (catch m h).
Proof.
  intros Hm Hh w. unfold catch. specialize (Hm w).
  destruct (m w) as [[a|e] w']; simpl in *; subst; [done|apply Hh].
Qed.

Lemma keeps_log_ret {A} (a : A) : keeps_log (ret a).
Proof. done. Qed.
Lemma keeps_log_raise {A} (e : exn) : keeps_log (raise (A:=A) e).
Proof. done. Qed.
Lemma keeps_log_lift {A} (r : result A) : keeps_log (lift r).
Proof. done. Qed.
Lemma keeps_log_get_database : keeps_log get_database.
Proof. apply read_only_keeps_log, read_only_get_database. Qed.
Lemma keeps_log_put_database (db : Database) : keeps_log (put_database db).
Proof. done. Qed.
Lemma keeps_log_emit_nil : keeps_log (emit []).
Proof. intros w. simpl. apply app_nil_r. Qed.

Lemma keeps_log_bind {A B} (m : M A) (k : A → M B) :
  keeps_log m → (∀ a, keeps_log (k a)) → keeps_log (bind m k).
Proof.
  intros Hm Hk w. unfold bind. specialize (Hm w).
  destruct (m w) as [[a|e] w']; simpl in *; [by rewrite Hk|done].
Qed.

Lemma keeps_log_catch {A} (m : M A) (h : exn → M A) :
  keeps_log m → (∀ e, keeps_log (h e)) → keeps_log (catch m h).
Proof.
  intros Hm Hh w. unfold catch. specialize (Hm w).
  destruct (m w) as [[a|e] w']; simpl in *; [done|by rewrite Hh].
Qed.

#[export] Hint Resolve read_only_ret read_only_raise read_only_lift
  read_only_get_database keeps_log_ret keeps_log_raise keeps_log_lift
  keeps_log_get_database keeps_log_put_database keeps_log_emit_nil : world.

(** Walks through a monadic body, one construct at a time. *)
Ltac step_world :=
  repeat first
    [ progress auto with world
    | apply read_only_bind; [|intros ?]
    | apply read_only_catch; [|intros ?]
    | apply keeps_log_bind; [|intros ?]
    | apply keeps_log_catch; [|intros ?]
    | case_match ].

(** ** Account creation *)

Lemma validate_password_length_ok (v p : pystr) :
  validate_password_length v = Ok p →
  p = v ∧ ∃ bs, utf8_encode v = Some bs ∧ (length bs ≤ PASSWORD_MAX_BYTES)%nat.
Proof.
  unfold validate_password_length. intros H.
  repeat case_match; simplify_eq. split; [done|].
  eexists; split; [done|]. by apply Nat.ltb_ge.
Qed.

Lemma validate_password_length_long (v : pystr) (bs : bytes) :
  utf8_encode v = Some bs → (PASSWORD_MAX_BYTES < length bs)%nat →
  validate_password_length v = Raise (ValueError "Password is too long").
Proof.
  intros Hv Hlen. unfold validate_password_length.
  case_bool_decide as Hnil.
  { subst. simpl in Hv. injection Hv as <-. simpl in Hlen. lia. }
  rewrite Hv. cbv zeta. apply Nat.ltb_lt in Hlen.
  unfold PASSWORD_MAX_BYTES in Hlen. by rewrite Hlen.
Qed.

Section AccountCreationProperties.
Context {ev : EmailValidator} {ctx : CryptContext}.

Lemma UserCreate_validate_password (b : UserCreateBody) (u : UserCreate.t) :
  UserCreate_validate b = Ok u →
  ∃ bs, utf8_encode (UserCreate.password u) = Some bs
        ∧ (length bs ≤ PASSWORD_MAX_BYTES)%nat.
Proof.
  unfold UserCreate_validate. intros H.
  repeat case_match; simplify_eq. simpl.
  by edestruct validate_password_length_ok as [-> ?].
Qed.

Lemma UserCreate_validate_long (b : UserCreateBody) (bs : bytes) :
  utf8_encode (body_password b) = Some bs →
  (PASSWORD_MAX_BYTES < length bs)%nat →
  ∃ msg, UserCreate_validate b = Raise (ValidationError msg).
Proof.
  intros Hb Hlen. unfold UserCreate_validate, UserBase_check.
  rewrite (validate_password_length_long _ _ Hb Hlen).
  repeat case_match; simplify_eq; eauto.
Qed.

Lemma get_password_hash_short (sl : salt) (p : pystr) (bs : bytes) :
  utf8_encode p = Some bs → (length bs ≤ PASSWORD_MAX_BYTES)%nat →
  get_password_hash sl p = ([], Ok (pwd_hash sl p)).
Proof.
  intros Hp Hle. unfold get_password_hash. rewrite Hp.
  by apply Nat.ltb_ge in Hle as ->.
Qed.

(** Creating an account from a validated [UserCreate] never takes the
    truncating branch of [get_password_hash]. *)
Lemma UserRepository_create_keeps_log env (sl : salt) role (u : UserCreate.t)
    (bs : bytes) :
  utf8_encode (UserCreate.password u) = Some bs →
  (length bs ≤ PASSWORD_MAX_BYTES)%nat →
  keeps_log (UserRepository_create env sl role u).
Proof.
  intros Hp Hle. unfold UserRepository_create, as_ValueError.
  rewrite Hp, (get_password_hash_short sl _ _ Hp Hle).
  step_world.
Qed.

Lemma register_keeps_log env (sl : salt) (b : UserCreateBody) :
  keeps_log (register env sl b).
Proof.
  unfold register. destruct (UserCreate_validate b) as [u|e] eqn:Hv; [|step_world].
  destruct (UserCreate_validate_password _ _ Hv) as (bs & Hbs & Hle).
  apply keeps_log_catch; [|intros ?; step_world].
  by eapply UserRepository_create_keeps_log.
Qed.

Lemma create_user_keeps_log env (sl : salt) (b : UserCreateBody) (cu : User.t) :
  keeps_log (create_user env sl b cu).
Proof.
  unfold create_user. destruct (UserCreate_validate b) as [u|e] eqn:Hv; [|step_world].
  destruct (UserCreate_validate_password _ _ Hv) as (bs & Hbs & Hle).
  case_match; [step_world|].
  apply keeps_log_catch; [|intros ?; step_world].
  by eapply UserRepository_create_keeps_log.
Qed.

End AccountCreationProperties.

Section AccountCreationClaims.
Context {ev : EmailValidator} {ctx : CryptContext}.

Lemma authenticate_user_log (email : string) (password : pystr) (bs : bytes)
    (user : User.t) (w : World) :
  get_user_by_email email w = Some user →
  utf8_encode password = Some bs →
  (PASSWORD_MAX_BYTES < length bs)%nat →
  log (authenticate_user email password w).2 = log w ++ [LogTruncating (length bs)].
Proof.
  intros Hu Hp Hlen. unfold authenticate_user, verify_password.
  rewrite Hu, Hp. apply Nat.ltb_lt in Hlen as ->. by case_match.
Qed.

(** C10: a registration or admin user-creation request whose password
    encodes to more than 72 bytes fails the validation of [UserCreate]
    and is answered before the handler runs: the world is unchanged, so
    nothing was hashed.  No account creation, whatever the request,
    writes the log line of the truncating branch, whereas verifying an
    over-long password at login does. *)
Theorem overlong_password_rejected_before_hashing (env : Env) (sl : salt)
    (b : UserCreateBody) (bs : bytes) (cu : User.t) (w : World) :
  utf8_encode (body_password b) = Some bs →
  (PASSWORD_MAX_BYTES < length bs)%nat →
  (∃ msg, UserCreate_validate b = Raise (ValidationError msg))
  ∧ (∃ msg, register env sl b w = (Raise (HTTPException 422 msg), w))
  ∧ (∃ msg, create_user env sl b cu w = (Raise (HTTPException 422 msg), w))
  ∧ (∀ env' sl' b' cu' w',
       log (register env' sl' b' w').2 = log w'
       ∧ log (create_user env' sl' b' cu' w').2 = log w')
  ∧ (∀ email user, get_user_by_email email w = Some user →
       log (authenticate_user email (body_password b) w).2
       = log w ++ [LogTruncating (length bs)]).
Proof.
  intros Hb Hlen.
  destruct (UserCreate_validate_long b bs Hb Hlen) as [msg Hmsg].
  split; [by exists msg|].
  split; [unfold register; rewrite Hmsg; by eexists|].
  split; [unfold create_user; rewrite Hmsg; by eexists|].
  split.
  - intros. split; [apply register_keeps_log|apply create_user_keeps_log].
  - intros email user Hu. by eapply authenticate_user_log.
Qed.

End AccountCreationClaims.

Lemma overlong_password_rejected_before_hashing_witness :
  utf8_encode (body_password long_password_body)
  = Some (default [] (utf8_encode (euros 25)))
  ∧ (PASSWORD_MAX_BYTES < length (default [] (utf8_encode (euros 25))))%nat
  ∧ ∃ msg, register (ev:=at_sign_validator) (ctx:=plain_context) sample_env tt
             long_password_body sample_world
           = (Raise (HTTPException 422 msg), sample_world).
Proof.
  split; [by vm_compute|]. split; [vm_compute; lia|].
  apply (overlong_password_rejected_before_hashing (ev:=at_sign_validator)
           (ctx:=plain_context) sample_env tt long_password_body
           (default [] (utf8_encode (euros 25))) ada sample_world).
  - by vm_compute.
  - vm_compute. lia.
Defined.

(** ** Field readers *)

Section FieldReaders.
Context (d : doc) (k k' : string) (v : pyval).

Lemma req_str_insert_ne : k' ≠ k → req_str (<[k' := v]> d) k = req_str d k.
Proof. intros. unfold req_str. by rewrite lookup_insert_ne. Qed.
Lemma opt_str_insert_ne : k' ≠ k → opt_str (<[k' := v]> d) k = opt_str d k.
Proof. intros. unfold opt_str. by rewrite lookup_insert_ne. Qed.
Lemma req_date_insert_ne : k' ≠ k → req_date (<[k' := v]> d) k = req_date d k.
Proof. intros. unfold req_date. by rewrite lookup_insert_ne. Qed.
Lemma bool_or_insert_ne (b : bool) :
  k' ≠ k → bool_or (<[k' := v]> d) k b = bool_or d k b.
Proof. intros. unfold bool_or. by rewrite lookup_insert_ne. Qed.

Lemma req_str_insert_eq (s : string) : req_str (<[k := VStr s]> d) k = Ok s.
Proof. unfold req_str. by rewrite lookup_insert_eq. Qed.
Lemma opt_str_insert_eq (s : string) : opt_str (<[k := VStr s]> d) k = Ok (Some s).
Proof. unfold opt_str. by rewrite lookup_insert_eq. Qed.
Lemma req_date_insert_eq (t : Z) : req_date (<[k := VDate t]> d) k = Ok t.
Proof. unfold req_date. by rewrite lookup_insert_eq. Qed.
Lemma bool_or_insert_eq (b b' : bool) : bool_or (<[k := VBool b]> d) k b' = Ok b.
Proof. unfold bool_or. by rewrite lookup_insert_eq. Qed.
End FieldReaders.

Create Rewrite HintDb fields.
#[export] Hint Rewrite req_str_insert_eq opt_str_insert_eq req_date_insert_eq
  bool_or_insert_eq : fields.
#[export] Hint Rewrite req_str_insert_ne opt_str_insert_ne req_date_insert_ne
  bool_or_insert_ne using done : fields.

(** In [H : (let! x := r in k) = Ok _], names the value of [r]. *)
Ltac head_ok H :=
  match type of H with
  | match ?r with Ok _ => _ | Raise _ => _ end = Ok _ =>
    let E := fresh "E" in destruct r eqn:E; [|discriminate H]
  | match ?r with Some _ => _ | None => _ end = Ok _ =>
    let E := fresh "E" in destruct r eqn:E; [|discriminate H]
  | (if ?b then Raise _ else _) = Ok _ =>
    let E := fresh "E" in destruct b eqn:E; [discriminate H|]
  end.

Section ConvertedFields.
Context {A : Type} (conv : pyval → option A) (d : doc) (k k' : string) (v : pyval).

Lemma field_required_insert_ne :
  k' ≠ k → field_required conv (<[k' := v]> d) k = field_required conv d k.
Proof. intros. unfold field_required. by rewrite lookup_insert_ne. Qed.
Lemma field_default_insert_ne (dflt : A) :
  k' ≠ k → field_default conv dflt (<[k' := v]> d) k = field_default conv dflt d k.
Proof. intros. unfold field_default. by rewrite lookup_insert_ne. Qed.
Lemma field_optional_insert_ne :
  k' ≠ k → field_optional conv (<[k' := v]> d) k = field_optional conv d k.
Proof. intros. unfold field_optional, field_default. by rewrite lookup_insert_ne. Qed.

Lemma field_required_lookup (a : A) :
  d !! k = Some v → conv v = Some a → field_required conv d k = Ok a.
Proof. unfold field_required. by intros -> ->. Qed.
Lemma field_default_lookup (dflt a : A) :
  d !! k = Some v → conv v = Some a → field_default conv dflt d k = Ok a.
Proof. unfold field_default. by intros -> ->. Qed.
Lemma field_optional_lookup (o : option A) :
  d !! k = Some v → optional conv v = Some o → field_optional conv d k = Ok o.
Proof. unfold field_optional, field_default. by intros -> ->. Qed.
End ConvertedFields.

Section ConvertedFieldsInserted.
Context {A : Type} (conv : pyval → option A) (d : doc) (k : string) (v : pyval).

Lemma field_required_insert_eq (a : A) :
  conv v = Some a → field_required conv (<[k := v]> d) k = Ok a.
Proof. apply field_required_lookup, lookup_insert_eq. Qed.
Lemma field_default_insert_eq (dflt a : A) :
  conv v = Some a → field_default conv dflt (<[k := v]> d) k = Ok a.
Proof. apply field_default_lookup, lookup_insert_eq. Qed.
Lemma field_optional_insert_eq (o : option A) :
  optional conv v = Some o → field_optional conv (<[k := v]> d) k = Ok o.
Proof. apply field_optional_lookup, lookup_insert_eq. Qed.
End ConvertedFieldsInserted.

#[export] Hint Rewrite @field_required_insert_ne @field_default_insert_ne
  @field_optional_insert_ne using done : fields.

Section ConvertedText.
Context {pd : Pydantic} {pdl : PydanticLaws pd} (d : doc) (k : string).

Lemma optional_str (s : string) : optional str_value (VStr s) = Some (Some s).
Proof. unfold optional. by rewrite str_value_str. Qed.

Lemma field_required_str (s : string) :
  field_required str_value (<[k := VStr s]> d) k = Ok s.
Proof. apply field_required_insert_eq, str_value_str. Qed.
Lemma field_default_str (dflt s : string) :
  field_default str_value dflt (<[k := VStr s]> d) k = Ok s.
Proof. apply field_default_insert_eq, str_value_str. Qed.
Lemma field_optional_str (s : string) :
  field_optional str_value (<[k := VStr s]> d) k = Ok (Some s).
Proof. apply field_optional_insert_eq, optional_str. Qed.
Lemma field_required_date (t : Z) :
  field_required datetime_value (<[k := VDate t]> d) k = Ok t.
Proof. apply field_required_insert_eq, datetime_value_date. Qed.
End ConvertedText.

#[export] Hint Rewrite @field_required_str @field_default_str @field_optional_str
  @field_required_date using typeclasses eauto : fields.

Global Instance strict_pydantic_laws : PydanticLaws strict_pydantic.
Proof. by split. Qed.

Global Instance digits_pydantic_laws : PydanticLaws digits_pydantic.
Proof. by split. Qed.

(** ** Jobs *)

Lemma JobRepository_update_unauthorized {pd : Pydantic} (env : Env) (jd_id : string) (jd_data : doc)
    (recruiter_id : string) (w : World) (db : Database) (oid : string) (jd : doc) :
  db_handle w = Some db →
  ObjectId (VStr jd_id) = Ok oid →
  find_one [("_id", VOid oid)] (job_descriptions db) = Some jd →
  py_str (dict_get jd "recruiter_id") ≠ recruiter_id →
  JobRepository_update env jd_id jd_data recruiter_id w
  = (Raise (ValueError "Unauthorized: You can only update your own jobs"), w).
Proof.
  intros Hdb Hoid Hjd Hne.
  unfold JobRepository_update, bind, get_database, lift.
  rewrite Hdb, Hoid, Hjd. cbn [py_str].
  by apply String.eqb_neq in Hne as ->.
Qed.

(** C1: when the job exists and its stored [recruiter_id], printed as a
    string, differs from the caller's id, [PUT /jobs/{jd_id}] answers 403
    and the world, hence the stored job, is unchanged; a caller with role
    ADMIN gets the same refusal from the ownership check of
    [JobRepository.update]. *)
Theorem update_job_rejects_non_owner {pd : Pydantic} (env : Env) (jd_id : string) (jd_data : doc)
    (current_user : User.t) (w : World) (db : Database) (oid : string) (jd : doc) :
  db_handle w = Some db →
  ObjectId (VStr jd_id) = Ok oid →
  find_one [("_id", VOid oid)] (job_descriptions db) = Some jd →
  py_str (dict_get jd "recruiter_id") ≠ User.id current_user →
  (∃ detail,
     update_job env jd_id jd_data current_user w
     = (Raise (HTTPException 403 detail), w))
  ∧ JobRepository_update env jd_id jd_data (User.id current_user) w
    = (Raise (ValueError "Unauthorized: You can only update your own jobs"), w)
  ∧ (User.role current_user = ADMIN →
     update_job env jd_id jd_data current_user w
     = (Raise (HTTPException 403
                 "Unauthorized: You can only update your own jobs"), w)).
Proof.
  intros Hdb Hoid Hjd Hne.
  pose proof (JobRepository_update_unauthorized env jd_id jd_data _ w db oid jd
                Hdb Hoid Hjd Hne) as Hupd.
  split; [|split; [exact Hupd|]].
  - unfold update_job, bind, lift, require_recruiter_or_admin.
    case_bool_decide; simpl; [|by eexists].
    unfold catch_ValueError, catch, bind. rewrite Hupd. by eexists.
  - intros Hadmin. unfold update_job, bind, lift, require_recruiter_or_admin.
    rewrite Hadmin. simpl.
    unfold catch_ValueError, catch, bind. by rewrite Hupd.
Qed.

Lemma update_job_rejects_non_owner_witness :
  db_handle sample_world = Some sample_db
  ∧ ObjectId (VStr open_job_id) = Ok open_job_id
  ∧ find_one [("_id", VOid open_job_id)] (job_descriptions sample_db)
    = Some (job_doc open_job_id rita_id "Backend engineer" "OPEN")
  ∧ py_str (dict_get (job_doc open_job_id rita_id "Backend engineer" "OPEN")
              "recruiter_id") ≠ User.id ada
  ∧ update_job (pd:=strict_pydantic) sample_env open_job_id
      {[ "status" := VStr "CLOSED" ]} ada sample_world
    = (Raise (HTTPException 403
                "Unauthorized: You can only update your own jobs"), sample_world).
Proof.
  assert (H4 : py_str (dict_get (job_doc open_job_id rita_id "Backend engineer" "OPEN")
                         "recruiter_id") ≠ User.id ada)
    by (vm_compute; discriminate).
  split; [reflexivity|]. split; [reflexivity|]. split; [reflexivity|].
  split; [exact H4|].
  destruct (update_job_rejects_non_owner (pd:=strict_pydantic) sample_env open_job_id
              {[ "status" := VStr "CLOSED" ]} ada sample_world sample_db open_job_id
              (job_doc open_job_id rita_id "Backend engineer" "OPEN"))
    as (_ & _ & Hadmin); [reflexivity|reflexivity|reflexivity|exact H4|].
  exact (Hadmin eq_refl).
Defined.

Lemma mapM_result_Forall2 {A B} (f : A → result B) (l : list A) (l' : list B) :
  mapM_result f l = Ok l' → Forall2 (λ a b, f a = Ok b) l l'.
Proof.
  revert l'. induction l as [|a l IH]; intros l' H; simpl in H.
  - injection H as <-. constructor.
  - destruct (f a) as [b|] eqn:Hb; [|done].
    destruct (mapM_result f l) as [bs|]; [|done].
    injection H as <-. constructor; [done|by apply IH].
Qed.

Lemma mapM_result_is_ok {A B} (f : A → result B) (l : list A) :
  Forall (λ a, is_ok (f a) = true) l → ∃ l', mapM_result f l = Ok l'.
Proof.
  induction 1 as [|a l Ha _ [bs IH]]; simpl; [by eexists|].
  destruct (f a); [|done]. rewrite IH. by eexists.
Qed.

Lemma matches_lookup (k : string) (v : pyval) (d : doc) :
  matches [(k, v)] d = true → d !! k = Some v.
Proof.
  unfold matches. simpl. rewrite andb_true_r. by intros ?%bool_decide_eq_true.
Qed.

Lemma cursor_subseteq (skip limit : nat) (c : collection) :
  cursor_limit limit (cursor_skip skip c) ⊆ c.
Proof.
  unfold cursor_limit, cursor_skip. intros d Hd.
  destruct (limit =? 0)%nat.
  - by eapply subseteq_drop.
  - eapply subseteq_drop, subseteq_take, Hd.
Qed.

Lemma merge_recruiter_data_other (d : doc) (db : Database) (k : string) :
  k ≠ "recruiter_name" → k ≠ "recruiter_email" →
  _merge_recruiter_data d db !! k = d !! k.
Proof.
  intros H1 H2. unfold _merge_recruiter_data.
  repeat case_match; by rewrite !lookup_insert_ne.
Qed.

Lemma JobDescription_of_doc_fields {pd : Pydantic} (d : doc) (jd : JobDescription.t) :
  JobDescription_of_doc d = Ok jd →
  field_required str_value d "id" = Ok (JobDescription.id jd)
  ∧ field_required str_value d "recruiter_id" = Ok (JobDescription.recruiter_id jd)
  ∧ field_required str_value d "title" = Ok (JobDescription.title jd)
  ∧ field_required datetime_value d "created_at" = Ok (JobDescription.created_at jd)
  ∧ field_required datetime_value d "updated_at" = Ok (JobDescription.updated_at jd)
  ∧ field_default str_value "OPEN" d "status" = Ok (JobDescription.status jd).
Proof.
  unfold JobDescription_of_doc. intros H. repeat head_ok H.
  by injection H as <-.
Qed.

Lemma JobDescription_of_doc_status {pd : Pydantic} {pdl : PydanticLaws pd} (d : doc)
    (jd : JobDescription.t) (s : string) :
  JobDescription_of_doc d = Ok jd → d !! "status" = Some (VStr s) →
  JobDescription.status jd = s.
Proof.
  intros H Hs. apply JobDescription_of_doc_fields in H as (_ & _ & _ & _ & _ & H).
  rewrite (field_default_lookup _ _ _ (VStr s) _ s Hs (str_value_str s)) in H.
  congruence.
Qed.

Lemma job_of_stored_status {pd : Pydantic} {pdl : PydanticLaws pd}
    (db : Database) (d : doc) (jd : JobDescription.t)
    (s : string) :
  job_of_stored db d = Ok jd → d !! "status" = Some (VStr s) →
  JobDescription.status jd = s.
Proof.
  unfold job_of_stored. intros H Hs.
  destruct (getitem d "_id") as [i|]; [|done].
  apply (JobDescription_of_doc_status _ _ s) in H; [done|].
  rewrite merge_recruiter_data_other by done.
  by rewrite lookup_insert_ne.
Qed.

Lemma mapM_result_elem {A B} (f : A → result B) (l : list A) (l' : list B) (b : B) :
  mapM_result f l = Ok l' → b ∈ l' → ∃ a, a ∈ l ∧ f a = Ok b.
Proof.
  intros H%mapM_result_Forall2 Hb.
  induction H as [|a b' l l' Hab _ IH]; [by apply elem_of_nil in Hb|].
  apply elem_of_cons in Hb as [->|Hb].
  - exists a. split; [left|done].
  - destruct (IH Hb) as (a' & ? & ?). exists a'. split; [by right|done].
Qed.

Lemma JobRepository_get_all_open {pd : Pydantic} {pdl : PydanticLaws pd}
    (skip limit : nat) (w w' : World)
    (l : list JobDescription.t) (jd : JobDescription.t) :
  JobRepository_get_all skip limit (Some "OPEN") w = (Ok l, w') → jd ∈ l →
  ∃ db d, db_handle w = Some db
          ∧ d ∈ job_descriptions db
          ∧ d !! "status" = Some (VStr "OPEN")
          ∧ job_of_stored db d = Ok jd
          ∧ JobDescription.status jd = "OPEN".
Proof.
  unfold JobRepository_get_all, bind, get_database, lift.
  destruct (db_handle w) as [db|]; [|done]. simpl.
  intros [= H ->] Hjd.
  destruct (mapM_result_elem _ _ _ _ H Hjd) as (d & Hd & Hok).
  apply cursor_subseteq in Hd. unfold find in Hd.
  apply list_elem_of_In, filter_In in Hd as [Hd Hm].
  apply matches_lookup in Hm.
  exists db, d. repeat split; try done.
  - by apply list_elem_of_In.
  - by eapply job_of_stored_status.
Qed.

Lemma read_only_JobRepository_get_all {pd : Pydantic} (skip limit : nat) (status : option string) :
  read_only (JobRepository_get_all skip limit status).
Proof. unfold JobRepository_get_all. step_world. Qed.

Lemma read_only_JobRepository_get_by_id {pd : Pydantic} (jd_id : string) :
  read_only (JobRepository_get_by_id jd_id).
Proof. unfold JobRepository_get_by_id. step_world. Qed.

(** C7: for a caller whose role is CONSULTANT, [GET /jobs/] lists only
    jobs whose stored status is [OPEN], whatever [status] parameter was
    sent: the answer does not depend on that parameter, every job in it
    comes from a stored document with status [OPEN], and the listing is
    produced whenever the database is there and the stored open jobs are
    valid. *)
Theorem consultant_sees_only_open_jobs {pd : Pydantic} {pdl : PydanticLaws pd}
    (status : option string)
    (current_user : User.t) (w : World) :
  User.role current_user = CONSULTANT →
  get_jobs status current_user w = get_jobs None current_user w
  ∧ (∀ l w' jd,
       get_jobs status current_user w = (Ok l, w') → jd ∈ l →
       JobDescription.status jd = "OPEN"
       ∧ ∃ db d, db_handle w = Some db ∧ d ∈ job_descriptions db
                 ∧ d !! "status" = Some (VStr "OPEN")
                 ∧ job_of_stored db d = Ok jd)
  ∧ (∀ db, db_handle w = Some db →
       Forall (λ d, is_ok (job_of_stored db d) = true)
         (find [("status", VStr "OPEN")] (job_descriptions db)) →
       ∃ l, get_jobs status current_user w = (Ok l, w)).
Proof.
  intros Hrole. unfold get_jobs. rewrite Hrole. simpl.
  split; [done|]. split.
  - intros l w' jd H Hjd.
    destruct (JobRepository_get_all_open _ _ _ _ _ _ H Hjd)
      as (db & d & ? & ? & ? & ? & ?).
    split; [done|]. by exists db, d.
  - intros db Hdb Hall.
    destruct (mapM_result_is_ok (job_of_stored db)
                (cursor_limit 100 (cursor_skip 0
                   (find [("status", VStr "OPEN")] (job_descriptions db)))))
      as [l Hl].
    { unfold cursor_limit, cursor_skip. simpl. by apply Forall_take. }
    exists l. unfold JobRepository_get_all, bind, get_database, lift.
    rewrite Hdb. cbn [negb String.eqb Ascii.eqb Bool.eqb]. by rewrite Hl.
Qed.

Lemma consultant_sees_only_open_jobs_witness :
  User.role carl = CONSULTANT
  ∧ get_jobs (pd:=strict_pydantic) (Some "CLOSED") carl sample_world
    = get_jobs (pd:=strict_pydantic) None carl sample_world
  ∧ ∃ l, get_jobs (pd:=strict_pydantic) (Some "CLOSED") carl sample_world
         = (Ok l, sample_world).
Proof.
  destruct (consultant_sees_only_open_jobs (pd:=strict_pydantic) (Some "CLOSED") carl sample_world)
    as (H1 & _ & H3); [reflexivity|].
  split; [reflexivity|]. split; [exact H1|].
  apply (H3 sample_db); [reflexivity|].
  repeat constructor.
Defined.

(** ** Collections *)

Lemma find_one_matches (q : list (string * pyval)) (c : collection) (d : doc) :
  find_one q c = Some d → matches q d = true ∧ d ∈ c.
Proof.
  unfold find_one. intros H. apply find_some in H as [? ?].
  split; [done|by apply list_elem_of_In].
Qed.

Lemma find_one_update_one (q : list (string * pyval)) (upd : doc) (c : collection)
    (d : doc) :
  find_one q c = Some d → matches q (upd ∪ d) = true →
  find_one q (update_one q upd c) = Some (upd ∪ d).
Proof.
  unfold find_one. induction c as [|x c IH]; simpl; [done|].
  destruct (matches q x) eqn:Hx.
  - intros [= ->] Hm. simpl. by rewrite Hm.
  - intros H Hm. simpl. rewrite Hx. by apply IH.
Qed.

Lemma update_one_length (q : list (string * pyval)) (upd : doc) (c : collection) :
  length (update_one q upd c) = length c.
Proof.
  induction c as [|x c IH]; simpl; [done|].
  destruct (matches q x); simpl; by rewrite ?IH.
Qed.

(** ** Submissions *)

Lemma SubmissionStatus_of_string_value (t : SubmissionStatus) :
  SubmissionStatus_of_string (SubmissionStatus_value t) = Some t.
Proof. by destruct t. Qed.

Lemma status_update_doc (t : SubmissionStatus) (now : Z) (d : doc) :
  (list_to_map [("status", VStr (SubmissionStatus_value t)); ("updated_at", VDate now)]
     : doc) ∪ d
  = <["status" := VStr (SubmissionStatus_value t)]> (<["updated_at" := VDate now]> d).
Proof.
  simpl. by rewrite <- !insert_union_l, (left_id ∅ (∪)).
Qed.

Lemma Submission_of_doc_after_update (d : doc) (i : string) (t : SubmissionStatus)
    (now : Z) (s : Submission.t) :
  Submission_of_doc (<["id" := VStr i]> d) = Ok s →
  ∃ s', Submission_of_doc
          (<["id" := VStr i]>
             (<["status" := VStr (SubmissionStatus_value t)]>
                (<["updated_at" := VDate now]> d))) = Ok s'
        ∧ Submission.status s' = t
        ∧ Submission.recruiter_id s' = Submission.recruiter_id s
        ∧ Submission.id s' = Submission.id s.
Proof.
  unfold Submission_of_doc. intros H.
  rewrite (insert_insert_ne (<["updated_at" := VDate now]> d) "id" "status") by done.
  autorewrite with fields in *.
  rewrite SubmissionStatus_of_string_value.
  repeat head_ok H.
  injection H as <-. by eexists.
Qed.

Lemma SubmissionRepository_get_by_id_found (sid oid : string) (w : World)
    (db : Database) (d : doc) :
  db_handle w = Some db → ObjectId (VStr sid) = Ok oid →
  find_one [("_id", VOid oid)] (submissions db) = Some d →
  SubmissionRepository_get_by_id sid w
  = (match Submission_of_doc (<["id" := VStr oid]> d) with
     | Ok s => Ok (Some s)
     | Raise e => Raise e
     end, w).
Proof.
  intros Hdb Hoid Hd.
  unfold SubmissionRepository_get_by_id, bind, get_database, lift, getitem.
  rewrite Hdb, Hoid, Hd.
  apply find_one_matches in Hd as [Hm%matches_lookup _]. rewrite Hm. simpl.
  by destruct (Submission_of_doc _).
Qed.

Lemma SubmissionRepository_update_status_found (env : Env) (sid oid : string)
    (t : SubmissionStatus) (rid : string) (w : World) (db : Database) (d : doc)
    (s : Submission.t) :
  db_handle w = Some db → ObjectId (VStr sid) = Ok oid →
  find_one [("_id", VOid oid)] (submissions db) = Some d →
  Submission_of_doc (<["id" := VStr oid]> d) = Ok s →
  ∃ s' db' d',
    SubmissionRepository_update_status env sid t rid w
    = (Ok (Some s'),
       {| db_handle := Some db'; files := files w; log := log w |})
    ∧ Submission.status s' = t
    ∧ Submission.id s' = Submission.id s
    ∧ Submission.recruiter_id s' = Submission.recruiter_id s
    ∧ find_one [("_id", VOid oid)] (submissions db') = Some d'
    ∧ d' !! "status" = Some (VStr (SubmissionStatus_value t))
    ∧ length (submissions db') = length (submissions db).
Proof.
  intros Hdb Hoid Hd Hs.
  destruct (Submission_of_doc_after_update d oid t (utcnow env) s Hs)
    as (s' & Hs' & Hst & Hrid & Hid).
  pose proof (find_one_matches _ _ _ Hd) as [Hm _].
  set (upd := (list_to_map [("status", VStr (SubmissionStatus_value t));
                            ("updated_at", VDate (utcnow env))] : doc)).
  set (db' := set_submissions db
                (update_one [("_id", VOid oid)] upd (submissions db))).
  assert (Hd' : find_one [("_id", VOid oid)] (submissions db') = Some (upd ∪ d)).
  { apply find_one_update_one; [done|].
    unfold upd. rewrite status_update_doc.
    apply matches_lookup in Hm. unfold matches. simpl.
    rewrite !lookup_insert_ne by done. rewrite Hm.
    by rewrite bool_decide_eq_true_2. }
  exists s', db', (upd ∪ d).
  split; [|repeat split; try done].
  - unfold SubmissionRepository_update_status, bind, get_database, lift,
      put_database.
    rewrite Hdb, Hoid. fold upd. fold db'.
    erewrite SubmissionRepository_get_by_id_found; [|reflexivity|exact Hoid|exact Hd'].
    unfold upd. rewrite status_update_doc, Hs'. done.
  - unfold upd. rewrite status_update_doc. by rewrite lookup_insert_eq.
  - apply update_one_length.
Qed.

Lemma update_submission_status_found (env : Env) (sid oid : string)
    (t : SubmissionStatus) (c : option string) (r : option bool) (cu : User.t)
    (w : World) (db : Database) (d : doc) (s : Submission.t) :
  db_handle w = Some db → ObjectId (VStr sid) = Ok oid →
  find_one [("_id", VOid oid)] (submissions db) = Some d →
  Submission_of_doc (<["id" := VStr oid]> d) = Ok s →
  User.role cu = RECRUITER ∨ User.role cu = ADMIN →
  update_submission_status env sid (SubmissionUpdate.mk (Some t) c r) cu w
  = SubmissionRepository_update_status env sid t (User.id cu) w.
Proof.
  intros Hdb Hoid Hd Hs Hrole.
  unfold update_submission_status, bind, lift, require_recruiter_or_admin.
  rewrite bool_decide_eq_true_2 by (destruct Hrole as [-> | ->]; set_solver).
  simpl.
  by rewrite (SubmissionRepository_get_by_id_found sid oid w db d Hdb Hoid Hd), Hs.
Qed.

(** C5: for a stored submission, whatever its current status, and for
    each of the seven values [t], [update_status] succeeds, returns the
    submission with status [t] and leaves [t] in the stored document; so
    does [PUT /submissions/{id}/status] for any recruiter or admin.  No
    transition is refused. *)
Theorem update_status_reaches_every_status (env : Env) (sid oid : string)
    (t : SubmissionStatus) (w : World) (db : Database) (d : doc)
    (s : Submission.t) :
  db_handle w = Some db → ObjectId (VStr sid) = Ok oid →
  find_one [("_id", VOid oid)] (submissions db) = Some d →
  Submission_of_doc (<["id" := VStr oid]> d) = Ok s →
  t ∈ SubmissionStatus_all
  ∧ ∃ s' w' db' d',
      (∀ rid, SubmissionRepository_update_status env sid t rid w = (Ok (Some s'), w'))
      ∧ (∀ cu c r, User.role cu = RECRUITER ∨ User.role cu = ADMIN →
           update_submission_status env sid (SubmissionUpdate.mk (Some t) c r) cu w
           = (Ok (Some s'), w'))
      ∧ Submission.status s' = t
      ∧ Submission.id s' = Submission.id s
      ∧ db_handle w' = Some db'
      ∧ find_one [("_id", VOid oid)] (submissions db') = Some d'
      ∧ d' !! "status" = Some (VStr (SubmissionStatus_value t)).
Proof.
  intros Hdb Hoid Hd Hs.
  split; [destruct t; set_solver|].
  destruct (SubmissionRepository_update_status_found env sid oid t "" w db d s
              Hdb Hoid Hd Hs) as (s' & db' & d' & Hupd & Hst & Hid & _ & Hd' & Hst' & _).
  exists s', {| db_handle := Some db'; files := files w; log := log w |}, db', d'.
  split; [intros rid; exact Hupd|].
  split; [|done].
  intros cu c r Hrole.
  by rewrite (update_submission_status_found env sid oid t c r cu w db d s).
Qed.

Lemma update_status_reaches_every_status_witness :
  db_handle sample_world = Some sample_db
  ∧ ObjectId (VStr submission_id) = Ok submission_id
  ∧ find_one [("_id", VOid submission_id)] (submissions sample_db)
    = Some (submission_doc submission_id open_job_id carl_id rita_id "SUBMITTED")
  ∧ is_ok (Submission_of_doc
             (<["id" := VStr submission_id]>
                (submission_doc submission_id open_job_id carl_id rita_id
                   "SUBMITTED"))) = true
  ∧ ∃ s' w', SubmissionRepository_update_status sample_env submission_id JOINED
               rita_id sample_world = (Ok (Some s'), w')
             ∧ Submission.status s' = JOINED.
Proof.
  split; [reflexivity|]. split; [reflexivity|]. split; [reflexivity|].
  split; [reflexivity|].
  destruct (Submission_of_doc
              (<["id" := VStr submission_id]>
                 (submission_doc submission_id open_job_id carl_id rita_id
                    "SUBMITTED"))) as [s|] eqn:Hs; [|discriminate].
  destruct (update_status_reaches_every_status sample_env submission_id
              submission_id JOINED sample_world sample_db _ s
              eq_refl eq_refl eq_refl Hs)
    as (_ & s' & w' & _ & _ & Hupd & _ & Hst & _).
  exists s', w'. split; [apply Hupd|exact Hst].
Defined.

(** C2, the code at the failing input: Raul, a recruiter, moves to
    INTERVIEW a submission whose stored [recruiter_id] is Rita's. *)
Lemma non_owner_recruiter_changes_status :
  User.role raul = RECRUITER
  ∧ User.id raul ≠ rita_id
  ∧ (∃ d, find_one [("_id", VOid submission_id)] (submissions sample_db) = Some d
          ∧ d !! "recruiter_id" = Some (VStr rita_id)
          ∧ d !! "status" = Some (VStr "SUBMITTED"))
  ∧ ∃ s w' db' d',
      update_submission_status sample_env submission_id
        (SubmissionUpdate.mk (Some INTERVIEW) None None) raul sample_world
      = (Ok (Some s), w')
      ∧ Submission.status s = INTERVIEW
      ∧ Submission.recruiter_id s = rita_id
      ∧ db_handle w' = Some db'
      ∧ find_one [("_id", VOid submission_id)] (submissions db') = Some d'
      ∧ d' !! "status" = Some (VStr "INTERVIEW").
Proof.
  split; [reflexivity|]. split; [by vm_compute|].
  split; [eexists; split; [reflexivity|split; reflexivity]|].
  destruct (Submission_of_doc
              (<["id" := VStr submission_id]>
                 (submission_doc submission_id open_job_id carl_id rita_id
                    "SUBMITTED"))) as [s|] eqn:Hs; [|discriminate].
  assert (Hrid : Submission.recruiter_id s = rita_id).
  { assert (Hs0 : Submission.recruiter_id <$>
                   (match Submission_of_doc
                            (<["id" := VStr submission_id]>
                               (submission_doc submission_id open_job_id carl_id
                                  rita_id "SUBMITTED"))
                    with Ok x => Some x | Raise _ => None end) = Some rita_id)
      by reflexivity.
    rewrite Hs in Hs0. by injection Hs0. }
  destruct (SubmissionRepository_update_status_found sample_env submission_id
              submission_id INTERVIEW (User.id raul) sample_world sample_db _ s
              eq_refl eq_refl eq_refl Hs)
    as (s' & db' & d' & Hupd & Hst & _ & Hr & Hd' & Hst' & _).
  exists s', {| db_handle := Some db'; files := files sample_world;
               log := log sample_world |}, db', d'.
  rewrite (update_submission_status_found sample_env submission_id submission_id
             INTERVIEW None None raul sample_world sample_db _ s
             eq_refl eq_refl eq_refl Hs (or_introl eq_refl)).
  split; [exact Hupd|]. split; [exact Hst|]. split; [congruence|].
  split; [reflexivity|]. split; [exact Hd'|exact Hst'].
Qed.

(** ** Creating a submission *)

Lemma same_business_data_refl (w : World) : same_business_data w w.
Proof. by repeat split. Qed.

Lemma same_business_data_trans (w1 w2 w3 : World) :
  same_business_data w1 w2 → same_business_data w2 w3 → same_business_data w1 w3.
Proof.
  intros (? & ? & ? & ?) (? & ? & ? & ?). repeat split; congruence.
Qed.

Lemma read_only_ConsultantRepository_get_by_user_id {pd : Pydantic} (user_id : string) :
  read_only (ConsultantRepository_get_by_user_id user_id).
Proof. unfold ConsultantRepository_get_by_user_id. step_world. Qed.

Lemma ConsultantRepository_create_or_update_same {pd : Pydantic} (env : Env) (user_id : string)
    (profile_data : doc) (w : World) :
  same_business_data w
    (ConsultantRepository_create_or_update env user_id profile_data w).2.
Proof.
  unfold ConsultantRepository_create_or_update, bind, get_database.
  destruct (db_handle w) as [db|] eqn:Hdb; [|apply same_business_data_refl].
  set (upd := <["updated_at":=_]> (delete "email" _)).
  set (dflt := if bool_decide (is_Some (upd !! "tech_stack")) then _ else _).
  assert (Hread : ∀ w', same_business_data w w' →
            same_business_data w (ConsultantRepository_get_by_user_id user_id w').2).
  { intros w' ?. by rewrite read_only_ConsultantRepository_get_by_user_id. }
  case_bool_decide.
  - destruct (ObjectId (VStr user_id)) as [oid|]; unfold put_database, ret, lift;
      simpl; (destruct (upsert_one _ _ _ _ _) as [c|]; simpl;
              [apply Hread|]; repeat split; simpl; by rewrite ?Hdb).
  - unfold put_database, ret, lift; simpl.
    destruct (upsert_one _ _ _ _ _) as [c|]; simpl;
      [apply Hread|]; repeat split; simpl; by rewrite ?Hdb.
Qed.

(** The step that makes sure a consultant profile exists never fails
    and touches neither jobs, submissions nor files. *)
Lemma ensure_profile_same {pd : Pydantic} (env : Env) (user_id : string) (w : World) :
  ∃ w1,
    catch
      (bind (ConsultantRepository_get_by_user_id user_id)
         (λ profile,
            match profile with
            | Some _ => ret tt
            | None =>
              bind (ConsultantRepository_create_or_update env user_id
                      (ConsultantProfileUpdate_experience 0))
                (λ _, ret tt)
            end))
      (λ _, ret tt) w = (Ok tt, w1)
    ∧ same_business_data w w1.
Proof.
  unfold catch, bind at 1.
  pose proof (read_only_ConsultantRepository_get_by_user_id user_id w) as Hro.
  destruct (ConsultantRepository_get_by_user_id user_id w) as [[[p|]|e] w0];
    simpl in Hro; subst w0.
  - eexists; split; [done|apply same_business_data_refl].
  - unfold bind.
    pose proof (ConsultantRepository_create_or_update_same env user_id
                  (ConsultantProfileUpdate_experience 0) w) as Hs.
    destruct (ConsultantRepository_create_or_update _ _ _ w) as [[?|?] w1];
      eexists; (split; [done|exact Hs]).
  - eexists; split; [done|apply same_business_data_refl].
Qed.

Lemma opt_str_insert_val (d : doc) (k : string) (o : option string) :
  opt_str (<[k := opt_str_val o]> d) k = Ok o.
Proof. unfold opt_str. rewrite lookup_insert_eq. by destruct o. Qed.

Lemma opt_str_empty (k : string) : opt_str ∅ k = Ok None.
Proof. done. Qed.

#[export] Hint Rewrite opt_str_insert_val opt_str_empty : fields.

Lemma insert_one_fresh (oid : string) (d : doc) (c : collection) :
  d !! "_id" = None →
  (∀ x, x ∈ c → x !! "_id" ≠ Some (VOid oid)) →
  insert_one oid d c
  = Ok (c ++ [<["_id" := VOid oid]> d], <["_id" := VOid oid]> d, VOid oid).
Proof.
  intros Hd Hfresh. unfold insert_one, dict_get. rewrite Hd, lookup_insert_eq. simpl.
  destruct (existsb _ c) eqn:Hex; [|done].
  apply existsb_exists in Hex as (x & Hx & Hb).
  apply bool_decide_eq_true in Hb. by apply list_elem_of_In, Hfresh in Hx.
Qed.

(** [m !! k] where [m] is a tower of inserts ending with the one for [k]. *)
Ltac solve_lookup :=
  repeat (rewrite lookup_insert_ne by done); by rewrite lookup_insert_eq.

Lemma SubmissionRepository_create_fresh (env : Env) (jd_id : string)
    (comments : option string) (consultant_id recruiter_id resume_path : string)
    (w : World) (db : Database) :
  db_handle w = Some db →
  (∀ x, x ∈ submissions db → x !! "_id" ≠ Some (VOid (new_oid env))) →
  ∃ s d,
    SubmissionRepository_create env jd_id comments consultant_id (VStr recruiter_id)
      resume_path w
    = (Ok s, {| db_handle := Some (set_submissions db (submissions db ++ [d]));
                files := files w; log := log w |})
    ∧ d !! "status" = Some (VStr "SUBMITTED")
    ∧ d !! "recruiter_read" = Some (VBool false)
    ∧ d !! "recruiter_id" = Some (VStr recruiter_id)
    ∧ d !! "resume_path" = Some (VStr resume_path)
    ∧ d !! "jd_id" = Some (VStr jd_id)
    ∧ d !! "consultant_id" = Some (VStr consultant_id)
    ∧ Submission.status s = SUBMITTED
    ∧ Submission.recruiter_read s = false
    ∧ Submission.recruiter_id s = recruiter_id
    ∧ Submission.resume_path s = resume_path
    ∧ Submission.jd_id s = jd_id
    ∧ Submission.consultant_id s = consultant_id.
Proof.
  intros Hdb Hfresh.
  unfold SubmissionRepository_create, bind, get_database, lift. rewrite Hdb.
  cbn [py_str list_to_map foldr SubmissionStatus_value fst snd].
  rewrite insert_one_fresh; [|by rewrite !lookup_insert_ne, lookup_empty|done].
  unfold put_database. cbn [db_handle files log py_str].
  set (d := <["_id" := VOid (new_oid env)]> _).
  assert (Hs : ∃ s, Submission_of_doc (<["id" := VStr (new_oid env)]> d) = Ok s
                    ∧ Submission.status s = SUBMITTED
                    ∧ Submission.recruiter_read s = false
                    ∧ Submission.recruiter_id s = recruiter_id
                    ∧ Submission.resume_path s = resume_path
                    ∧ Submission.jd_id s = jd_id
                    ∧ Submission.consultant_id s = consultant_id).
  { unfold Submission_of_doc, d. autorewrite with fields.
    change (SubmissionStatus_of_string "SUBMITTED") with (Some SUBMITTED).
    eexists. split; [reflexivity|]. by repeat split. }
  destruct Hs as (s & -> & ?).
  exists s, d. split; [done|].
  repeat (split; [unfold d; solve_lookup|]). done.
Qed.

Lemma JobRepository_get_by_id_missing {pd : Pydantic} (jd_id oid : string)
    (w : World) (db : Database) :
  db_handle w = Some db → ObjectId (VStr jd_id) = Ok oid →
  find_one [("_id", VOid oid)] (job_descriptions db) = None →
  JobRepository_get_by_id jd_id w = (Ok None, w).
Proof.
  intros Hdb Hoid Hnone. unfold JobRepository_get_by_id, bind, get_database, lift.
  by rewrite Hdb, Hoid, Hnone.
Qed.

Lemma JobRepository_get_by_id_refused {pd : Pydantic} (jd_id : string) (w : World)
    (db : Database) :
  db_handle w = Some db → ObjectId (VStr jd_id) = Raise InvalidId →
  JobRepository_get_by_id jd_id w = (Raise InvalidId, w).
Proof.
  intros Hdb Hoid. unfold JobRepository_get_by_id, bind, get_database, lift.
  by rewrite Hdb, Hoid.
Qed.

(** Text is an id or is refused with [InvalidId]. *)
Lemma ObjectId_str_cases (s : string) :
  (∃ oid, ObjectId (VStr s) = Ok oid) ∨ ObjectId (VStr s) = Raise InvalidId.
Proof.
  unfold ObjectId. destruct (_ =? _)%nat; [|by right].
  destruct (fromhex s); [left; by eexists|by right].
Qed.

(** C4 (as amended): the id sent with a submission request is either
    taken by [ObjectId] or refused.  When it is refused the request of a
    consultant fails with [InvalidId], which no handler turns into a
    404, and nothing changes.  When it is taken, the request fails with
    404 when no job has that id, fails with 400 and changes nothing when
    the job read is not OPEN, and for an OPEN job, once the upload is
    written and the new id is unused, adds exactly one document to the
    submissions, with status SUBMITTED, [recruiter_read] false, the
    job's [recruiter_id] and the path of the written file. *)
Theorem create_submission_guarded {pd : Pydantic} (env : Env) (jd_id : string)
    (comments : option string) (resume : UploadFile) (current_user : User.t)
    (w : World) (db : Database) :
  User.role current_user = CONSULTANT →
  db_handle w = Some db →
  ((∃ oid, ObjectId (VStr jd_id) = Ok oid) ∨ ObjectId (VStr jd_id) = Raise InvalidId)
  ∧ (ObjectId (VStr jd_id) = Raise InvalidId →
     create_submission env jd_id comments resume current_user w = (Raise InvalidId, w)
     ∧ response_status (Raise InvalidId : result Submission.t) = 500%Z)
  ∧ (∀ oid, ObjectId (VStr jd_id) = Ok oid →
            find_one [("_id", VOid oid)] (job_descriptions db) = None →
            create_submission env jd_id comments resume current_user w
            = (Raise (HTTPException 404 "Job not found"), w))
  ∧ (∀ jd, JobRepository_get_by_id jd_id w = (Ok (Some jd), w) →
           JobDescription.status jd ≠ "OPEN" →
           create_submission env jd_id comments resume current_user w
           = (Raise (HTTPException 400 "Job is not open for applications"), w))
  ∧ (∀ jd, JobRepository_get_by_id jd_id w = (Ok (Some jd), w) →
           JobDescription.status jd = "OPEN" →
           disk_ok env = true →
           (∀ x, x ∈ submissions db → x !! "_id" ≠ Some (VOid (new_oid env))) →
           let path := resume_file_path env (User.id current_user) jd_id resume in
           ∃ s w' db' d,
             create_submission env jd_id comments resume current_user w = (Ok s, w')
             ∧ db_handle w' = Some db'
             ∧ submissions db' = submissions db ++ [d]
             ∧ d !! "status" = Some (VStr "SUBMITTED")
             ∧ d !! "recruiter_read" = Some (VBool false)
             ∧ d !! "recruiter_id" = Some (VStr (JobDescription.recruiter_id jd))
             ∧ d !! "resume_path" = Some (VStr path)
             ∧ files w' !! path = Some (file resume)
             ∧ Submission.status s = SUBMITTED
             ∧ Submission.recruiter_read s = false
             ∧ Submission.recruiter_id s = JobDescription.recruiter_id jd
             ∧ Submission.resume_path s = path).
Proof.
  intros Hrole Hdb.
  assert (Hgate : require_role CONSULTANT current_user = Ok current_user).
  { unfold require_role. by rewrite Hrole. }
  split; [apply ObjectId_str_cases|]. split; [|split; [|split]].
  - intros Hoid. split; [|done].
    unfold create_submission, bind at 1, lift. rewrite Hgate.
    unfold bind at 1.
    by rewrite (JobRepository_get_by_id_refused jd_id w db).
  - intros oid Hoid Hnone.
    unfold create_submission, bind at 1, lift. rewrite Hgate.
    unfold bind at 1.
    by rewrite (JobRepository_get_by_id_missing jd_id oid w db).
  - intros jd Hjd Hst.
    unfold create_submission, bind at 1, lift. rewrite Hgate.
    unfold bind at 1. rewrite Hjd.
    by apply String.eqb_neq in Hst as ->.
  - intros jd Hjd Hst Hdisk Hfresh path.
    destruct (ensure_profile_same env (User.id current_user) w)
      as (w1 & Hw1 & Hfiles & Hlog & Hsub & _).
    rewrite Hdb in Hsub. simpl in Hsub.
    destruct (db_handle w1) as [db1|] eqn:Hdb1; [|done].
    injection Hsub as Hsub.
    destruct (SubmissionRepository_create_fresh env jd_id comments
                (User.id current_user) (JobDescription.recruiter_id jd) path
                {| db_handle := db_handle w1;
                   files := <[path := file resume]> (files w1); log := log w1 |}
                db1 Hdb1)
      as (s & d & Hcreate & Hd1 & Hd2 & Hd3 & Hd4 & _ & _ & Hs1 & Hs2 & Hs3 & Hs4 & _).
    { intros x Hx. apply Hfresh. by rewrite <- Hsub. }
    eexists s, _, _, d.
    split.
    + unfold create_submission, bind at 1, lift. rewrite Hgate.
      unfold bind at 1. rewrite Hjd.
      apply String.eqb_eq in Hst as ->. cbn [negb].
      unfold bind at 1. rewrite Hw1.
      unfold catch, bind at 1, write_file. rewrite Hdisk.
      fold (resume_file_path env (User.id current_user) jd_id resume). fold path.
      by rewrite Hcreate.
    + cbn [db_handle files set_submissions submissions].
      rewrite Hsub, lookup_insert_eq. done.
Qed.

Lemma create_submission_guarded_witness :
  User.role carl = CONSULTANT
  ∧ db_handle sample_world = Some sample_db
  ∧ ObjectId (VStr "000000000000000000000000") = Ok "000000000000000000000000"
  ∧ ObjectId (VStr "abc") = Raise InvalidId
  ∧ create_submission (pd:=strict_pydantic) sample_env "abc" None resume_upload carl
      sample_world
    = (Raise InvalidId, sample_world)
  ∧ create_submission (pd:=strict_pydantic) sample_env "000000000000000000000000" None
      resume_upload carl sample_world
    = (Raise (HTTPException 404 "Job not found"), sample_world)
  ∧ create_submission (pd:=strict_pydantic) sample_env closed_job_id None resume_upload
      carl sample_world
    = (Raise (HTTPException 400 "Job is not open for applications"), sample_world)
  ∧ ∃ s w', create_submission (pd:=strict_pydantic) sample_env open_job_id None
              resume_upload carl sample_world = (Ok s, w')
            ∧ Submission.status s = SUBMITTED
            ∧ Submission.recruiter_id s = rita_id
            ∧ Submission.resume_path s
              = "uploads/cccccccccccccccccccccc01_bbbbbbbbbbbbbbbbbbbbbb01_deadbeef.pdf".
Proof.
  split; [reflexivity|]. split; [reflexivity|]. split; [reflexivity|].
  split; [reflexivity|].
  destruct (create_submission_guarded (pd:=strict_pydantic) sample_env "abc" None
              resume_upload carl sample_world sample_db eq_refl eq_refl)
    as (_ & H500 & _).
  destruct (create_submission_guarded (pd:=strict_pydantic) sample_env
              "000000000000000000000000" None
              resume_upload carl sample_world sample_db eq_refl eq_refl)
    as (_ & _ & H404 & _).
  destruct (create_submission_guarded (pd:=strict_pydantic) sample_env closed_job_id None
              resume_upload carl sample_world sample_db eq_refl eq_refl)
    as (_ & _ & _ & H400 & _).
  destruct (create_submission_guarded (pd:=strict_pydantic) sample_env open_job_id None
              resume_upload carl sample_world sample_db eq_refl eq_refl)
    as (_ & _ & _ & _ & Hopen).
  split; [exact (proj1 (H500 eq_refl))|].
  split; [apply (H404 "000000000000000000000000"); reflexivity|].
  split; [apply (H400 closed_job); [reflexivity|by vm_compute]|].
  destruct (Hopen open_job) as (s & w' & db' & d & Hc & _ & _ & _ & _ & _ & _ & _
                                & Hs1 & _ & Hs3 & Hs4);
    [reflexivity|reflexivity|reflexivity| |].
  - intros x Hx. apply list_elem_of_singleton in Hx as ->. by vm_compute.
  - exists s, w'. split; [exact Hc|]. split; [exact Hs1|]. split; [exact Hs3|].
    rewrite Hs4. by vm_compute.
Defined.

(** C4, counterexample: no stored job has the id "abc", in whatever
    form, so the target job does not exist; yet the request of a
    consultant for it is not answered 404.  [ObjectId] refuses the text
    before anything is looked up, [InvalidId] escapes the endpoint and
    the client sees 500. *)
Lemma malformed_job_id_is_not_answered_404 :
  User.role carl = CONSULTANT
  ∧ db_handle sample_world = Some sample_db
  ∧ Forall (λ d : doc, d !! "_id" ≠ Some (VStr "abc") ∧ d !! "_id" ≠ Some (VOid "abc"))
      (job_descriptions sample_db)
  ∧ create_submission (pd:=strict_pydantic) sample_env "abc" None resume_upload carl
      sample_world
    = (Raise InvalidId, sample_world)
  ∧ response_status
      (create_submission (pd:=strict_pydantic) sample_env "abc" None resume_upload carl
         sample_world).1 = 500%Z
  ∧ response_status
      (create_submission (pd:=strict_pydantic) sample_env "abc" None resume_upload carl
         sample_world).1 ≠ 404%Z.
Proof.
  split; [reflexivity|]. split; [reflexivity|].
  split; [by repeat constructor|].
  split; [reflexivity|]. split; [reflexivity|discriminate].
Qed.

(** ** The read-side join *)

Lemma merge_recruiter_data_cases (d : doc) (db : Database) :
  _merge_recruiter_data d db
  = match resolve_reference (dict_get d "recruiter_id") (recruiters db) with
    | RefEmpty | RefMissing =>
      <["recruiter_email" := VStr "N/A"]>
        (<["recruiter_name" := VStr "Unknown Recruiter"]> d)
    | RefMalformed =>
      <["recruiter_email" := VStr "N/A"]> (<["recruiter_name" := VStr "Invalid ID"]> d)
    | RefFound user_data =>
      <["recruiter_email" := default (VStr "") (user_data !! "email")]>
        (<["recruiter_name" := default (VStr "Unknown") (user_data !! "name")]> d)
    end.
Proof.
  unfold _merge_recruiter_data, resolve_reference.
  destruct (negb (truthy _)); [done|].
  destruct (ObjectId _); [|done]. by destruct (find_one _ _).
Qed.





Lemma JobRepository_get_by_id_found {pd : Pydantic} (jd_id oid : string) (w : World) (db : Database)
    (d : doc) :
  db_handle w = Some db → ObjectId (VStr jd_id) = Ok oid →
  find_one [("_id", VOid oid)] (job_descriptions db) = Some d →
  JobRepository_get_by_id jd_id w
  = (match job_of_stored db d with Ok jd => Ok (Some jd) | Raise e => Raise e end, w).
Proof.
  intros Hdb Hoid Hd. unfold JobRepository_get_by_id, bind, get_database, lift.
  rewrite Hdb, Hoid, Hd. by destruct (job_of_stored db d).
Qed.






(** ** Account lookup *)

Lemma find_one_app (q : list (string * pyval)) (c1 c2 : collection) :
  find_one q (c1 ++ c2)
  = match find_one q c1 with Some d => Some d | None => find_one q c2 end.
Proof.
  unfold find_one. induction c1 as [|x c1 IH]; simpl; [done|].
  by destruct (matches q x).
Qed.

Lemma head_filter_find {A} (f : A → bool) (l : list A) :
  head (List.filter f l) = List.find f l.
Proof. induction l as [|x l IH]; simpl; [done|]. by destruct (f x). Qed.

Lemma first_account_doc_order (email : string) (db : Database) :
  first_account_doc email db
  = match find_one [("email", VStr email)] (recruiters db) with
    | Some d => Some d
    | None =>
      match find_one [("email", VStr email)] (consultants db) with
      | Some d => Some d
      | None => find_one [("email", VStr email)] (admins db)
      end
    end.
Proof.
  unfold first_account_doc. rewrite head_filter_find.
  fold (find_one [("email", VStr email)]
          (recruiters db ++ consultants db ++ admins db)).
  by rewrite !find_one_app.
Qed.

Global Instance at_sign_validator_laws : EmailValidatorLaws at_sign_validator.
Proof.
  constructor. intros s s'. simpl.
  destruct (existsb _ _) eqn:Hex; [intros _|done].
  destruct (is_blank s) eqn:Hb; [|done].
  by rewrite (is_blank_no_at s Hb) in Hex.
Qed.

Section AccountLookup.
Context {ev : EmailValidator} {laws : EmailValidatorLaws ev}.

Lemma UserBase_fields_email (d : doc) (x : string * string * UserRole * bool) :
  UserBase_fields d = Ok x →
  ∃ e, req_str d "email" = Ok e ∧ is_Some (validate_email e).
Proof.
  unfold UserBase_fields. intros H. do 4 head_ok H.
  eexists. split; [done|].
  unfold UserBase_check in *. by destruct (validate_email _).
Qed.

Lemma stored_account_email (d : doc) (u : User.t) (email : string) :
  stored_account d = Ok u → d !! "email" = Some (VStr email) →
  is_blank email = false.
Proof.
  unfold stored_account, User_of_doc. intros H Hemail. do 2 head_ok H.
  apply UserBase_fields_email in E0 as (e & He & [e' He']).
  autorewrite with fields in He. unfold req_str in He. rewrite Hemail in He.
  injection He as <-. by eapply validated_email_not_blank.
Qed.

Lemma get_user_by_email_spec (email : string) (w : World) (db : Database) :
  db_handle w = Some db → accounts_valid db →
  get_user_by_email email w
  = match first_account_doc email db with
    | Some d => match stored_account d with Ok u => Some u | Raise _ => None end
    | None => None
    end.
Proof.
  intros Hdb Hvalid. unfold get_user_by_email. rewrite Hdb.
  destruct (is_blank email) eqn:Hblank.
  - destruct (first_account_doc email db) as [d|] eqn:Hfound; [exfalso|done].
    unfold first_account_doc in Hfound. rewrite head_filter_find in Hfound.
    apply find_one_matches in Hfound as [Hm%matches_lookup Hin].
    unfold accounts_valid in Hvalid. rewrite Forall_forall in Hvalid.
    specialize (Hvalid d Hin).
    destruct (stored_account d) as [u|] eqn:Hu; [|done].
    by rewrite (stored_account_email d u email Hu Hm) in Hblank.
  - rewrite first_account_doc_order. unfold stored_account.
    destruct (find_one _ (recruiters db)) as [d|];
      [|destruct (find_one _ (consultants db)) as [d|];
        [|destruct (find_one _ (admins db)) as [d|]; [|done]]];
      by destruct (getitem d "_id").
Qed.

(** C8: with the database at hand and valid stored accounts, the
    lookup by email returns the account of the first document with
    that address in the order recruiters, consultants, admins, and
    [None] when no collection has one; when the recruiters have one,
    that recruiter account is returned whatever the other collections
    hold. *)
Theorem get_user_by_email_probes_in_order (email : string) (w : World)
    (db : Database) :
  db_handle w = Some db → accounts_valid db →
  (match first_account_doc email db with
   | Some d => ∃ u, stored_account d = Ok u ∧ get_user_by_email email w = Some u
   | None => get_user_by_email email w = None
   end)
  ∧ first_account_doc email db
    = match find_one [("email", VStr email)] (recruiters db) with
      | Some d => Some d
      | None =>
        match find_one [("email", VStr email)] (consultants db) with
        | Some d => Some d
        | None => find_one [("email", VStr email)] (admins db)
        end
      end
  ∧ (∀ d, find_one [("email", VStr email)] (recruiters db) = Some d →
          ∃ u, stored_account d = Ok u ∧ get_user_by_email email w = Some u)
  ∧ (find_one [("email", VStr email)] (recruiters db) = None →
     find_one [("email", VStr email)] (consultants db) = None →
     find_one [("email", VStr email)] (admins db) = None →
     get_user_by_email email w = None).
Proof.
  intros Hdb Hvalid.
  pose proof (get_user_by_email_spec email w db Hdb Hvalid) as Hspec.
  pose proof (first_account_doc_order email db) as Hord.
  assert (Hsome : ∀ d, first_account_doc email db = Some d →
            ∃ u, stored_account d = Ok u ∧ get_user_by_email email w = Some u).
  { intros d Hd. rewrite Hspec, Hd.
    assert (Hin : d ∈ recruiters db ++ consultants db ++ admins db).
    { unfold first_account_doc in Hd. rewrite head_filter_find in Hd.
      apply find_some in Hd as [? _]. by apply list_elem_of_In. }
    unfold accounts_valid in Hvalid. rewrite Forall_forall in Hvalid.
    specialize (Hvalid d Hin).
    destruct (stored_account d) as [u|]; [by exists u|done]. }
  split; [|split; [exact Hord|split]].
  - destruct (first_account_doc email db) as [d|] eqn:Hd; [by apply Hsome|].
    exact Hspec.
  - intros d Hd. apply Hsome. by rewrite Hord, Hd.
  - intros H1 H2 H3. by rewrite Hspec, Hord, H1, H2, H3.
Qed.

End AccountLookup.

Lemma sample_accounts_valid : accounts_valid (ev:=at_sign_validator) sample_db.
Proof. unfold accounts_valid. repeat constructor. Qed.

Lemma get_user_by_email_probes_in_order_witness :
  db_handle sample_world = Some sample_db
  ∧ accounts_valid (ev:=at_sign_validator) sample_db
  ∧ is_Some (find_one [("email", VStr "rita@example.com")] (consultants sample_db))
  ∧ ∃ u, get_user_by_email (ev:=at_sign_validator) "rita@example.com" sample_world
         = Some u
         ∧ stored_account (ev:=at_sign_validator)
             (account_doc rita_id "rita@example.com" "Rita" "RECRUITER" "h-rita")
           = Ok u.
Proof.
  split; [reflexivity|]. split; [exact sample_accounts_valid|].
  split; [by eexists|].
  destruct (get_user_by_email_probes_in_order (ev:=at_sign_validator)
              "rita@example.com" sample_world sample_db eq_refl
              sample_accounts_valid) as (_ & _ & Hrec & _).
  destruct (Hrec (account_doc rita_id "rita@example.com" "Rita" "RECRUITER" "h-rita")
              eq_refl) as (u & Hu & Hget).
  exists u. split; [exact Hget|exact Hu].
Defined.

(** ** The classification adapter *)

Section AIServiceProperties.
Context {rt : PyRuntime}.

Lemma check_start_date_cases (v : json) :
  check_start_date (or_None v) = JNull
  ∨ ∃ s, check_start_date (or_None v) = JStr s ∧ v = JStr s
         ∧ is_Some (fromisoformat (replace_Z s)).
Proof.
  unfold check_start_date, or_None.
  destruct (json_truthy v) eqn:Hv; [|by left].
  rewrite Hv. destruct v; try by left.
  destruct (fromisoformat (replace_Z s)) eqn:Hs; [|by left].
  right. exists s. by rewrite Hs.
Qed.

(** The normalisation of a dictionary whose [title] is absent or text
    and whose [experience_required] converts to a number. *)
Lemma normalize_classified_dict (api_key text jd_text : string)
    (d : list (string * json)) (x : Q) :
  api_key ≠ "" →
  json_loads (strip_code_fence text) = Some (JDict d) →
  (assoc_get d "title" = None ∨ ∃ s, assoc_get d "title" = Some (JStr s)) →
  py_float (default (JInt 0) (assoc_get d "experience_required")) = Ok x →
  ∃ r, classify_job_description api_key (Ok text) jd_text = Ok r
       ∧ normalize_classified (JDict d) jd_text = Ok r
       ∧ ((assoc_get d "title" = None
           ∨ ∃ s, assoc_get d "title" = Some (JStr s) ∧ is_blank s = true) →
          Classified.title r = "Untitled Position")
       ∧ Classified.title r ≠ ""
       ∧ ((∀ l, assoc_get d "tech_required" ≠ Some (JList l)) →
          Classified.tech_required r = JList [])
       ∧ (∃ l, Classified.tech_required r = JList l)
       ∧ (∀ v, assoc_get d "start_date" = Some v →
               (∀ s, v = JStr s → fromisoformat (replace_Z s) = None) →
               Classified.start_date r = JNull)
       ∧ (Classified.start_date r = JNull
          ∨ ∃ s, Classified.start_date r = JStr s
                 ∧ assoc_get d "start_date" = Some (JStr s)
                 ∧ is_Some (fromisoformat (replace_Z s))).
Proof.
  intros Hkey Hparse Htitle Hfloat.
  assert (Hstrip : ∃ t, json_strip (default (JStr "") (assoc_get d "title")) = Ok t
            ∧ ((assoc_get d "title" = None
                ∨ ∃ s, assoc_get d "title" = Some (JStr s) ∧ is_blank s = true) →
               t = "")).
  { destruct Htitle as [Hnone|[s Hs]].
    - rewrite Hnone. exists "". split; [done|done].
    - rewrite Hs. exists (strip s). split; [done|].
      intros [?|(s' & [= <-] & Hb)]; [congruence|by apply strip_blank]. }
  destruct Hstrip as (t & Ht & Hblank).
  eexists. split; [|split].
  - unfold classify_job_description. apply String.eqb_neq in Hkey as ->.
    rewrite Hparse. unfold normalize_classified, json_get.
    rewrite Ht, Hfloat. reflexivity.
  - unfold normalize_classified, json_get. rewrite Ht, Hfloat. reflexivity.
  - cbn [Classified.title Classified.tech_required Classified.start_date].
    split; [|split; [|split; [|split; [|split]]]].
    + intros H. by rewrite (Hblank H).
    + destruct (String.eqb t "") eqn:E; [done|by apply String.eqb_neq].
    + intros Hnl. destruct (assoc_get d "tech_required") as [v|]; [|done].
      simpl. destruct v; try done. by destruct (Hnl l).
    + destruct (default (JList []) (assoc_get d "tech_required")); by eexists.
    + intros v Hv Hbad. rewrite Hv. simpl.
      destruct (check_start_date_cases v) as [?|(s & _ & -> & [? Hs])]; [done|].
      by rewrite (Hbad s eq_refl) in Hs.
    + destruct (assoc_get d "start_date") as [v|]; simpl; [|by left].
      destruct (check_start_date_cases v) as [?|(s & ? & -> & ?)]; [by left|].
      right. by exists s.
Qed.


(** The normalisation completes on exactly these answers. *)
Lemma normalize_classified_ok (data : json) (jd_text : string) (r : Classified.t) :
  normalize_classified data jd_text = Ok r →
  ∃ d x, data = JDict d
         ∧ (assoc_get d "title" = None ∨ ∃ s, assoc_get d "title" = Some (JStr s))
         ∧ py_float (default (JInt 0) (assoc_get d "experience_required")) = Ok x.
Proof.
  unfold normalize_classified. intros H.
  destruct data as [| | | | | |d]; try discriminate H.
  cbv beta iota delta [json_get] in H.
  destruct (json_strip _) as [t|] eqn:Ht; [|discriminate H].
  destruct (py_float _) as [x|] eqn:Hx; [|discriminate H].
  exists d, x. split; [done|]. split; [|done].
  destruct (assoc_get d "title") as [v|]; [|by left].
  destruct v; try discriminate Ht. right. by eexists.
Qed.

(** C9: for an answer that was parsed, whenever the adapter returns a
    result, a missing or blank title has become "Untitled Position", a
    [tech_required] that is not a list has become the empty list, and
    a [start_date] that is present but is not text read by
    [fromisoformat] has become null.  The adapter returns exactly when
    the answer is a dictionary whose [title] is absent or text and
    whose [experience_required] converts to a number; otherwise it
    raises [ValueError]. *)
Theorem classification_is_normalized (api_key text jd_text : string) (data : json) :
  api_key ≠ "" →
  json_loads (strip_code_fence text) = Some data →
  (is_ok (classify_job_description api_key (Ok text) jd_text) = true
   ↔ ∃ d, data = JDict d
          ∧ (assoc_get d "title" = None ∨ ∃ s, assoc_get d "title" = Some (JStr s))
          ∧ is_ok (py_float (default (JInt 0) (assoc_get d "experience_required")))
            = true)
  ∧ (is_ok (classify_job_description api_key (Ok text) jd_text) = false →
     ∃ msg, classify_job_description api_key (Ok text) jd_text
            = Raise (ValueError msg))
  ∧ (∀ r, classify_job_description api_key (Ok text) jd_text = Ok r →
          ∃ d, data = JDict d
               ∧ ((assoc_get d "title" = None
                   ∨ ∃ s, assoc_get d "title" = Some (JStr s) ∧ is_blank s = true) →
                  Classified.title r = "Untitled Position")
               ∧ Classified.title r ≠ ""
               ∧ ((∀ l, assoc_get d "tech_required" ≠ Some (JList l)) →
                  Classified.tech_required r = JList [])
               ∧ (∃ l, Classified.tech_required r = JList l)
               ∧ (∀ v, assoc_get d "start_date" = Some v →
                       (∀ s, v = JStr s → fromisoformat (replace_Z s) = None) →
                       Classified.start_date r = JNull)
               ∧ (Classified.start_date r = JNull
                  ∨ ∃ s, Classified.start_date r = JStr s
                         ∧ assoc_get d "start_date" = Some (JStr s)
                         ∧ is_Some (fromisoformat (replace_Z s)))).
Proof.
  intros Hkey Hparse.
  assert (Hbody : classify_job_description api_key (Ok text) jd_text
            = match normalize_classified data jd_text with
              | Ok r => Ok r
              | Raise e =>
                Raise (ValueError ("Failed to classify job description: "
                                   +:+ str_exn e))
              end).
  { unfold classify_job_description.
    apply String.eqb_neq in Hkey as ->. by rewrite Hparse. }
  split; [split|split].
  - rewrite Hbody. destruct (normalize_classified data jd_text) as [r|] eqn:Hn;
      [intros _|done].
    destruct (normalize_classified_ok _ _ _ Hn) as (d & x & -> & Ht & Hx).
    exists d. by rewrite Hx.
  - intros (d & -> & Ht & Hx).
    destruct (py_float _) as [x|] eqn:Hf; [|done].
    destruct (normalize_classified_dict api_key text jd_text d x Hkey Hparse Ht Hf)
      as (r & -> & _). done.
  - rewrite Hbody. destruct (normalize_classified data jd_text); [done|].
    intros _. by eexists.
  - intros r Hr. rewrite Hbody in Hr.
    destruct (normalize_classified data jd_text) as [r'|] eqn:Hn; [|done].
    injection Hr as ->.
    destruct (normalize_classified_ok _ _ _ Hn) as (d & x & -> & Ht & Hx).
    destruct (normalize_classified_dict api_key text jd_text d x Hkey Hparse Ht Hx)
      as (r' & _ & Hn' & Hprops).
    rewrite Hn in Hn'. injection Hn' as <-. by exists d.
Qed.

End AIServiceProperties.

Lemma classification_is_normalized_witness :
  "key" ≠ ""
  ∧ json_loads (PyRuntime:=small_runtime) (strip_code_fence "```json answer ```")
    = Some (JDict sample_answer)
  ∧ ∃ r, classify_job_description (rt:=small_runtime) "key"
           (Ok "```json answer ```") "text" = Ok r
         ∧ Classified.title r = "Untitled Position"
         ∧ Classified.tech_required r = JList []
         ∧ Classified.start_date r = JNull.
Proof.
  split; [discriminate|]. split; [reflexivity|].
  destruct (classification_is_normalized (rt:=small_runtime)
              "key" "```json answer ```" "text" (JDict sample_answer))
    as (_ & _ & Hprops); [discriminate|reflexivity|].
  destruct (classify_job_description (rt:=small_runtime) "key"
              (Ok "```json answer ```") "text") as [r|] eqn:Hr; [|discriminate].
  destruct (Hprops r eq_refl) as (d & [= <-] & Ht & _ & Hl & _ & Hs & _).
  exists r. split; [reflexivity|]. split; [|split].
  - apply Ht. right. eexists. split; reflexivity.
  - apply Hl. intros l. discriminate.
  - apply (Hs (JStr "next month")); [reflexivity|]. by intros s [= <-].
Defined.

(** ** Examples *)

(** Twenty-five euro signs are cut to twenty-three: the loop removes the
    two continuation bytes that end the 72nd byte's character and the
    decoder drops the lead byte left behind. *)
Example truncation_of_25_euros : password_for_hashing (euros 25) = Some (euros 23).
Proof. by vm_compute. Qed.

Example no_truncation_at_72_bytes : password_for_hashing (euros 24) = Some (euros 24).
Proof. by vm_compute. Qed.

(** A lone surrogate cannot be encoded: hashing raises, verifying says no. *)
Example lone_surrogate_password :
  (get_password_hash (ctx:=plain_context) tt [0xD800%Z]).2
  = Raise (ValueError "Password hashing failed")
  ∧ (verify_password (ctx:=plain_context) [0xD800%Z] "h").2 = false.
Proof. split; reflexivity. Qed.

(** The owner of a job can close it. *)
Example owner_updates_job :
  JobDescription.status <$>
    (match (update_job (pd:=strict_pydantic) sample_env open_job_id
              {[ "status" := VStr "CLOSED" ]} rita sample_world).1
     with Ok jd => Some jd | Raise _ => None end)
  = Some "CLOSED".
Proof. reflexivity. Qed.

(** A recruiter may list closed jobs; a consultant asking for them gets
    the three open ones. *)
Example listings :
  (length <$> (match (get_jobs (pd:=strict_pydantic) (Some "CLOSED") rita sample_world).1
               with Ok l => Some l | Raise _ => None end) = Some 1%nat)
  ∧ (map JobDescription.id <$>
       (match (get_jobs (pd:=strict_pydantic) (Some "CLOSED") carl sample_world).1
        with Ok l => Some l | Raise _ => None end)
     = Some [open_job_id; stray_job_id; orphan_job_id]).
Proof. split; reflexivity. Qed.

(** When the disk refuses the upload the request ends with 500 and no
    submission is stored. *)
Example upload_refused :
  let env := {| utcnow := 5000; new_oid := "121212121212121212121212";
                upsert_oid := "343434343434343434343434";
                urandom_hex := "deadbeef"; disk_ok := false |} in
  let r := create_submission (pd:=strict_pydantic) env open_job_id None resume_upload
             carl sample_world in
  response_status r.1 = 500%Z
  ∧ (length ∘ submissions) <$> db_handle r.2 = Some 1%nat.
Proof. split; reflexivity. Qed.

(** A job stored without [recruiter_id] is merged with the placeholders
    but then fails the model's required field. *)
Example job_without_recruiter_id :
  let d := delete "recruiter_id" (job_doc open_job_id rita_id "Backend engineer" "OPEN") in
  _merge_recruiter_data d sample_db !! "recruiter_name" = Some (VStr "Unknown Recruiter")
  ∧ job_of_stored (pd:=strict_pydantic) sample_db d = Raise (ValidationError "recruiter_id").
Proof. split; reflexivity. Qed.

(** Twenty-two digits and two spaces are taken by [ObjectId]: a job that
    refers to such an id is read with the placeholders of an account
    that is not there. *)
Example padded_reference :
  let ref := "aaaaaaaaaaaaaaaaaaaaaa  " in
  ObjectId (VStr ref) = Ok "aaaaaaaaaaaaaaaaaaaaaa"
  ∧ resolve_reference (VStr ref) (recruiters sample_db) = RefMissing
  ∧ JobDescription.recruiter_name <$>
      (match job_of_stored (pd:=strict_pydantic) sample_db
               (job_doc open_job_id ref "Backend engineer" "OPEN")
       with Ok jd => Some jd | Raise _ => None end)
    = Some (Some "Unknown Recruiter").
Proof. repeat split; reflexivity. Qed.

(** Such an id is looked up like any other: the status request for it is
    answered 404, and the submission request 404 as well. *)
Example padded_id_not_found :
  update_submission_status sample_env "ffffffffffffffffffffff  "
    (SubmissionUpdate.mk (Some OFFER) None None) rita sample_world
  = (Raise (HTTPException 404 "Submission not found"), sample_world)
  ∧ create_submission (pd:=strict_pydantic) sample_env "bbbbbbbbbbbbbbbbbbbbbb  " None
      resume_upload carl sample_world
    = (Raise (HTTPException 404 "Job not found"), sample_world).
Proof. split; reflexivity. Qed.

(** A number stored as text is read by conversions that take it and
    refused by those that take numbers only. *)
Example number_stored_as_text :
  let d := <["experience_required" := VStr "3"]>
             (job_doc open_job_id rita_id "Backend engineer" "OPEN") in
  JobDescription.experience_required <$>
    (match job_of_stored (pd:=digits_pydantic) sample_db d
     with Ok jd => Some jd | Raise _ => None end) = Some 3%Q
  ∧ job_of_stored (pd:=strict_pydantic) sample_db d
    = Raise (ValidationError "experience_required").
Proof. split; reflexivity. Qed.

(** A value that is no member of [JobType] is refused whatever the
    conversions. *)
Example unknown_job_type :
  job_of_stored (pd:=digits_pydantic) sample_db
    (<["job_type" := VStr "Part-time"]>
       (job_doc open_job_id rita_id "Backend engineer" "OPEN"))
  = Raise (ValidationError "job_type").
Proof. reflexivity. Qed.

(** A title made of a no-break space and an em space is blank. *)
Example blank_title :
  let title := char_of_codepoint 0xA0 +:+ char_of_codepoint 0x2003 in
  is_blank title = true ∧ strip title = ""
  ∧ Classified.title <$>
      (match normalize_classified (rt:=small_runtime)
               (JDict [("title", JStr title)]) "text"
       with Ok r => Some r | Raise _ => None end)
    = Some "Untitled Position".
Proof. repeat split; reflexivity. Qed.

(** The length of a name is counted in characters: a hundred letters of
    two bytes each are not too many. *)
Example name_of_100_characters :
  let name := String.concat "" (repeat (char_of_codepoint 0xE9) 100) in
  String.length name = 200%nat ∧ py_len name = 100%nat
  ∧ is_ok (UserBase_check (ev:=at_sign_validator) "a@example.com" name "ADMIN") = true.
Proof. repeat split; reflexivity. Qed.

(** A JSON [null] title has no [strip]: the adapter raises. *)
Example null_title :
  normalize_classified (rt:=small_runtime) (JDict [("title", JNull)]) "text"
  = Raise AttributeError.
Proof. reflexivity. Qed.

(** A fenced answer is unwrapped before it is parsed. *)
Example fence_removed : strip_code_fence "```json answer ```" = "answer".
Proof. reflexivity. Qed.

(** The extension of an upload's name. *)
Example extensions :
  splitext_ext "carl.cv.pdf" = ".pdf" ∧ splitext_ext ".profile" = ""
  ∧ splitext_ext "dir.d/cv" = "".
Proof. repeat split; reflexivity. Qed.

(** Without a database handle [get_database] raises a [ValueError], which
    the update endpoint also answers with 403. *)
Example update_without_database :
  response_status
    (update_job (pd:=strict_pydantic) sample_env open_job_id ∅ rita
       {| db_handle := None; files := ∅; log := [] |}).1 = 403%Z.
Proof. reflexivity. Qed.

(** ** Truncation of long passwords *)

Lemma incomplete_tail_byte (b : Z) :
  (0 <= b < 256)%Z → incomplete_tail b = is_continuation b.
Proof.
  intros Hb.
  assert (H : forallb (λ n, Bool.eqb (incomplete_tail (Z.of_nat n))
                                     (is_continuation (Z.of_nat n)))
                (seq 0 256) = true) by (vm_compute; reflexivity).
  rewrite forallb_forall in H.
  specialize (H (Z.to_nat b)). rewrite Z2Nat.id in H by lia.
  apply Bool.eqb_prop, H, in_seq. lia.
Qed.

(** The bytes of one encoded character: a single byte below 0x80, or a
    lead byte from 0xC0 on followed by one to three continuation
    bytes. *)
Lemma utf8_encode_char_shape (c : Z) (bc : bytes) :
  utf8_encode_char c = Some bc →
  (bc = [c] ∧ (0 <= c < 0x80)%Z)
  ∨ ∃ lead conts, bc = lead :: conts ∧ (0xC0 <= lead < 256)%Z
      ∧ (1 ≤ length conts ≤ 3)%nat
      ∧ Forall (λ b, (0x80 <= b <= 0xBF)%Z) conts.
Proof.
  unfold utf8_encode_char. intros H.
  repeat match type of H with
  | context [(?a <? ?b)%Z] => destruct (Z.ltb_spec a b)
  | context [(?a <=? ?b)%Z] => destruct (Z.leb_spec a b)
  end; simpl in H; simplify_eq; [by left| right ..].
  all: eexists _, _; split; [reflexivity|].
  all: pose proof (Z.mod_pos_bound c 64 ltac:(lia)).
  all: pose proof (Z.mod_pos_bound (c / 64) 64 ltac:(lia)).
  all: pose proof (Z.mod_pos_bound (c / 4096) 64 ltac:(lia)).
  all: assert (0 <= c / 64)%Z by (apply Z.div_pos; lia).
  all: assert (0 <= c / 4096)%Z by (apply Z.div_pos; lia).
  all: assert (0 <= c / 262144)%Z by (apply Z.div_pos; lia).
  all: assert (c / 64 < 32 ∨ 0x800 <= c)%Z
    by (destruct (Z.ltb_spec c 0x800); [left; apply Z.div_lt_upper_bound; lia|by right]).
  all: assert (c / 4096 < 16 ∨ 0x10000 <= c)%Z
    by (destruct (Z.ltb_spec c 0x10000); [left; apply Z.div_lt_upper_bound; lia|by right]).
  all: assert (c / 262144 < 5)%Z by (apply Z.div_lt_upper_bound; lia).
  all: split; [lia|split; [simpl; lia|repeat constructor; lia]].
Qed.

Ltac decide_comparisons :=
  repeat match goal with
  | |- context [(?a <? ?b)%Z] => destruct (Z.ltb_spec a b); try lia
  | |- context [(?a <=? ?b)%Z] => destruct (Z.leb_spec a b); try lia
  | |- context [(?a =? ?b)%Z] => destruct (Z.eqb_spec a b); try lia
  end.

(** One step of the decoder on a byte that is not ASCII. *)
Lemma utf8_decode_ignore_step (b0 b1 b2 b3 : Z) (rest : bytes) :
  ((0 <=? b0) && (b0 <? 0x80))%Z = false →
  (two_byte_seq b0 b1 = true →
   utf8_decode_ignore (b0 :: b1 :: rest)
   = ((b0 - 0xC0) * 64 + (b1 - 0x80))%Z :: utf8_decode_ignore rest)
  ∧ (two_byte_seq b0 b1 = false → three_byte_seq b0 b1 b2 = true →
     utf8_decode_ignore (b0 :: b1 :: b2 :: rest)
     = ((b0 - 0xE0) * 4096 + (b1 - 0x80) * 64 + (b2 - 0x80))%Z
         :: utf8_decode_ignore rest)
  ∧ (two_byte_seq b0 b1 = false → three_byte_seq b0 b1 b2 = false →
     four_byte_seq b0 b1 b2 b3 = true →
     utf8_decode_ignore (b0 :: b1 :: b2 :: b3 :: rest)
     = ((b0 - 0xF0) * 262144 + (b1 - 0x80) * 4096 + (b2 - 0x80) * 64
        + (b3 - 0x80))%Z :: utf8_decode_ignore rest).
Proof.
  intros H0. split; [|split].
  - intros H2. change (utf8_decode_ignore (b0 :: b1 :: rest))
      with (if ((0 <=? b0) && (b0 <? 0x80))%Z then b0 :: utf8_decode_ignore (b1 :: rest)
            else if two_byte_seq b0 b1
                 then ((b0 - 0xC0) * 64 + (b1 - 0x80))%Z :: utf8_decode_ignore rest
                 else match rest with
                      | [] => utf8_decode_ignore (b1 :: rest)
                      | b2 :: r2 =>
                        if three_byte_seq b0 b1 b2
                        then ((b0 - 0xE0) * 4096 + (b1 - 0x80) * 64 + (b2 - 0x80))%Z
                               :: utf8_decode_ignore r2
                        else match r2 with
                             | [] => utf8_decode_ignore (b1 :: rest)
                             | b3 :: r3 =>
                               if four_byte_seq b0 b1 b2 b3
                               then ((b0 - 0xF0) * 262144 + (b1 - 0x80) * 4096
                                     + (b2 - 0x80) * 64 + (b3 - 0x80))%Z
                                      :: utf8_decode_ignore r3
                               else utf8_decode_ignore (b1 :: rest)
                             end
                      end).
    by rewrite H0, H2.
  - intros H2 H3.
    change (utf8_decode_ignore (b0 :: b1 :: b2 :: rest))
      with (if ((0 <=? b0) && (b0 <? 0x80))%Z
            then b0 :: utf8_decode_ignore (b1 :: b2 :: rest)
            else if two_byte_seq b0 b1
                 then ((b0 - 0xC0) * 64 + (b1 - 0x80))%Z
                        :: utf8_decode_ignore (b2 :: rest)
                 else if three_byte_seq b0 b1 b2
                      then ((b0 - 0xE0) * 4096 + (b1 - 0x80) * 64 + (b2 - 0x80))%Z
                             :: utf8_decode_ignore rest
                      else match rest with
                           | [] => utf8_decode_ignore (b1 :: b2 :: rest)
                           | b3 :: r3 =>
                             if four_byte_seq b0 b1 b2 b3
                             then ((b0 - 0xF0) * 262144 + (b1 - 0x80) * 4096
                                   + (b2 - 0x80) * 64 + (b3 - 0x80))%Z
                                    :: utf8_decode_ignore r3
                             else utf8_decode_ignore (b1 :: b2 :: rest)
                           end).
    by rewrite H0, H2, H3.
  - intros H2 H3 H4.
    change (utf8_decode_ignore (b0 :: b1 :: b2 :: b3 :: rest))
      with (if ((0 <=? b0) && (b0 <? 0x80))%Z
            then b0 :: utf8_decode_ignore (b1 :: b2 :: b3 :: rest)
            else if two_byte_seq b0 b1
                 then ((b0 - 0xC0) * 64 + (b1 - 0x80))%Z
                        :: utf8_decode_ignore (b2 :: b3 :: rest)
                 else if three_byte_seq b0 b1 b2
                      then ((b0 - 0xE0) * 4096 + (b1 - 0x80) * 64 + (b2 - 0x80))%Z
                             :: utf8_decode_ignore (b3 :: rest)
                      else if four_byte_seq b0 b1 b2 b3
                           then ((b0 - 0xF0) * 262144 + (b1 - 0x80) * 4096
                                 + (b2 - 0x80) * 64 + (b3 - 0x80))%Z
                                  :: utf8_decode_ignore rest
                           else utf8_decode_ignore (b1 :: b2 :: b3 :: rest)).
    by rewrite H0, H2, H3, H4.
Qed.

Ltac decide_test := decide_comparisons; try done.

Lemma utf8_decode_two (q m : Z) (rest : bytes) :
  (2 <= q < 32)%Z → (0 <= m < 64)%Z →
  utf8_decode_ignore ((0xC0 + q) :: (0x80 + m) :: rest)%Z
  = (64 * q + m)%Z :: utf8_decode_ignore rest.
Proof.
  intros Hq Hm.
  assert (H0 : ((0 <=? 0xC0 + q) && (0xC0 + q <? 0x80))%Z = false) by decide_test.
  assert (H2 : two_byte_seq (0xC0 + q) (0x80 + m) = true)
    by (unfold two_byte_seq, is_continuation; decide_test).
  rewrite (proj1 (utf8_decode_ignore_step _ _ 0 0 rest H0) H2).
  f_equal. lia.
Qed.

Lemma utf8_decode_three (q m1 m0 : Z) (rest : bytes) :
  (0 <= q < 16)%Z → (0 <= m1 < 64)%Z → (0 <= m0 < 64)%Z →
  (q = 0 → 32 <= m1)%Z → (q = 13 → m1 < 32)%Z →
  utf8_decode_ignore ((0xE0 + q) :: (0x80 + m1) :: (0x80 + m0) :: rest)%Z
  = (4096 * q + 64 * m1 + m0)%Z :: utf8_decode_ignore rest.
Proof.
  intros Hq Hm1 Hm0 H0' H13.
  assert (H0 : ((0 <=? 0xE0 + q) && (0xE0 + q <? 0x80))%Z = false) by decide_test.
  assert (H2 : two_byte_seq (0xE0 + q) (0x80 + m1) = false)
    by (unfold two_byte_seq; decide_test).
  assert (H3 : three_byte_seq (0xE0 + q) (0x80 + m1) (0x80 + m0) = true)
    by (unfold three_byte_seq, is_continuation; decide_test).
  rewrite (proj1 (proj2 (utf8_decode_ignore_step _ _ _ 0 rest H0)) H2 H3).
  f_equal. lia.
Qed.

Lemma utf8_decode_four (q m2 m1 m0 : Z) (rest : bytes) :
  (0 <= q <= 4)%Z → (0 <= m2 < 64)%Z → (0 <= m1 < 64)%Z → (0 <= m0 < 64)%Z →
  (q = 0 → 16 <= m2)%Z → (q = 4 → m2 < 16)%Z →
  utf8_decode_ignore
    ((0xF0 + q) :: (0x80 + m2) :: (0x80 + m1) :: (0x80 + m0) :: rest)%Z
  = (262144 * q + 4096 * m2 + 64 * m1 + m0)%Z :: utf8_decode_ignore rest.
Proof.
  intros Hq Hm2 Hm1 Hm0 H0' H4'.
  assert (H0 : ((0 <=? 0xF0 + q) && (0xF0 + q <? 0x80))%Z = false) by decide_test.
  assert (H2 : two_byte_seq (0xF0 + q) (0x80 + m2) = false)
    by (unfold two_byte_seq; decide_test).
  assert (H3 : three_byte_seq (0xF0 + q) (0x80 + m2) (0x80 + m1) = false)
    by (unfold three_byte_seq; decide_test).
  assert (H4 : four_byte_seq (0xF0 + q) (0x80 + m2) (0x80 + m1) (0x80 + m0) = true)
    by (unfold four_byte_seq, is_continuation; decide_test).
  rewrite (proj2 (proj2 (utf8_decode_ignore_step _ _ _ _ rest H0)) H2 H3 H4).
  f_equal. lia.
Qed.

(** Decoding gives back each encoded character, whatever follows. *)
Lemma utf8_decode_encode_char (c : Z) (bc rest : bytes) :
  utf8_encode_char c = Some bc →
  utf8_decode_ignore (bc ++ rest) = c :: utf8_decode_ignore rest.
Proof.
  unfold utf8_encode_char. intros H.
  assert (Hd := Z.div_mod c 64 ltac:(lia)).
  assert (Hd2 := Z.div_mod (c / 64) 64 ltac:(lia)).
  assert (Hd3 := Z.div_mod (c / 64 / 64) 64 ltac:(lia)).
  assert (Hm := Z.mod_pos_bound c 64 ltac:(lia)).
  assert (Hm2 := Z.mod_pos_bound (c / 64) 64 ltac:(lia)).
  assert (Hm3 := Z.mod_pos_bound (c / 64 / 64) 64 ltac:(lia)).
  assert (E1 : (c / 4096 = c / 64 / 64)%Z) by (rewrite Z.div_div by lia; done).
  assert (E2 : (c / 262144 = c / 64 / 64 / 64)%Z) by (rewrite !Z.div_div by lia; done).
  rewrite E1, E2 in H. clear E1 E2.
  set (m0 := (c mod 64)%Z) in *. set (q1 := (c / 64)%Z) in *.
  set (m1 := (q1 mod 64)%Z) in *. set (q2 := (q1 / 64)%Z) in *.
  set (m2 := (q2 mod 64)%Z) in *. set (q3 := (q2 / 64)%Z) in *.
  clearbody m0 q1 m1 q2 m2 q3.
  destruct (Z.ltb_spec c 0); [done|].
  destruct (Z.ltb_spec c 0x80).
  { injection H as <-. cbn [app utf8_decode_ignore].
    by rewrite (proj2 (Z.leb_le 0 c)), (proj2 (Z.ltb_lt c 128)) by lia. }
  destruct (Z.ltb_spec c 0x800).
  { injection H as <-. cbn [app].
    rewrite utf8_decode_two by lia. f_equal. lia. }
  destruct (Z.ltb_spec c 0x10000).
  { destruct (Z.leb_spec 0xD800 c), (Z.leb_spec c 0xDFFF); simpl in H; try done.
    all: injection H as <-; cbn [app].
    all: rewrite utf8_decode_three by lia; f_equal; lia. }
  destruct (Z.leb_spec c 0x10FFFF); [|done].
  injection H as <-. cbn [app].
  rewrite utf8_decode_four by lia. f_equal. lia.
Qed.

Lemma utf8_decode_encode (p : pystr) (bs rest : bytes) :
  utf8_encode p = Some bs →
  utf8_decode_ignore (bs ++ rest) = p ++ utf8_decode_ignore rest.
Proof.
  revert bs. induction p as [|c p IH]; intros bs H; simpl in H.
  - by injection H as <-.
  - destruct (utf8_encode_char c) as [bc|] eqn:Hc; [|done].
    destruct (utf8_encode p) as [bp|]; [|done]. injection H as <-.
    rewrite <- app_assoc, (utf8_decode_encode_char c bc _ Hc). simpl.
    f_equal. by apply IH.
Qed.

Lemma utf8_encode_app (p q : pystr) (a b : bytes) :
  utf8_encode p = Some a → utf8_encode q = Some b →
  utf8_encode (p ++ q) = Some (a ++ b).
Proof.
  revert a. induction p as [|c p IH]; intros a Ha Hb; simpl in *.
  - by injection Ha as <-.
  - destruct (utf8_encode_char c) as [bc|]; [|done].
    destruct (utf8_encode p) as [bp|]; [|done]. injection Ha as <-.
    rewrite (IH bp eq_refl Hb). by rewrite app_assoc.
Qed.

(** The character that holds the [n]-th byte of an encoding. *)
Lemma utf8_encode_split (n : nat) : ∀ (p : pystr) (bs : bytes),
  utf8_encode p = Some bs → (1 ≤ n ≤ length bs)%nat →
  ∃ p1 c p2 b1 bc b2,
    p = p1 ++ c :: p2 ∧ utf8_encode p1 = Some b1 ∧ utf8_encode_char c = Some bc
    ∧ utf8_encode p2 = Some b2 ∧ bs = b1 ++ bc ++ b2
    ∧ (length b1 < n ≤ length b1 + length bc)%nat.
Proof.
  induction n as [n IH] using lt_wf_ind. intros p bs Hp Hn.
  destruct p as [|c p]; simpl in Hp.
  { injection Hp as <-. simpl in Hn. lia. }
  destruct (utf8_encode_char c) as [bc|] eqn:Hc; [|done].
  destruct (utf8_encode p) as [bp|] eqn:Hbp; [|done]. injection Hp as <-.
  assert (Hlen : (1 ≤ length bc)%nat).
  { destruct (utf8_encode_char_shape c bc Hc) as [[-> _]|(l & cs & -> & _)]; simpl; lia. }
  destruct (decide (n ≤ length bc)%nat) as [Hle|Hgt].
  - exists [], c, p, [], bc, bp. simpl. repeat split; try done; lia.
  - rewrite length_app in Hn.
    destruct (IH (n - length bc)%nat ltac:(lia) p bp Hbp ltac:(lia))
      as (p1 & c' & p2 & b1 & bc' & b2 & -> & Hp1 & Hc' & Hp2 & -> & Hb).
    exists (c :: p1), c', p2, (bc ++ b1), bc', b2. simpl.
    rewrite Hc, Hp1, length_app, <- app_assoc. repeat split; try done; lia.
Qed.

Lemma drop_incomplete_rev_conts (l : bytes) (x : Z) (r : bytes) :
  Forall (λ b, incomplete_tail b = true) l → incomplete_tail x = false →
  drop_incomplete_rev (l ++ x :: r) = x :: r.
Proof.
  intros Hl Hx. induction Hl as [|b l Hb _ IH]; simpl; [by rewrite Hx|].
  by rewrite Hb.
Qed.

Lemma drop_incomplete_lead (b1 : bytes) (lead : Z) (conts : bytes) :
  Forall (λ b, incomplete_tail b = true) conts → incomplete_tail lead = false →
  drop_incomplete (b1 ++ lead :: conts) = b1 ++ [lead].
Proof.
  intros Hc Hl. unfold drop_incomplete.
  rewrite rev_app_distr. simpl. rewrite <- app_assoc. simpl.
  rewrite drop_incomplete_rev_conts; [|by apply Forall_rev|done].
  simpl. by rewrite rev_involutive.
Qed.

(** What the cut leaves of a password of more than 72 bytes: the
    characters before the one that holds the 72nd byte, and that
    character too only when it is a single byte. *)
Lemma password_for_hashing_long (p : pystr) (bs : bytes) :
  utf8_encode p = Some bs → (PASSWORD_MAX_BYTES < length bs)%nat →
  ∃ p1 c p2 b1 bc,
    p = p1 ++ c :: p2 ∧ utf8_encode p1 = Some b1 ∧ utf8_encode_char c = Some bc
    ∧ (length b1 < PASSWORD_MAX_BYTES ≤ length b1 + length bc)%nat
    ∧ (length bc ≤ 4)%nat
    ∧ password_for_hashing p
      = Some (if (c <? 0x80)%Z then p1 ++ [c] else p1).
Proof.
  intros Hp Hlen.
  destruct (utf8_encode_split PASSWORD_MAX_BYTES p bs Hp)
    as (p1 & c & p2 & b1 & bc & b2 & -> & Hp1 & Hc & Hp2 & -> & Hb).
  { unfold PASSWORD_MAX_BYTES in *. lia. }
  exists p1, c, p2, b1, bc. do 4 (split; [done|]).
  unfold password_for_hashing. rewrite Hp.
  apply Nat.ltb_lt in Hlen as ->.
  rewrite take_app_ge by lia. rewrite take_app_le by lia.
  destruct (utf8_encode_char_shape c bc Hc)
    as [[-> Hascii]|(lead & conts & -> & Hlead & Hn & Hconts)].
  - split; [simpl; lia|].
    simpl in Hb. replace (PASSWORD_MAX_BYTES - length b1)%nat with 1%nat by lia.
    cbn [take]. rewrite (drop_incomplete_lead b1 c []); [|done|].
    2:{ rewrite incomplete_tail_byte by lia. unfold is_continuation.
        apply andb_false_intro1, Z.leb_gt. lia. }
    rewrite (proj2 (Z.ltb_lt c 128)) by lia.
    rewrite <- (app_nil_r (b1 ++ [c])).
    rewrite (utf8_decode_encode (p1 ++ [c]) (b1 ++ [c]) []); [by rewrite app_nil_r|].
    apply utf8_encode_app; [done|]. simpl. by rewrite Hc.
  - split; [simpl; lia|]. simpl in Hb.
    destruct (PASSWORD_MAX_BYTES - length b1)%nat as [|k] eqn:Hk; [lia|].
    cbn [take]. rewrite (drop_incomplete_lead b1 lead (take k conts)).
    + assert ((c <? 128)%Z = false) as ->.
      { apply Z.ltb_ge. unfold utf8_encode_char in Hc.
        destruct (Z.ltb_spec c 0); [done|].
        destruct (Z.ltb_spec c 128); [|done]. injection Hc as -> _. lia. }
      rewrite (utf8_decode_encode p1 b1 [lead] Hp1).
      cbn [utf8_decode_ignore].
      rewrite (proj2 (Z.ltb_ge lead 128)) by lia.
      by rewrite andb_false_r, app_nil_r.
    + apply Forall_take. eapply Forall_impl; [exact Hconts|].
      intros b Hbb. simpl in Hbb. rewrite incomplete_tail_byte by lia.
      unfold is_continuation. apply andb_true_intro. split; apply Z.leb_le; lia.
    + rewrite incomplete_tail_byte by lia. unfold is_continuation.
      apply andb_false_intro2, Z.leb_gt. lia.
Qed.

Section TruncationProperties.
Context {ctx : CryptContext}.

(** X1: a password whose UTF-8 encoding is longer than 72 bytes reaches
    the hashing library, in [get_password_hash] and in [verify_password]
    alike, as a proper prefix of itself: the characters before the one
    that holds the 72nd byte, followed by that character only when it is
    a single byte.  A multi-byte character at the cut is dropped even
    when it ends exactly on the 72nd byte.  What is kept encodes to at
    least 68 and at most 72 bytes, and both functions log the
    truncation. *)
Theorem long_password_is_cut_to_a_prefix (sl : salt) (p : pystr) (bs : bytes)
    (h : string) :
  utf8_encode p = Some bs → (PASSWORD_MAX_BYTES < length bs)%nat →
  ∃ p1 c p2 t bt,
    p = p1 ++ c :: p2
    ∧ t = (if (c <? 0x80)%Z then p1 ++ [c] else p1)
    ∧ t `prefix_of` p ∧ t ≠ p
    ∧ utf8_encode t = Some bt
    ∧ (PASSWORD_MAX_BYTES - 4 ≤ length bt ≤ PASSWORD_MAX_BYTES)%nat
    ∧ (∀ b1, utf8_encode p1 = Some b1 → (length b1 < PASSWORD_MAX_BYTES)%nat)
    ∧ (∀ b', utf8_encode (p1 ++ [c]) = Some b' → (PASSWORD_MAX_BYTES ≤ length b')%nat)
    ∧ get_password_hash sl p = ([LogTruncating (length bs)], Ok (pwd_hash sl t))
    ∧ verify_password p h = ([LogTruncating (length bs)], pwd_verify t h).
Proof.
  intros Hp Hlen.
  destruct (password_for_hashing_long p bs Hp Hlen)
    as (p1 & c & p2 & b1 & bc & Heq & Hp1 & Hc & Hb & Hbc & Ht).
  assert (Hp1c : utf8_encode (p1 ++ [c]) = Some (b1 ++ bc)).
  { apply utf8_encode_app; [done|]. simpl. rewrite Hc. by rewrite app_nil_r. }
  set (t := if (c <? 0x80)%Z then p1 ++ [c] else p1) in *.
  assert (Hbt : ∃ bt, utf8_encode t = Some bt
                      ∧ (PASSWORD_MAX_BYTES - 4 ≤ length bt ≤ PASSWORD_MAX_BYTES)%nat).
  { unfold t. destruct (Z.ltb_spec c 0x80).
    - exists (b1 ++ bc). split; [done|].
      assert (bc = [c]) as ->.
      { unfold utf8_encode_char in Hc. destruct (Z.ltb_spec c 0); [done|].
        destruct (Z.ltb_spec c 128); [|lia]. by injection Hc as <-. }
      rewrite length_app. unfold PASSWORD_MAX_BYTES in *. cbn [length] in *. lia.
    - exists b1. split; [done|]. unfold PASSWORD_MAX_BYTES in *. lia. }
  destruct Hbt as (bt & Hbt & Hlt).
  exists p1, c, p2, t, bt.
  split; [done|]. split; [done|].
  assert (Hpre : t `prefix_of` p).
  { subst p. unfold t. destruct (c <? 128)%Z.
    - exists p2. by rewrite <- app_assoc.
    - by exists (c :: p2). }
  split; [done|]. split.
  { intros ->. rewrite Hp in Hbt. injection Hbt as <-. lia. }
  split; [done|]. split; [done|].
  split; [intros b1' Hb1'; rewrite Hp1 in Hb1'; injection Hb1' as <-; lia|].
  split.
  { intros b' Hb'. rewrite Hp1c in Hb'. injection Hb' as <-. rewrite length_app. lia. }
  unfold password_for_hashing in Ht. rewrite Hp in Ht.
  unfold get_password_hash, verify_password. rewrite Hp.
  apply Nat.ltb_lt in Hlen. rewrite Hlen in Ht |- *.
  injection Ht as ->. done.
Qed.

End TruncationProperties.

Lemma long_password_is_cut_to_a_prefix_witness :
  utf8_encode (euros 25) = Some (default [] (utf8_encode (euros 25)))
  ∧ (PASSWORD_MAX_BYTES < length (default [] (utf8_encode (euros 25))))%nat
  ∧ ∃ t, t `prefix_of` euros 25
         ∧ get_password_hash (ctx:=plain_context) tt (euros 25)
           = ([LogTruncating (length (default [] (utf8_encode (euros 25))))],
              Ok (plain_hash t)).
Proof.
  split; [by vm_compute|]. split; [vm_compute; lia|].
  destruct (long_password_is_cut_to_a_prefix (ctx:=plain_context) tt (euros 25)
              (default [] (utf8_encode (euros 25))) "")
    as (p1 & c & p2 & t & bt & _ & _ & Hpre & _ & _ & _ & _ & _ & Hhash & _).
  - by vm_compute.
  - vm_compute. lia.
  - exists t. split; [exact Hpre|exact Hhash].
Defined.

(** ** Registration *)

Lemma find_one_None (q : list (string * pyval)) (c : collection) (d : doc) :
  find_one q c = None → d ∈ c → matches q d = false.
Proof.
  unfold find_one. intros H Hd.
  apply list_elem_of_In in Hd. apply (find_none _ _ H d Hd).
Qed.

Lemma find_one_elem (q : list (string * pyval)) (c : collection) (d : doc) :
  d ∈ c → matches q d = true → is_Some (find_one q c).
Proof.
  intros Hd Hm. destruct (find_one q c) eqn:E; [done|].
  by rewrite (find_one_None q c d E Hd) in Hm.
Qed.

Lemma matches_single (k : string) (v : pyval) (d : doc) :
  matches [(k, v)] d = bool_decide (d !! k = Some v).
Proof. unfold matches. simpl. apply andb_true_r. Qed.


Lemma email_stored (e : string) (c : collection) :
  VStr e ∈ omap (λ d : doc, d !! "email") c →
  is_Some (find_one [("email", VStr e)] c).
Proof.
  intros Hin. apply list_elem_of_omap in Hin as (d & Hd & He).
  apply (find_one_elem _ _ d Hd). rewrite matches_single. by apply bool_decide_eq_true.
Qed.

Lemma role_collection_set (role role' : UserRole) (db : Database) (c : collection) :
  role_collection role' (set_role_collection role db c)
  = if bool_decide (role' = role) then c else role_collection role' db.
Proof. by destruct role, role'. Qed.

Lemma insert_one_Ok (oid : string) (d : doc) (c c' : collection) (d' : doc) (i : pyval) :
  d !! "_id" = None → insert_one oid d c = Ok (c', d', i) →
  c' = c ++ [<["_id" := VOid oid]> d] ∧ d' = <["_id" := VOid oid]> d ∧ i = VOid oid.
Proof.
  unfold insert_one, dict_get. intros ->. rewrite lookup_insert_eq. simpl.
  case_match; [done|]. by intros [= <- <- <-].
Qed.

Ltac no_account :=
  simpl; repeat (case_match; simpl);
  (split; [done|left; split; [done|intros ? ?; simplify_eq]]).

Section RegistrationProperties.
Context {ev : EmailValidator} {ctx : CryptContext}.

(** What [create] leaves behind: the database as it was and no account
    returned, or one new document with the requested address at the end
    of the collection of the role, when no stored account had that
    address. *)
Lemma UserRepository_create_db (env : Env) (sl : salt) (role : UserRole)
    (u : UserCreate.t) (w : World) (db : Database) :
  db_handle w = Some db →
  let r := UserRepository_create env sl role u w in
  files r.2 = files w
  ∧ ((db_handle r.2 = Some db ∧ ∀ x, r.1 ≠ Ok x)
     ∨ ∃ d' db' h,
         db_handle r.2 = Some db'
         ∧ d' !! "_id" = Some (VOid (new_oid env))
         ∧ d' !! "email" = Some (VStr (UserCreate.email u))
         ∧ d' !! "hashed_password" = Some (VStr h)
         ∧ (get_password_hash sl (UserCreate.password u)).2 = Ok h
         ∧ find_one [("email", VStr (UserCreate.email u))] (recruiters db) = None
         ∧ find_one [("email", VStr (UserCreate.email u))] (consultants db) = None
         ∧ find_one [("email", VStr (UserCreate.email u))] (admins db) = None
         ∧ (∀ role', role_collection role' db'
                     = if bool_decide (role' = role)
                       then role_collection role db ++ [d']
                       else role_collection role' db)
         ∧ job_descriptions db' = job_descriptions db
         ∧ submissions db' = submissions db
         ∧ consultant_profiles db' = consultant_profiles db
         ∧ (∀ x, r.1 = Ok x ↔ User_of_doc (<["id" := VStr (new_oid env)]> d') = Ok x)).
Proof.
  intros Hdb r. subst r.
  unfold UserRepository_create, as_ValueError, catch, bind, get_database.
  rewrite Hdb.
  set (q := [("email", VStr (UserCreate.email u))]).
  destruct (find_one q (recruiters db)) as [?|] eqn:H1;
    [no_account|].
  destruct (find_one q (consultants db)) as [?|] eqn:H2;
    [no_account|].
  destruct (find_one q (admins db)) as [?|] eqn:H3;
    [no_account|].
  simpl.
  destruct (utf8_encode (UserCreate.password u)) as [pb|] eqn:Hpb;
    [|no_account].
  destruct (get_password_hash sl (UserCreate.password u)) as [l hashed] eqn:Hh.
  unfold emit, lift.
  cbn [db_handle files log].
  destruct hashed as [h|e]; [|no_account].
  set (d0 := <["email":=_]> _).
  assert (Hd0 : d0 !! "_id" = None) by (unfold d0; by rewrite !lookup_insert_ne).
  destruct (insert_one (new_oid env) d0 (role_collection role db))
    as [[[c d'] i]|e] eqn:Hins; [|destruct e; no_account].
  apply insert_one_Ok in Hins as (-> & -> & ->); [|done].
  cbn [py_str fst snd db_handle files log].
  set (d' := <["_id":=VOid (new_oid env)]> d0).
  set (db1 := set_role_collection role db (role_collection role db ++ [d'])).
  set (db' := match insert_one (new_oid env) d' (users db) with
              | Ok (u0, _, _) => set_users db1 u0
              | Raise _ => db1
              end).
  set (w1 := {| db_handle := Some db'; files := files w; log := log w ++ l |}).
  set (r := match User_of_doc (<["id":=VStr (new_oid env)]> d') with
            | Ok a => (Ok a, w1)
            | Raise e => _
            end).
  assert (Hr2 : r.2 = w1).
  { unfold r. destruct (User_of_doc _) as [?|e]; [done|by destruct (is_ValueError e)]. }
  assert (Hr1 : ∀ x, r.1 = Ok x
                     ↔ User_of_doc (<["id" := VStr (new_oid env)]> d') = Ok x).
  { intros x. unfold r. destruct (User_of_doc _) as [x'|e]; simpl; [done|].
    split; [|done]. by destruct (is_ValueError e). }
  rewrite Hr2. split; [done|]. right.
  assert (Hdb' : recruiters db' = recruiters db1 ∧ consultants db' = consultants db1
                 ∧ admins db' = admins db1
                 ∧ job_descriptions db' = job_descriptions db
                 ∧ submissions db' = submissions db
                 ∧ consultant_profiles db' = consultant_profiles db).
  { unfold db'. by destruct (insert_one _ d' _) as [[[? ?] ?]|]. }
  destruct Hdb' as (Hrc & Hc & Ha & Hj & Hs & Hp).
  exists d', db', h. split; [done|].
  split; [unfold d'; by rewrite lookup_insert_eq|].
  split; [unfold d', d0; solve_lookup|].
  split; [unfold d', d0; solve_lookup|].
  split; [done|].
  do 3 (split; [done|]).
  split.
  { intros role'. transitivity (role_collection role' db1).
    - by destruct role'.
    - apply role_collection_set. }
  do 3 (split; [done|]). exact Hr1.
Qed.



Lemma account_emails_stored (e : string) (db : Database) :
  VStr e ∈ account_emails db →
  is_Some (find_one [("email", VStr e)] (recruiters db))
  ∨ is_Some (find_one [("email", VStr e)] (consultants db))
  ∨ is_Some (find_one [("email", VStr e)] (admins db)).
Proof.
  unfold account_emails. rewrite !omap_app, !elem_of_app.
  intros [?|[?|?]]; [left|right; left|right; right]; by apply email_stored.
Qed.




Lemma UserRepository_create_needs_database (env : Env) (sl : salt) (role : UserRole)
    (u : UserCreate.t) (w w' : World) (x : User.t) :
  UserRepository_create env sl role u w = (Ok x, w') → is_Some (db_handle w).
Proof.
  unfold UserRepository_create, as_ValueError, catch, bind, get_database.
  destruct (db_handle w); [by eexists|]. simpl. done.
Qed.

Lemma User_of_doc_fields (d : doc) (u : User.t) :
  User_of_doc d = Ok u →
  req_str d "hashed_password" = Ok (User.hashed_password u)
  ∧ bool_or d "is_active" true = Ok (User.is_active u)
  ∧ req_str d "id" = Ok (User.id u).
Proof.
  unfold User_of_doc, UserBase_fields. intros H.
  head_ok H. destruct a as [[[e n] r] a]. repeat head_ok H.
  injection H as <-. simpl. split; [done|]. split; [|done].
  repeat first [ head_ok E
               | match type of E with
                 | (let (_, _) := ?x in _) = _ => destruct x
                 end ].
  by injection E as _ _ _ ->.
Qed.

Lemma UserCreate_validate_Ok (b : UserCreateBody) (u : UserCreate.t) :
  UserCreate_validate b = Ok u →
  validate_email (body_email b) = Some (UserCreate.email u)
  ∧ UserCreate.name u = body_name b
  ∧ UserRole_of_string (body_role b) = Some (UserCreate.role u)
  ∧ UserCreate.is_active u = default true (body_is_active b)
  ∧ UserCreate.password u = body_password b
  ∧ (6 ≤ length (body_password b))%nat
  ∧ ∃ bs, utf8_encode (body_password b) = Some bs
          ∧ (length bs ≤ PASSWORD_MAX_BYTES)%nat.
Proof.
  unfold UserCreate_validate, UserBase_check.
  destruct (validate_email (body_email b)) as [e'|]; [|done].
  destruct (negb _); [done|].
  destruct (UserRole_of_string (body_role b)) as [r|]; [|done].
  destruct (length (body_password b) <? 6)%nat eqn:Hlen; [done|].
  apply Nat.ltb_ge in Hlen.
  destruct (validate_password_length (body_password b)) as [p|] eqn:Hp; [|done].
  apply validate_password_length_ok in Hp as [-> Hbs].
  by intros [= <-].
Qed.

Lemma world_log_nil (w : World) :
  {| db_handle := db_handle w; files := files w; log := log w ++ [] |} = w.
Proof. destruct w. simpl. by rewrite app_nil_r. Qed.

End RegistrationProperties.

Section RegistrationRoundTrip.
Context {ev : EmailValidator} {ev_laws : EmailValidatorLaws ev}.
Context {ctx : CryptContext} {ctx_laws : CryptContextLaws ctx}.

(** X3: an account that [register] returned can be used at once.  With
    the address as the request gave it and the same password,
    [authenticate_user] finds the new account and accepts the password,
    and [login] issues a token for it, unless the account was created
    inactive (401) or the password consists of white space only, which
    registration accepts and the login form refuses (422).  Neither
    call changes the world again. *)
Theorem registered_account_can_log_in (env : Env) (sl : salt) (body : UserCreateBody)
    (w w' : World) (user : User.t) :
  register env sl body w = (Ok user, w') →
  ∃ email,
    validate_email (body_email body) = Some email
    ∧ get_user_by_email email w' = Some user
    ∧ authenticate_user email (body_password body) w' = (Ok (Some user), w')
    ∧ login (body_email body) (body_password body) w'
      = (if forallb isspace_codepoint (body_password body)
         then Raise (HTTPException 422 "validation error")
         else if User.is_active user then Ok (User.email user)
              else Raise (HTTPException 401 "User account is deactivated"), w').
Proof.
  unfold register. intros Hreg.
  destruct (UserCreate_validate body) as [uc|] eqn:Huc; [|done].
  assert (Hcreate : UserRepository_create env sl (UserCreate.role uc) uc w = (Ok user, w')).
  { unfold catch, AuthRepository_create_user in Hreg.
    destruct (UserRepository_create _ _ _ _ _) as [[?|e] ?]; [done|].
    by destruct (is_ValueError e). }
  clear Hreg.
  destruct (UserRepository_create_needs_database _ _ _ _ _ _ _ Hcreate) as [db Hdb].
  destruct (UserRepository_create_db env sl (UserCreate.role uc) uc w db Hdb)
    as [_ [[_ Hno]|(d' & db' & h & Hdb' & Hid & He & Hh & Hhash & H1 & H2 & H3 & Hrole
                     & _ & _ & _ & Hok)]].
  { rewrite Hcreate in Hno. by destruct (Hno user). }
  rewrite Hcreate in Hdb', Hok. simpl in Hdb', Hok.
  pose proof (proj1 (Hok user) eq_refl) as Huser. clear Hok.
  (* what validation established *)
  assert (Hval : validate_email (body_email body) = Some (UserCreate.email uc)
                 ∧ UserCreate.password uc = body_password body
                 ∧ (6 ≤ length (body_password body))%nat
                 ∧ ∃ bs, utf8_encode (body_password body) = Some bs
                         ∧ (length bs ≤ PASSWORD_MAX_BYTES)%nat).
  { apply UserCreate_validate_Ok in Huc as (? & _ & _ & _ & ? & ? & ?). done. }
  destruct Hval as (Hemail & Hpw & Hlen & bs & Hbs & Hle).
  set (email := UserCreate.email uc) in *.
  set (p := body_password body) in *.
  exists email. split; [done|].
  assert (Hstored : stored_account d' = Ok user).
  { unfold stored_account, getitem. by rewrite Hid. }
  assert (Hblank : is_blank email = false) by (by eapply stored_account_email).
  assert (Hfind : match
                    match find_one [("email", VStr email)] (recruiters db') with
                    | Some d => Some d
                    | None => find_one [("email", VStr email)] (consultants db')
                    end
                  with
                  | Some d => Some d
                  | None => find_one [("email", VStr email)] (admins db')
                  end = Some d').
  { assert (Hd' : find_one [("email", VStr email)] [d'] = Some d').
    { unfold find_one. cbn [List.find]. rewrite matches_single.
      by rewrite bool_decide_eq_true_2. }
    pose proof (Hrole RECRUITER) as Hr. pose proof (Hrole CONSULTANT) as Hc.
    pose proof (Hrole ADMIN) as Ha. simpl in Hr, Hc, Ha. rewrite Hr, Hc, Ha.
    destruct (UserCreate.role uc); repeat case_bool_decide; try done;
      cbn [role_collection]; by rewrite ?find_one_app, ?H1, ?H2, ?H3, ?Hd'. }
  assert (Hget : get_user_by_email email w' = Some user).
  { unfold get_user_by_email. rewrite Hblank, Hdb'. cbv zeta. rewrite Hfind.
    unfold getitem. rewrite Hid. cbn [py_str]. by rewrite Huser. }
  split; [done|].
  assert (Hh' : User.hashed_password user = pwd_hash sl p).
  { apply User_of_doc_fields in Huser as (Hu & _).
    autorewrite with fields in Hu. unfold req_str in Hu.
    rewrite Hh in Hu. injection Hu as <-.
    rewrite Hpw, (get_password_hash_short sl p bs Hbs Hle) in Hhash.
    by injection Hhash as <-. }
  assert (Hverify : verify_password p (User.hashed_password user) = ([], true)).
  { unfold verify_password. rewrite Hbs.
    apply Nat.ltb_ge in Hle as Hle'. rewrite Hle', Hh'. f_equal.
    by apply (pwd_verify_hash sl p p bs bs). }
  assert (Hauth : authenticate_user email p w' = (Ok (Some user), w')).
  { unfold authenticate_user. rewrite Hget, Hverify. by rewrite world_log_nil. }
  split; [done|].
  unfold login. rewrite Hemail. unfold validate_password_present.
  rewrite bool_decide_eq_false_2 by (intros Hnil; rewrite Hnil in Hlen; simpl in Hlen; lia).
  cbn [orb]. destruct (forallb isspace_codepoint p); [done|].
  unfold bind. rewrite Hauth. by destruct (User.is_active user).
Qed.

End RegistrationRoundTrip.


Lemma registered_account_can_log_in_witness :
  ∃ user w',
    register (ev:=at_sign_validator) (ctx:=plain_context) sample_env tt nina_body
      sample_world = (Ok user, w')
    ∧ login (ev:=at_sign_validator) (ctx:=plain_context) "nina@example.com"
        plain_password_text w' = (Ok (User.email user), w').
Proof.
  destruct (register (ev:=at_sign_validator) (ctx:=plain_context) sample_env tt
              nina_body sample_world) as [[user|e] w'] eqn:Hreg.
  2:{ assert (H : is_ok (register (ev:=at_sign_validator) (ctx:=plain_context)
                          sample_env tt nina_body sample_world).1 = true)
        by reflexivity.
      rewrite Hreg in H. discriminate H. }
  exists user, w'. split; [reflexivity|].
  destruct (registered_account_can_log_in (ev:=at_sign_validator) (ctx:=plain_context)
              sample_env tt nina_body sample_world w' user Hreg)
    as (email & _ & _ & _ & Hlogin).
  assert (Hactive : Some (User.is_active user) = Some true).
  { change (Some (User.is_active user))
      with (User.is_active <$> (match (Ok user, w').1 with
                                | Ok x => Some x | Raise _ => None end)).
    rewrite <- Hreg. reflexivity. }
  injection Hactive as Hactive. rewrite Hactive in Hlogin. exact Hlogin.
Defined.

(** ** Creating and updating jobs *)

Lemma insert_one_fresh_inv (oid : string) (d : doc) (c c' : collection) (d' : doc)
    (i : pyval) :
  d !! "_id" = None → insert_one oid d c = Ok (c', d', i) →
  find_one [("_id", VOid oid)] c = None.
Proof.
  unfold insert_one, dict_get. intros ->. rewrite lookup_insert_eq. simpl.
  destruct (existsb _ c) eqn:Hex; [done|]. intros _.
  destruct (find_one _ c) as [x|] eqn:Hx; [|done].
  apply find_one_matches in Hx as [Hm Hin]. apply matches_lookup in Hm.
  assert (existsb (λ x, bool_decide (x !! "_id" = Some (VOid oid))) c = true).
  { apply existsb_exists. exists x. split; [by apply list_elem_of_In|].
    by apply bool_decide_eq_true. }
  congruence.
Qed.

Lemma JobDescription_of_doc_merged {pd : Pydantic} (d : doc) (vn ve : pyval)
    (n e : option string) (jd0 : JobDescription.t) :
  optional str_value vn = Some n → optional str_value ve = Some e →
  JobDescription_of_doc d = Ok jd0 →
  ∃ jd, JobDescription_of_doc
          (<["recruiter_email" := ve]> (<["recruiter_name" := vn]> d)) = Ok jd
        ∧ JobDescription.recruiter_name jd = n
        ∧ JobDescription.recruiter_email jd = e
        ∧ JobDescription.id jd = JobDescription.id jd0
        ∧ JobDescription.recruiter_id jd = JobDescription.recruiter_id jd0
        ∧ JobDescription.title jd = JobDescription.title jd0
        ∧ JobDescription.description jd = JobDescription.description jd0
        ∧ JobDescription.experience_required jd = JobDescription.experience_required jd0
        ∧ JobDescription.tech_required jd = JobDescription.tech_required jd0
        ∧ JobDescription.status jd = JobDescription.status jd0
        ∧ JobDescription.created_at jd = JobDescription.created_at jd0
        ∧ JobDescription.updated_at jd = JobDescription.updated_at jd0.
Proof.
  intros Hn He. unfold JobDescription_of_doc. intros H.
  rewrite (field_optional_insert_eq _ _ "recruiter_email" _ _ He).
  rewrite (field_optional_insert_ne _ _ "recruiter_name") by done.
  rewrite (field_optional_insert_eq _ _ "recruiter_name" _ _ Hn).
  autorewrite with fields in *.
  repeat head_ok H. injection H as <-. by eexists.
Qed.

(** What a successful [create] did. *)
Lemma JobRepository_create_Ok {pd : Pydantic} (env : Env) (jd_data : doc) (recruiter_id : string)
    (w w' : World) (jd : JobDescription.t) :
  jd_data !! "_id" = None →
  JobRepository_create env jd_data recruiter_id w = (Ok jd, w') →
  ∃ db d,
    db_handle w = Some db
    ∧ d = <["_id" := VOid (new_oid env)]>
            (<["updated_at" := VDate (utcnow env)]>
               (<["created_at" := VDate (utcnow env)]>
                  (<["recruiter_id" := VStr recruiter_id]> jd_data)))
    ∧ w' = {| db_handle :=
                Some (set_job_descriptions db (job_descriptions db ++ [d]));
              files := files w; log := log w |}
    ∧ find_one [("_id", VOid (new_oid env))] (job_descriptions db) = None
    ∧ JobDescription_of_doc (<["id" := VStr (new_oid env)]> d) = Ok jd.
Proof.
  intros Hid. unfold JobRepository_create, bind, get_database, lift.
  destruct (db_handle w) as [db|] eqn:Hdb; [|done].
  set (d0 := <["updated_at" := _]> _).
  assert (Hd0 : d0 !! "_id" = None) by (unfold d0; by rewrite !lookup_insert_ne).
  destruct (insert_one (new_oid env) d0 (job_descriptions db))
    as [[[c d'] i]|] eqn:Hins; [|done].
  pose proof (insert_one_fresh_inv _ _ _ _ _ _ Hd0 Hins) as Hfresh.
  apply insert_one_Ok in Hins as (-> & -> & ->); [|done].
  unfold put_database. cbn [py_str].
  destruct (JobDescription_of_doc _) as [jd'|] eqn:Hjd; [|done].
  intros [= <- <-]. by exists db, (<["_id":=VOid (new_oid env)]> d0).
Qed.

Lemma find_one_snoc (q : list (string * pyval)) (c : collection) (d : doc) :
  find_one q c = None → matches q d = true → find_one q (c ++ [d]) = Some d.
Proof.
  intros Hc Hd. rewrite find_one_app, Hc. unfold find_one. simpl. by rewrite Hd.
Qed.

Lemma update_one_snoc (q : list (string * pyval)) (upd : doc) (c : collection)
    (d : doc) :
  find_one q c = None → matches q d = true →
  update_one q upd (c ++ [d]) = c ++ [upd ∪ d].
Proof.
  intros Hc Hd. induction c as [|x c IH]; cbn [app update_one].
  - by rewrite Hd.
  - unfold find_one in Hc. cbn [List.find] in Hc.
    destruct (matches q x); [done|]. f_equal. by apply IH.
Qed.

Lemma default_optional_str {pd : Pydantic} {pdl : PydanticLaws pd} (u : doc)
    (k dflt : string) :
  is_ok (field_optional str_value u k) = true →
  ∃ o, optional str_value (default (VStr dflt) (u !! k)) = Some o.
Proof.
  unfold field_optional, field_default. destruct (u !! k) as [v|]; simpl.
  - destruct (optional str_value v); [by eexists|done].
  - intros _. exists (Some dflt). apply optional_str.
Qed.

(** Reading a job back once the recruiter it refers to can be shown. *)
Lemma job_of_stored_merged {pd : Pydantic} {pdl : PydanticLaws pd} (db : Database)
    (d : doc) (i : pyval) (jd0 : JobDescription.t) :
  d !! "_id" = Some i →
  JobDescription_of_doc (<["id" := VStr (py_str i)]> d) = Ok jd0 →
  (∀ u, resolve_reference (dict_get d "recruiter_id") (recruiters db) = RefFound u →
        is_ok (field_optional str_value u "name") = true
        ∧ is_ok (field_optional str_value u "email") = true) →
  ∃ jd, job_of_stored db d = Ok jd
        ∧ JobDescription.id jd = JobDescription.id jd0
        ∧ JobDescription.recruiter_id jd = JobDescription.recruiter_id jd0
        ∧ JobDescription.title jd = JobDescription.title jd0
        ∧ JobDescription.description jd = JobDescription.description jd0
        ∧ JobDescription.experience_required jd = JobDescription.experience_required jd0
        ∧ JobDescription.tech_required jd = JobDescription.tech_required jd0
        ∧ JobDescription.status jd = JobDescription.status jd0
        ∧ JobDescription.created_at jd = JobDescription.created_at jd0
        ∧ JobDescription.updated_at jd = JobDescription.updated_at jd0.
Proof.
  intros Hi Hjd0 Hacc. unfold job_of_stored, getitem. rewrite Hi.
  rewrite merge_recruiter_data_cases.
  replace (dict_get (<["id":=VStr (py_str i)]> d) "recruiter_id")
    with (dict_get d "recruiter_id")
    by (unfold dict_get; by rewrite lookup_insert_ne).
  destruct (resolve_reference _ _) as [| | |u] eqn:Hres.
  - destruct (JobDescription_of_doc_merged _ _ _ _ _ _
                (optional_str "Unknown Recruiter") (optional_str "N/A") Hjd0)
      as (jd & -> & _ & _ & ?).
    by exists jd.
  - destruct (JobDescription_of_doc_merged _ _ _ _ _ _
                (optional_str "Invalid ID") (optional_str "N/A") Hjd0)
      as (jd & -> & _ & _ & ?).
    by exists jd.
  - destruct (JobDescription_of_doc_merged _ _ _ _ _ _
                (optional_str "Unknown Recruiter") (optional_str "N/A") Hjd0)
      as (jd & -> & _ & _ & ?).
    by exists jd.
  - destruct (Hacc u eq_refl) as [Hn He].
    destruct (default_optional_str u "name" "Unknown" Hn) as [n Hn'].
    destruct (default_optional_str u "email" "" He) as [e He'].
    destruct (JobDescription_of_doc_merged _ _ _ _ _ _ Hn' He' Hjd0)
      as (jd & -> & _ & _ & ?).
    by exists jd.
Qed.

(** X4: a job created through [POST /jobs/] belongs to its creator.  The
    caller is a recruiter or an admin; the job is stored as one new
    document, after the existing ones, under the new id and with the
    caller's id as [recruiter_id], and the job returned says the same.
    From then on [JobRepository.update] refuses every other caller as
    unauthorized and writes the creator's update; reading the job back
    returns it with the fields it was created with, provided the name
    and the address of a stored recruiter account it refers to are null
    or values that a text field takes. *)
Theorem created_job_belongs_to_creator {pd : Pydantic} {pdl : PydanticLaws pd}
    (env : Env) (jd_data : doc)
    (current_user : User.t) (w w' : World) (jd : JobDescription.t) :
  jd_data !! "_id" = None →
  ObjectId (VStr (new_oid env)) = Ok (new_oid env) →
  create_job env jd_data current_user w = (Ok jd, w') →
  (User.role current_user = RECRUITER ∨ User.role current_user = ADMIN)
  ∧ JobDescription.id jd = new_oid env
  ∧ JobDescription.recruiter_id jd = User.id current_user
  ∧ JobDescription.created_at jd = utcnow env
  ∧ ∃ db db' d,
      db_handle w = Some db ∧ db_handle w' = Some db'
      ∧ files w' = files w ∧ log w' = log w
      ∧ db' = set_job_descriptions db (job_descriptions db ++ [d])
      ∧ d !! "_id" = Some (VOid (new_oid env))
      ∧ d !! "recruiter_id" = Some (VStr (User.id current_user))
      ∧ (∀ k, k ∉ ["_id"; "recruiter_id"; "created_at"; "updated_at"] →
              d !! k = jd_data !! k)
      ∧ (∀ env' upd recruiter_id, recruiter_id ≠ User.id current_user →
           JobRepository_update env' (new_oid env) upd recruiter_id w'
           = (Raise (ValueError "Unauthorized: You can only update your own jobs"), w'))
      ∧ (∀ env' upd, ∃ db'',
           db_handle (JobRepository_update env' (new_oid env) upd
                        (User.id current_user) w').2 = Some db''
           ∧ job_descriptions db''
             = job_descriptions db
               ++ [<["updated_at" := VDate (utcnow env')]> (drop_none upd) ∪ d])
      ∧ ((∀ u, resolve_reference (VStr (User.id current_user)) (recruiters db)
               = RefFound u →
               is_ok (field_optional str_value u "name") = true
               ∧ is_ok (field_optional str_value u "email") = true) →
         ∀ reader, ∃ jd',
           get_job (new_oid env) reader w' = (Ok jd', w')
           ∧ JobDescription.id jd' = JobDescription.id jd
           ∧ JobDescription.recruiter_id jd' = JobDescription.recruiter_id jd
           ∧ JobDescription.title jd' = JobDescription.title jd
           ∧ JobDescription.description jd' = JobDescription.description jd
           ∧ JobDescription.experience_required jd'
             = JobDescription.experience_required jd
           ∧ JobDescription.tech_required jd' = JobDescription.tech_required jd
           ∧ JobDescription.status jd' = JobDescription.status jd).
Proof.
  intros Hid Hoid Hcreate.
  unfold create_job, bind, lift, require_recruiter_or_admin in Hcreate.
  case_bool_decide as Hrole; [|done]. simpl in Hcreate.
  apply JobRepository_create_Ok in Hcreate as (db & d & Hdb & Hd & -> & Hfresh & Hjd);
    [|done].
  assert (Hd_id : d !! "_id" = Some (VOid (new_oid env)))
    by (subst d; by rewrite lookup_insert_eq).
  assert (Hd_rid : d !! "recruiter_id" = Some (VStr (User.id current_user)))
    by (subst d; solve_lookup).
  pose proof (JobDescription_of_doc_fields _ _ Hjd) as (Hf1 & Hf2 & _ & Hf4 & _).
  autorewrite with fields in Hf1, Hf2, Hf4.
  rewrite (field_required_lookup _ _ _ _ _ Hd_rid (str_value_str _)) in Hf2.
  assert (Hd_c : d !! "created_at" = Some (VDate (utcnow env)))
    by (subst d; solve_lookup).
  rewrite (field_required_lookup _ _ _ _ _ Hd_c (datetime_value_date _)) in Hf4.
  split.
  { apply elem_of_cons in Hrole as [?|Hrole]; [by left|].
    apply list_elem_of_singleton in Hrole. by right. }
  split; [congruence|]. split; [congruence|]. split; [congruence|].
  set (db' := set_job_descriptions db (job_descriptions db ++ [d])).
  set (w' := {| db_handle := Some db'; files := files w; log := log w |}).
  assert (Hfind : find_one [("_id", VOid (new_oid env))] (job_descriptions db') = Some d).
  { apply find_one_snoc; [done|]. rewrite matches_single.
    by apply bool_decide_eq_true. }
  exists db, db', d. do 7 (split; [done|]).
  split.
  { intros k Hk. subst d. rewrite !not_elem_of_cons in Hk.
    destruct Hk as (? & ? & ? & ? & _). by rewrite !lookup_insert_ne. }
  split.
  { intros env' upd rid Hne.
    apply (JobRepository_update_unauthorized env' _ upd rid w' db' (new_oid env) d);
      try done.
    unfold dict_get. rewrite Hd_rid. simpl. congruence. }
  split.
  { intros env' upd. eexists.
    unfold JobRepository_update, bind, get_database, lift.
    cbn [db_handle w']. rewrite Hoid, Hfind.
    unfold dict_get. rewrite Hd_rid. cbn [default py_str]. rewrite String.eqb_refl.
    cbn [negb]. unfold put_database.
    rewrite read_only_JobRepository_get_by_id. cbn [db_handle snd].
    split; [reflexivity|]. cbn [job_descriptions set_job_descriptions db'].
    apply update_one_snoc; [done|]. rewrite matches_single.
    by rewrite bool_decide_eq_true_2. }
  intros Hacc reader.
  destruct (job_of_stored_merged db' d (VOid (new_oid env)) jd Hd_id Hjd)
    as (jd' & Hjd' & Hg1 & Hg2 & Hg3 & Hg4 & Hg5 & Hg6 & Hg7 & _).
  { unfold dict_get. rewrite Hd_rid. exact Hacc. }
  exists jd'. split; [|done].
  unfold get_job, bind.
  by rewrite (JobRepository_get_by_id_found (new_oid env) (new_oid env) w' db' d),
    Hjd'.
Qed.

Lemma created_job_belongs_to_creator_witness :
  new_job_data !! "_id" = None
  ∧ ObjectId (VStr (new_oid sample_env)) = Ok (new_oid sample_env)
  ∧ ∃ jd w', create_job (pd:=strict_pydantic) sample_env new_job_data rita sample_world
             = (Ok jd, w')
             ∧ JobDescription.recruiter_id jd = rita_id
             ∧ JobRepository_update (pd:=strict_pydantic) sample_env
                 (new_oid sample_env) ∅ raul_id w'
               = (Raise (ValueError "Unauthorized: You can only update your own jobs"),
                  w').
Proof.
  split; [reflexivity|]. split; [reflexivity|].
  destruct (create_job (pd:=strict_pydantic) sample_env new_job_data rita sample_world)
    as [[jd|e] w'] eqn:Hc.
  2:{ assert (H : is_ok (create_job (pd:=strict_pydantic) sample_env new_job_data rita
                           sample_world).1 = true)
        by reflexivity.
      rewrite Hc in H. discriminate H. }
  exists jd, w'. split; [reflexivity|].
  destruct (created_job_belongs_to_creator (pd:=strict_pydantic) sample_env
              new_job_data rita sample_world w' jd eq_refl eq_refl Hc)
    as (_ & _ & Hrid & _ & db & db' & d & _ & _ & _ & _ & _ & _ & _ & _ & Hother & _).
  split; [exact Hrid|].
  apply Hother. by vm_compute.
Defined.

(** ** Updating a job *)

Lemma update_one_first (q : list (string * pyval)) (upd : doc) (c : collection)
    (jd : doc) :
  find_one q c = Some jd →
  Forall2 (λ d d', d' = d ∨ (d = jd ∧ d' = upd ∪ d)) c (update_one q upd c).
Proof.
  unfold find_one. induction c as [|x c IH]; cbn [List.find update_one]; [done|].
  destruct (matches q x).
  - intros [= ->]. constructor; [by right|].
    apply Forall2_same_length_lookup. split; [done|]. intros i a b Ha Hb. left. congruence.
  - intros H. constructor; [by left|by apply IH].
Qed.

Lemma Forall2_refl_or {A} (P : A → A → Prop) (l : list A) :
  Forall2 (λ d d', d' = d ∨ P d d') l l.
Proof. apply Forall2_same_length_lookup. split; [done|]. intros i a b Ha Hb. left. congruence. Qed.

Lemma lookup_drop_none (d : doc) (k : string) :
  d !! k = None → drop_none d !! k = None.
Proof. intros H. unfold drop_none. by apply map_lookup_filter_None_2; left. Qed.

(** X5: whatever the outcome, [PUT /jobs/{jd_id}] changes at most one
    stored job: the first one with the given id, and only when the
    caller is a recruiter or admin whose id is the job's stored
    [recruiter_id].  That job takes the fields of the request that are
    not null and a new [updated_at]; its [_id] and [recruiter_id] stay,
    so ownership cannot be moved.  Every other job, every other
    collection, the files and the log are left as they were. *)
Theorem update_job_changes_only_own_job {pd : Pydantic} (env : Env) (jd_id : string) (jd_data : doc)
    (current_user : User.t) (w : World) (db : Database) :
  db_handle w = Some db →
  jd_data !! "_id" = None → jd_data !! "recruiter_id" = None →
  ∃ db',
    (update_job env jd_id jd_data current_user w).2
    = {| db_handle := Some db'; files := files w; log := log w |}
    ∧ db' = set_job_descriptions db (job_descriptions db')
    ∧ Forall2
        (λ d d',
           d' = d
           ∨ (User.role current_user ∈ [RECRUITER; ADMIN]
              ∧ (∃ oid, ObjectId (VStr jd_id) = Ok oid
                        ∧ find_one [("_id", VOid oid)] (job_descriptions db) = Some d)
              ∧ py_str (dict_get d "recruiter_id") = User.id current_user
              ∧ d' = <["updated_at" := VDate (utcnow env)]> (drop_none jd_data) ∪ d
              ∧ d' !! "_id" = d !! "_id"
              ∧ d' !! "recruiter_id" = d !! "recruiter_id"))
        (job_descriptions db) (job_descriptions db').
Proof.
  intros Hdb Hid Hrid.
  assert (Hsame : ∃ db',
            w = {| db_handle := Some db'; files := files w; log := log w |}
            ∧ db' = set_job_descriptions db (job_descriptions db')
            ∧ Forall2
                (λ d d',
                   d' = d
                   ∨ (User.role current_user ∈ [RECRUITER; ADMIN]
                      ∧ (∃ oid, ObjectId (VStr jd_id) = Ok oid
                                ∧ find_one [("_id", VOid oid)] (job_descriptions db)
                                  = Some d)
                      ∧ py_str (dict_get d "recruiter_id") = User.id current_user
                      ∧ d' = <["updated_at" := VDate (utcnow env)]> (drop_none jd_data) ∪ d
                      ∧ d' !! "_id" = d !! "_id"
                      ∧ d' !! "recruiter_id" = d !! "recruiter_id"))
                (job_descriptions db) (job_descriptions db')).
  { exists db. split; [destruct w; simpl in *; by subst|].
    split; [by destruct db|]. apply Forall2_refl_or. }
  unfold update_job, bind, lift, require_recruiter_or_admin.
  case_bool_decide as Hrole; [|done]. cbn [negb].
  unfold catch_ValueError, catch, bind.
  assert (Hhandler : ∀ (r : result JobDescription.t) (w1 : World),
            (match r with
             | Ok a => (Ok a, w1)
             | Raise e =>
               (if is_ValueError e then raise (HTTPException 403 (str_exn e))
                else raise e) w1
             end).2 = w1).
  { intros [?|e] w1; [done|]. by destruct (is_ValueError e). }
  destruct (JobRepository_update env jd_id jd_data (User.id current_user) w)
    as [r w1] eqn:Hupd.
  assert (Hw1 : ∃ db',
            w1 = {| db_handle := Some db'; files := files w; log := log w |}
            ∧ db' = set_job_descriptions db (job_descriptions db')
            ∧ Forall2
                (λ d d',
                   d' = d
                   ∨ (User.role current_user ∈ [RECRUITER; ADMIN]
                      ∧ (∃ oid, ObjectId (VStr jd_id) = Ok oid
                                ∧ find_one [("_id", VOid oid)] (job_descriptions db)
                                  = Some d)
                      ∧ py_str (dict_get d "recruiter_id") = User.id current_user
                      ∧ d' = <["updated_at" := VDate (utcnow env)]> (drop_none jd_data) ∪ d
                      ∧ d' !! "_id" = d !! "_id"
                      ∧ d' !! "recruiter_id" = d !! "recruiter_id"))
                (job_descriptions db) (job_descriptions db')).
  { unfold JobRepository_update, bind, get_database, lift in Hupd.
    rewrite Hdb in Hupd.
    destruct (ObjectId (VStr jd_id)) as [oid|] eqn:Hoid; [|by injection Hupd as _ <-].
    destruct (find_one _ (job_descriptions db)) as [jd|] eqn:Hjd;
      [|by injection Hupd as _ <-].
    cbn [py_str] in Hupd.
    destruct (String.eqb _ _) eqn:Heq; [|by injection Hupd as _ <-].
    apply String.eqb_eq in Heq. cbn [negb] in Hupd.
    unfold put_database in Hupd. cbn [db_handle files log] in Hupd.
    match type of Hupd with
    | JobRepository_get_by_id _ ?w2 = _ =>
      pose proof (read_only_JobRepository_get_by_id jd_id w2) as Hro
    end.
    rewrite Hupd in Hro. cbn [snd] in Hro. subst w1.
    eexists. split; [reflexivity|]. split; [reflexivity|].
    cbn [job_descriptions set_job_descriptions].
    eapply Forall2_impl; [apply (update_one_first _ _ _ jd Hjd)|].
    intros d d' [->|[-> ->]]; [by left|right].
    split; [done|]. split; [by exists oid|]. split; [done|]. split; [done|].
    split; rewrite lookup_union_r; try done;
      by rewrite lookup_insert_ne, lookup_drop_none. }
  destruct r as [[jd|]|e]; cbn [fst snd]; [done|done|].
  rewrite (Hhandler (Raise e)). exact Hw1.
Qed.

Lemma update_job_changes_only_own_job_witness :
  db_handle sample_world = Some sample_db
  ∧ ({[ "status" := VStr "CLOSED" ]} : doc) !! "_id" = None
  ∧ ({[ "status" := VStr "CLOSED" ]} : doc) !! "recruiter_id" = None
  ∧ ∃ db', (update_job (pd:=strict_pydantic) sample_env open_job_id
              {[ "status" := VStr "CLOSED" ]} rita sample_world).2
           = {| db_handle := Some db'; files := ∅; log := [] |}
           ∧ length (job_descriptions db') = 4%nat.
Proof.
  assert (H1 : ({[ "status" := VStr "CLOSED" ]} : doc) !! "_id" = None)
    by reflexivity.
  assert (H2 : ({[ "status" := VStr "CLOSED" ]} : doc) !! "recruiter_id" = None)
    by reflexivity.
  split; [reflexivity|]. split; [exact H1|]. split; [exact H2|].
  destruct (update_job_changes_only_own_job (pd:=strict_pydantic) sample_env open_job_id
              {[ "status" := VStr "CLOSED" ]} rita sample_world sample_db
              eq_refl H1 H2) as (db' & Hw & _ & Hall).
  exists db'. split; [exact Hw|].
  apply Forall2_length in Hall. by rewrite <- Hall.
Defined.

(** ** Changing the status of a submission *)

Lemma read_only_SubmissionRepository_get_by_id (submission_id : string) :
  read_only (SubmissionRepository_get_by_id submission_id).
Proof. unfold SubmissionRepository_get_by_id. step_world. Qed.

(** X6: whatever the outcome, [PUT /submissions/{id}/status] changes at
    most one stored submission, the first one with the given id, and of
    that one only [status] and [updated_at]: the job, the consultant,
    the recruiter and the resume it refers to stay as they were.  The
    [comments] and [recruiter_read] fields of the request are never
    read.  Every other collection, the files and the log are left as
    they were. *)
Theorem status_update_changes_only_status (env : Env) (submission_id : string)
    (status_update : SubmissionUpdate.t) (current_user : User.t) (w : World)
    (db : Database) :
  db_handle w = Some db →
  (∃ db',
     (update_submission_status env submission_id status_update current_user w).2
     = {| db_handle := Some db'; files := files w; log := log w |}
     ∧ db' = set_submissions db (submissions db')
     ∧ Forall2
         (λ d d',
            d' = d
            ∨ ∃ status oid,
                SubmissionUpdate.status status_update = Some status
                ∧ User.role current_user ∈ [RECRUITER; ADMIN]
                ∧ ObjectId (VStr submission_id) = Ok oid
                ∧ find_one [("_id", VOid oid)] (submissions db) = Some d
                ∧ d' = <["status" := VStr (SubmissionStatus_value status)]>
                         (<["updated_at" := VDate (utcnow env)]> d)
                ∧ ∀ k, k ≠ "status" → k ≠ "updated_at" → d' !! k = d !! k)
         (submissions db) (submissions db'))
  ∧ update_submission_status env submission_id status_update current_user w
    = update_submission_status env submission_id
        (SubmissionUpdate.mk (SubmissionUpdate.status status_update) None None)
        current_user w.
Proof.
  intros Hdb. split; [|done].
  set (R := λ d d' : doc,
         d' = d
         ∨ ∃ status oid,
             SubmissionUpdate.status status_update = Some status
             ∧ User.role current_user ∈ [RECRUITER; ADMIN]
             ∧ ObjectId (VStr submission_id) = Ok oid
             ∧ find_one [("_id", VOid oid)] (submissions db) = Some d
             ∧ d' = <["status" := VStr (SubmissionStatus_value status)]>
                      (<["updated_at" := VDate (utcnow env)]> d)
             ∧ ∀ k, k ≠ "status" → k ≠ "updated_at" → d' !! k = d !! k).
  assert (Hsame : ∃ db',
            w = {| db_handle := Some db'; files := files w; log := log w |}
            ∧ db' = set_submissions db (submissions db')
            ∧ Forall2 R (submissions db) (submissions db')).
  { exists db. split; [destruct w; simpl in *; by subst|].
    split; [by destruct db|]. apply Forall2_refl_or. }
  unfold update_submission_status, bind, lift, require_recruiter_or_admin.
  case_bool_decide as Hrole; [|done]. cbn [negb].
  destruct (SubmissionUpdate.status status_update) as [status|] eqn:Hst; [|done].
  pose proof (read_only_SubmissionRepository_get_by_id submission_id w) as Hro.
  destruct (SubmissionRepository_get_by_id submission_id w) as [[[s|]|e] w0] eqn:Hget;
    cbn [snd] in Hro; subst w0; [|done|done].
  unfold SubmissionRepository_update_status, bind, get_database, lift.
  rewrite Hdb.
  destruct (ObjectId (VStr submission_id)) as [oid|] eqn:Hoid; [|done].
  unfold put_database. cbn [db_handle files log].
  rewrite read_only_SubmissionRepository_get_by_id.
  destruct (find_one [("_id", VOid oid)] (submissions db)) as [d0|] eqn:Hd0.
  2:{ unfold SubmissionRepository_get_by_id, bind, get_database, lift in Hget.
      rewrite Hdb, Hoid, Hd0 in Hget. done. }
  eexists. split; [reflexivity|]. split; [reflexivity|].
  cbn [submissions set_submissions].
  eapply Forall2_impl; [apply (update_one_first _ _ _ d0 Hd0)|].
  intros d d' [->|[-> ->]]; [by left|right].
  exists status, oid. do 4 (split; [done|]).
  rewrite status_update_doc. split; [done|].
  intros k H1 H2. by rewrite !lookup_insert_ne.
Qed.

Lemma status_update_changes_only_status_witness :
  db_handle sample_world = Some sample_db
  ∧ ∃ db', (update_submission_status sample_env submission_id
              (SubmissionUpdate.mk (Some OFFER) (Some "note") (Some true)) rita
              sample_world).2
           = {| db_handle := Some db'; files := ∅; log := [] |}
           ∧ job_descriptions db' = job_descriptions sample_db.
Proof.
  split; [reflexivity|].
  destruct (status_update_changes_only_status sample_env submission_id
              (SubmissionUpdate.mk (Some OFFER) (Some "note") (Some true)) rita
              sample_world sample_db eq_refl) as [(db' & Hw & Hdb' & _) _].
  exists db'. split; [exact Hw|]. by rewrite Hdb'.
Defined.

(** X7: the refusals of [PUT /submissions/{id}/status].  A consultant is
    answered 403; a recruiter or admin who sends no status is answered
    400; an id that [ObjectId] takes and no stored submission carries is
    answered 404; an id that [ObjectId] refuses makes the lookup raise
    [InvalidId], which no handler catches, so the client sees 500.  In
    each case the world is left as it was. *)
Theorem status_update_refusals (env : Env) (submission_id : string)
    (status_update : SubmissionUpdate.t) (current_user : User.t) (w : World)
    (db : Database) :
  db_handle w = Some db →
  (User.role current_user = CONSULTANT →
   update_submission_status env submission_id status_update current_user w
   = (Raise (HTTPException 403 "Recruiter or admin access required"), w))
  ∧ (User.role current_user ≠ CONSULTANT →
     (SubmissionUpdate.status status_update = None →
      update_submission_status env submission_id status_update current_user w
      = (Raise (HTTPException 400 "Status is required"), w))
     ∧ (∀ status, SubmissionUpdate.status status_update = Some status →
          (∀ oid, ObjectId (VStr submission_id) = Ok oid →
                  find_one [("_id", VOid oid)] (submissions db) = None →
                  update_submission_status env submission_id status_update
                    current_user w
                  = (Raise (HTTPException 404 "Submission not found"), w))
          ∧ (ObjectId (VStr submission_id) = Raise InvalidId →
             update_submission_status env submission_id status_update current_user w
             = (Raise InvalidId, w)
             ∧ response_status
                 (update_submission_status env submission_id status_update
                    current_user w).1 = 500%Z))).
Proof.
  intros Hdb. split.
  - intros Hrole. unfold update_submission_status, bind, lift,
      require_recruiter_or_admin. rewrite Hrole. done.
  - intros Hrole.
    assert (Hgate : require_recruiter_or_admin current_user = Ok current_user).
    { unfold require_recruiter_or_admin. rewrite bool_decide_eq_true_2; [done|].
      destruct (User.role current_user); [right; left|left|done]. }
    unfold update_submission_status, bind at 1, lift. rewrite Hgate.
    split; [by intros ->|]. intros status ->. split.
    + intros oid Hoid Hnone.
      unfold bind, SubmissionRepository_get_by_id, bind, get_database, lift.
      by rewrite Hdb, Hoid, Hnone.
    + intros Hbad.
      unfold bind, SubmissionRepository_get_by_id, bind, get_database, lift.
      by rewrite Hdb, Hbad.
Qed.

Lemma status_update_refusals_witness :
  db_handle sample_world = Some sample_db
  ∧ update_submission_status sample_env submission_id
      (SubmissionUpdate.mk (Some OFFER) None None) carl sample_world
    = (Raise (HTTPException 403 "Recruiter or admin access required"), sample_world)
  ∧ update_submission_status sample_env "ffffffffffffffffffffff99"
      (SubmissionUpdate.mk (Some OFFER) None None) rita sample_world
    = (Raise (HTTPException 404 "Submission not found"), sample_world).
Proof.
  split; [reflexivity|].
  destruct (status_update_refusals sample_env submission_id
              (SubmissionUpdate.mk (Some OFFER) None None) carl sample_world sample_db
              eq_refl) as [H403 _].
  destruct (status_update_refusals sample_env "ffffffffffffffffffffff99"
              (SubmissionUpdate.mk (Some OFFER) None None) rita sample_world sample_db
              eq_refl) as [_ Hrest].
  split; [exact (H403 eq_refl)|].
  destruct (Hrest ltac:(discriminate)) as [_ Hst].
  destruct (Hst OFFER eq_refl) as [H404 _].
  apply (H404 "ffffffffffffffffffffff99"); reflexivity.
Defined.

(** ** Listing submissions *)

Global Instance insertion_sort_laws : CursorSortLaws insertion_sort.
Proof.
  constructor. intros k c. simpl. induction c as [|d c IH]; simpl; [done|].
  rewrite <- IH at 2. generalize (foldr (insert_desc k) [] c). clear.
  intros l. induction l as [|x l IH]; simpl; [done|].
  destruct (date_of k x <? date_of k d)%Z; [done|].
  rewrite IH. apply Permutation_swap.
Qed.

Lemma Submission_of_doc_fields (d : doc) (s : Submission.t) :
  Submission_of_doc d = Ok s →
  req_str d "id" = Ok (Submission.id s)
  ∧ req_str d "consultant_id" = Ok (Submission.consultant_id s)
  ∧ req_str d "recruiter_id" = Ok (Submission.recruiter_id s)
  ∧ req_str d "jd_id" = Ok (Submission.jd_id s)
  ∧ req_date d "created_at" = Ok (Submission.created_at s).
Proof.
  unfold Submission_of_doc. intros H. repeat head_ok H. by injection H as <-.
Qed.

Lemma req_str_lookup (d : doc) (k s : string) :
  req_str d k = Ok s → d !! k = Some (VStr s).
Proof. unfold req_str. destruct (d !! k) as [[]|]; try done. by intros [= ->]. Qed.

(** What a row of either listing says of the stored document it was
    made from. *)
Lemma consultant_row_fields (db : Database) (d : doc) (s : Submission.t) :
  consultant_row db d = Ok s →
  Submission.id s = py_str (dict_get d "_id")
  ∧ d !! "consultant_id" = Some (VStr (Submission.consultant_id s))
  ∧ d !! "recruiter_id" = Some (VStr (Submission.recruiter_id s))
  ∧ d !! "jd_id" = Some (VStr (Submission.jd_id s)).
Proof.
  unfold consultant_row, getitem, dict_get. intros H.
  destruct (d !! "_id") as [i|] eqn:Hi; [|done]. simpl.
  set (d0 := <["id" := VStr (py_str i)]> d) in *.
  assert (Hx : ∃ v, Submission_of_doc d0 = Ok s
                    ∨ Submission_of_doc (<["jd_title" := v]> d0) = Ok s).
  { destruct (d0 !! "jd_id") as [j|]; [|by eexists; right].
    destruct (lookup_by_ref j _) as [[jd|]|];
      [by eexists; right|by exists VNone; left|by eexists; right]. }
  clear H. destruct Hx as [v [H|H]];
    apply Submission_of_doc_fields in H as (H1 & H2 & H3 & H4 & _);
    unfold d0 in *; autorewrite with fields in H1, H2, H3, H4;
    apply req_str_lookup in H2, H3, H4; by injection H1 as <-.
Qed.

Lemma listed_row_fields (db : Database) (d : doc) (r : SubmissionListed.t) :
  listed_row db d = Ok r →
  Submission.id (SubmissionListed.submission r) = py_str (dict_get d "_id")
  ∧ d !! "consultant_id"
    = Some (VStr (Submission.consultant_id (SubmissionListed.submission r)))
  ∧ d !! "recruiter_id"
    = Some (VStr (Submission.recruiter_id (SubmissionListed.submission r)))
  ∧ d !! "jd_id" = Some (VStr (Submission.jd_id (SubmissionListed.submission r))).
Proof.
  unfold listed_row, getitem, dict_get. intros H.
  destruct (d !! "_id") as [i|] eqn:Hi; [|done]. simpl.
  set (d0 := <["id" := VStr (py_str i)]> d) in *.
  set (d1 := match _ with
             | Ok (Some u) => _
             | Ok None => <["consultant_email" := VStr ""]> _
             | Raise _ => _
             end) in H.
  set (d2 := match _ with
             | Ok (Some u) => _
             | Ok None => <["jd_title" := VStr "Unknown"]> _
             | Raise _ => _
             end) in H.
  assert (Hk : ∀ k, k ∈ ["id"; "consultant_id"; "recruiter_id"; "jd_id"] →
                    k ≠ "consultant_email" ∧ k ≠ "consultant_name"
                    ∧ k ≠ "jd_description" ∧ k ≠ "jd_tech_required"
                    ∧ k ≠ "jd_experience_required" ∧ k ≠ "jd_location"
                    ∧ k ≠ "jd_title").
  { intros k Hk. rewrite !elem_of_cons, elem_of_nil in Hk.
    repeat split; intros ->; by intuition. }
  assert (H01 : ∀ k, k ∈ ["id"; "consultant_id"; "recruiter_id"; "jd_id"] →
                     d1 !! k = d0 !! k).
  { intros k (? & ? & _)%Hk. unfold d1.
    destruct (d0 !! "consultant_id") as [c|]; cbn [getitem];
      [|by rewrite !lookup_insert_ne].
    destruct (lookup_by_ref c _) as [[u|]|]; by rewrite !lookup_insert_ne. }
  assert (H12 : ∀ k, k ∈ ["id"; "consultant_id"; "recruiter_id"; "jd_id"] →
                     d2 !! k = d1 !! k).
  { intros k (_ & _ & ? & ? & ? & ? & ?)%Hk. unfold d2.
    destruct (d1 !! "jd_id") as [c|]; [|by rewrite !lookup_insert_ne].
    destruct (lookup_by_ref c _) as [[u|]|]; by rewrite !lookup_insert_ne. }
  assert (Hx : ∀ k, k ∈ ["id"; "consultant_id"; "recruiter_id"; "jd_id"] →
                    d2 !! k = d0 !! k).
  { intros k Hin. by rewrite H12, H01. }
  clearbody d2. clear H01 H12 Hk.
  unfold SubmissionListed_of_doc in H. head_ok H.
  apply Submission_of_doc_fields in E as (H1 & H2 & H3 & H4 & _).
  repeat head_ok H. injection H as <-. simpl.
  unfold req_str in H1, H2, H3, H4.
  rewrite Hx in H1, H2, H3, H4 by (rewrite !elem_of_cons; tauto).
  fold (req_str d0 "id") in H1. fold (req_str d0 "consultant_id") in H2.
  fold (req_str d0 "recruiter_id") in H3. fold (req_str d0 "jd_id") in H4.
  unfold d0 in *. autorewrite with fields in H1, H2, H3, H4.
  apply req_str_lookup in H2, H3, H4. by injection H1 as <-.
Qed.

Lemma Forall2_map_eq {A B C} (f : A → C) (g : B → C) (l : list A) (l' : list B)
    (P : A → B → Prop) :
  (∀ a b, P a b → f a = g b) → Forall2 P l l' → map f l = map g l'.
Proof. intros Hfg. induction 1; simpl; [done|]. f_equal; eauto. Qed.

Lemma find_all (c : collection) : find [] c = c.
Proof.
  unfold find. induction c as [|x c IH]; [done|].
  cbn [List.filter]. rewrite IH. done.
Qed.

Section ListingProperties.
Context {cs : CursorSort} {cs_laws : CursorSortLaws cs}.

Lemma read_only_SubmissionRepository_get_all (recruiter_id : option string) :
  read_only (SubmissionRepository_get_all recruiter_id).
Proof. unfold SubmissionRepository_get_all. step_world. Qed.

Lemma read_only_SubmissionRepository_get_by_consultant (consultant_id : string) :
  read_only (SubmissionRepository_get_by_consultant consultant_id).
Proof. unfold SubmissionRepository_get_by_consultant. step_world. Qed.

(** The rows of a listing, against the stored documents selected. *)
Lemma listing_rows {B} (row : doc → result B) (ident : B → string)
    (q : list (string * pyval)) (c : collection) (l : list B) :
  (∀ d b, row d = Ok b → ident b = py_str (dict_get d "_id")) →
  mapM_result row (sort_desc "created_at" (find q c)) = Ok l →
  map ident l ≡ₚ map (λ d, py_str (dict_get d "_id")) (find q c)
  ∧ ∀ b, b ∈ l → ∃ d, d ∈ c ∧ matches q d = true ∧ row d = Ok b.
Proof.
  intros Hid Hl. split.
  - rewrite <- (sort_desc_perm "created_at" (find q c)).
    apply mapM_result_Forall2 in Hl.
    erewrite <- (Forall2_map_eq _ ident _ l); [done| |exact Hl].
    intros d b Hdb. symmetry. by apply Hid.
  - intros b Hb. destruct (mapM_result_elem _ _ _ _ Hl Hb) as (d & Hd & Hrow).
    rewrite (sort_desc_perm "created_at" (find q c)) in Hd.
    unfold find in Hd. apply list_elem_of_In, filter_In in Hd as [Hd Hm].
    exists d. split; [by apply list_elem_of_In|done].
Qed.

(** X8: [GET /submissions/] is refused to consultants.  A recruiter
    whose id is not empty is shown exactly the stored submissions whose
    [recruiter_id] is that id, one row for each and each row with that
    [recruiter_id]; an admin is shown one row for every stored
    submission.  The listing changes nothing. *)
Theorem recruiter_is_shown_own_submissions (current_user : User.t) (w w' : World)
    (l : list SubmissionListed.t) :
  get_all_submissions current_user w = (Ok l, w') →
  w' = w
  ∧ (User.role current_user = RECRUITER ∨ User.role current_user = ADMIN)
  ∧ ∃ db, db_handle w = Some db
     ∧ (User.role current_user = RECRUITER → User.id current_user ≠ "" →
        map (λ r, Submission.id (SubmissionListed.submission r)) l
        ≡ₚ map (λ d, py_str (dict_get d "_id"))
             (find [("recruiter_id", VStr (User.id current_user))] (submissions db))
        ∧ Forall (λ r, Submission.recruiter_id (SubmissionListed.submission r)
                       = User.id current_user) l)
     ∧ (User.role current_user = ADMIN →
        map (λ r, Submission.id (SubmissionListed.submission r)) l
        ≡ₚ map (λ d, py_str (dict_get d "_id")) (submissions db)).
Proof.
  unfold get_all_submissions, bind, lift, require_recruiter_or_admin.
  case_bool_decide as Hrole; [|done]. cbn [negb]. intros H.
  set (rid := if bool_decide (User.role current_user = RECRUITER)
              then Some (User.id current_user) else None).
  assert (H' : SubmissionRepository_get_all rid w = (Ok l, w')).
  { unfold rid. by destruct (bool_decide _). }
  clear H.
  assert (Hw : w' = w).
  { pose proof (read_only_SubmissionRepository_get_all rid w) as Hro.
    by rewrite H' in Hro. }
  split; [done|]. split.
  { apply elem_of_cons in Hrole as [?|Hrole]; [by left|].
    apply list_elem_of_singleton in Hrole. by right. }
  unfold SubmissionRepository_get_all, bind, get_database, lift in H'.
  destruct (db_handle w) as [db|] eqn:Hdb; [|done].
  injection H' as H _.
  exists db. split; [done|]. split.
  - intros Hrec Hne. unfold rid in H. rewrite bool_decide_eq_true_2 in H by done.
    apply String.eqb_neq in Hne. rewrite Hne in H. cbn [negb py_str] in H.
    destruct (listing_rows (listed_row db)
                (λ r, Submission.id (SubmissionListed.submission r))
                [("recruiter_id", VStr (User.id current_user))] (submissions db) l)
      as [Hp Hin]; [|exact H|].
    { intros d b Hb. by apply listed_row_fields in Hb as (? & _). }
    split; [done|]. apply Forall_forall. intros r Hr.
    destruct (Hin r Hr) as (d & _ & Hm & Hrow).
    apply listed_row_fields in Hrow as (_ & _ & Hrid & _).
    apply matches_lookup in Hm. rewrite Hm in Hrid. by injection Hrid as <-.
  - intros Hadm. unfold rid in H.
    rewrite bool_decide_eq_false_2 in H by (rewrite Hadm; done).
    destruct (listing_rows (listed_row db)
                (λ r, Submission.id (SubmissionListed.submission r))
                [] (submissions db) l) as [Hp _]; [|exact H|].
    { intros d b Hb. by apply listed_row_fields in Hb as (? & _). }
    by rewrite Hp, find_all.
Qed.

(** X9: [GET /submissions/me] is refused to recruiters.  A consultant
    is shown exactly the stored submissions whose [consultant_id] is the
    caller's id, one row for each and each row with that
    [consultant_id]; so is an admin, whom the gate lets through.  The
    listing changes nothing. *)
Theorem consultant_is_shown_own_submissions (current_user : User.t) (w w' : World)
    (l : list Submission.t) :
  get_my_submissions current_user w = (Ok l, w') →
  w' = w
  ∧ (User.role current_user = CONSULTANT ∨ User.role current_user = ADMIN)
  ∧ ∃ db, db_handle w = Some db
     ∧ map Submission.id l
       ≡ₚ map (λ d, py_str (dict_get d "_id"))
            (find [("consultant_id", VStr (User.id current_user))] (submissions db))
     ∧ Forall (λ s, Submission.consultant_id s = User.id current_user) l.
Proof.
  unfold get_my_submissions, bind, lift, require_role.
  destruct (negb (bool_decide (User.role current_user = CONSULTANT))
            && negb (bool_decide (User.role current_user = ADMIN))) eqn:Hgate; [done|].
  intros H.
  assert (Hw : w' = w).
  { pose proof (read_only_SubmissionRepository_get_by_consultant
                  (User.id current_user) w) as Hro.
    by rewrite H in Hro. }
  split; [done|]. split.
  { apply andb_false_iff in Hgate as [Hg|Hg]; apply negb_false_iff in Hg;
      apply bool_decide_eq_true in Hg; [by left|by right]. }
  unfold SubmissionRepository_get_by_consultant, bind, get_database, lift in H.
  destruct (db_handle w) as [db|] eqn:Hdb; [|done].
  injection H as H _. exists db. split; [done|].
  destruct (listing_rows (consultant_row db) Submission.id
              [("consultant_id", VStr (User.id current_user))] (submissions db) l)
    as [Hp Hin]; [|exact H|].
  { intros d b Hb. by apply consultant_row_fields in Hb as (? & _). }
  split; [done|]. apply Forall_forall. intros s Hs.
  destruct (Hin s Hs) as (d & _ & Hm & Hrow).
  apply consultant_row_fields in Hrow as (_ & Hcid & _).
  apply matches_lookup in Hm. rewrite Hm in Hcid. by injection Hcid as <-.
Qed.

Lemma count_status_partition (l : list Submission.t) :
  (count_status l SUBMITTED + count_status l ON_HOLD + count_status l INTERVIEW
   + count_status l OFFER + count_status l JOINED + count_status l REJECTED
   + count_status l WITHDRAWN = length l)%nat.
Proof.
  unfold count_status. induction l as [|s l IH]; [done|].
  cbn [List.filter length]. destruct (Submission.status s);
    repeat (case_bool_decide; try done); cbn [length]; lia.
Qed.

(** X10: the statistics of [GET /consultants/me/stats] add up.  Only a
    consultant gets them; the total is the number of the caller's stored
    submissions, every one of which is counted under exactly one of
    pending, interviews, offers, joined, rejected and withdrawn; the
    table by status has one entry for each of the seven statuses and
    sums to the total; the recent ones are among those counted.  The
    request changes nothing. *)
Theorem application_stats_add_up (env : Env) (current_user : User.t) (w w' : World)
    (stats : ApplicationStats) :
  get_application_stats env current_user w = (Ok stats, w') →
  w' = w
  ∧ User.role current_user = CONSULTANT
  ∧ (pending stats + interviews stats + offers stats + joined stats
     + rejected stats + withdrawn stats = total stats)%nat
  ∧ (recent_30_days stats ≤ total stats)%nat
  ∧ map fst (by_status stats) = map SubmissionStatus_value SubmissionStatus_all
  ∧ foldr Nat.add 0%nat (map snd (by_status stats)) = total stats
  ∧ ∃ db, db_handle w = Some db
          ∧ total stats
            = length (find [("consultant_id", VStr (User.id current_user))]
                        (submissions db)).
Proof.
  unfold get_application_stats.
  case_bool_decide as Hrole; [|done]. cbn [negb].
  unfold catch, bind at 1.
  pose proof (read_only_SubmissionRepository_get_by_consultant
                (User.id current_user) w) as Hro.
  destruct (SubmissionRepository_get_by_consultant (User.id current_user) w)
    as [[l|e] w0] eqn:Hget; cbn [snd] in Hro; subst w0; [|done].
  unfold ret. intros [= <- <-]. split; [done|]. split; [done|].
  cbn [total pending interviews offers joined rejected withdrawn recent_30_days
       by_status].
  pose proof (count_status_partition l) as Hpart.
  change (stats_get _ "SUBMITTED") with (count_status l SUBMITTED).
  change (stats_get _ "ON_HOLD") with (count_status l ON_HOLD).
  change (stats_get _ "INTERVIEW") with (count_status l INTERVIEW).
  change (stats_get _ "OFFER") with (count_status l OFFER).
  change (stats_get _ "JOINED") with (count_status l JOINED).
  change (stats_get _ "REJECTED") with (count_status l REJECTED).
  change (stats_get _ "WITHDRAWN")
    with (count_status l WITHDRAWN).
  split; [lia|]. split; [apply List.filter_length_le|].
  split; [done|]. split; [cbn [map foldr snd SubmissionStatus_all]; lia|].
  unfold SubmissionRepository_get_by_consultant, bind, get_database, lift in Hget.
  destruct (db_handle w) as [db|] eqn:Hdb; [|done].
  injection Hget as Hget. exists db. split; [done|].
  apply mapM_result_Forall2, Forall2_length in Hget. rewrite <- Hget.
  by rewrite (sort_desc_perm "created_at" _).
Qed.

End ListingProperties.

Lemma recruiter_is_shown_own_submissions_witness :
  ∃ l w', get_all_submissions (cs:=insertion_sort) rita sample_world = (Ok l, w')
          ∧ w' = sample_world
          ∧ Forall (λ r, Submission.recruiter_id (SubmissionListed.submission r)
                         = rita_id) l.
Proof.
  destruct (get_all_submissions (cs:=insertion_sort) rita sample_world)
    as [[l|e] w'] eqn:Hl.
  2:{ assert (H : is_ok (get_all_submissions (cs:=insertion_sort) rita
                          sample_world).1 = true) by reflexivity.
      rewrite Hl in H. discriminate H. }
  exists l, w'. split; [reflexivity|].
  destruct (recruiter_is_shown_own_submissions (cs:=insertion_sort) rita sample_world
              w' l Hl) as (Hw & _ & db & _ & Hrec & _).
  split; [exact Hw|].
  destruct (Hrec eq_refl) as [_ Hall]; [by vm_compute|exact Hall].
Defined.

Lemma consultant_is_shown_own_submissions_witness :
  ∃ l w', get_my_submissions (cs:=insertion_sort) carl sample_world = (Ok l, w')
          ∧ w' = sample_world
          ∧ Forall (λ s, Submission.consultant_id s = carl_id) l.
Proof.
  destruct (get_my_submissions (cs:=insertion_sort) carl sample_world)
    as [[l|e] w'] eqn:Hl.
  2:{ assert (H : is_ok (get_my_submissions (cs:=insertion_sort) carl
                          sample_world).1 = true) by reflexivity.
      rewrite Hl in H. discriminate H. }
  exists l, w'. split; [reflexivity|].
  destruct (consultant_is_shown_own_submissions (cs:=insertion_sort) carl sample_world
              w' l Hl) as (Hw & _ & db & _ & _ & Hall).
  split; [exact Hw|exact Hall].
Defined.

Lemma application_stats_add_up_witness :
  ∃ stats w', get_application_stats (cs:=insertion_sort) sample_env carl sample_world
              = (Ok stats, w')
              ∧ (pending stats + interviews stats + offers stats + joined stats
                 + rejected stats + withdrawn stats = total stats)%nat.
Proof.
  destruct (get_application_stats (cs:=insertion_sort) sample_env carl sample_world)
    as [[stats|e] w'] eqn:Hs.
  2:{ assert (H : is_ok (get_application_stats (cs:=insertion_sort) sample_env carl
                          sample_world).1 = true) by reflexivity.
      rewrite Hs in H. discriminate H. }
  exists stats, w'. split; [reflexivity|].
  destruct (application_stats_add_up (cs:=insertion_sort) sample_env carl sample_world
              w' stats Hs) as (_ & _ & Hsum & _).
  exact Hsum.
Defined.

(** ** Consultant profiles *)

Lemma update_one_keeps_key (q : list (string * pyval)) (upd : doc) (c : collection)
    (k : string) :
  upd !! k = None →
  map (λ d : doc, d !! k) (update_one q upd c) = map (λ d : doc, d !! k) c.
Proof.
  intros Hk. induction c as [|x c IH]; [done|]. cbn [update_one].
  destruct (matches q x); cbn [map]; [|by rewrite IH].
  f_equal. by rewrite lookup_union_r.
Qed.

Lemma omap_lookup_map (k : string) (c c' : collection) :
  map (λ d : doc, d !! k) c = map (λ d : doc, d !! k) c' →
  omap (λ d : doc, d !! k) c = omap (λ d : doc, d !! k) c'.
Proof.
  revert c'. induction c as [|x c IH]; intros [|x' c'] H; simpl in H; try done.
  injection H as Hx Hc. cbn [omap list_omap]. rewrite Hx.
  pose proof (IH c' Hc) as IH'. cbn [omap] in IH'. by rewrite IH'.
Qed.

Lemma find_one_update_one_some (q : list (string * pyval)) (upd : doc) (c : collection)
    (d : doc) (k : string) (v : pyval) :
  q = [(k, v)] → upd !! k = None → find_one q c = Some d →
  find_one q (update_one q upd c) = Some (upd ∪ d).
Proof.
  intros -> Hk Hd. apply find_one_update_one; [done|].
  apply find_one_matches in Hd as [Hm _]. apply matches_lookup in Hm.
  rewrite matches_single. apply bool_decide_eq_true. by rewrite lookup_union_r.
Qed.

(** The profile read for a user is that user's. *)
Lemma ConsultantProfile_of_doc_user_id {pd : Pydantic} (d : doc)
    (p : ConsultantProfile.t) :
  ConsultantProfile_of_doc d = Ok p →
  field_required str_value d "user_id" = Ok (ConsultantProfile.user_id p).
Proof.
  unfold ConsultantProfile_of_doc. intros H. repeat head_ok H. by injection H as <-.
Qed.

Lemma merge_user_data_other (d : doc) (db : Database) (k : string) :
  k ∉ ["tech_stack"; "experience_years"; "name"; "email"; "phone"] →
  _merge_user_data d db !! k = d !! k.
Proof.
  rewrite !not_elem_of_cons. intros (? & ? & ? & ? & ? & _).
  unfold _merge_user_data. repeat case_match; by rewrite ?lookup_insert_ne.
Qed.

Lemma profile_of_stored_user_id {pd : Pydantic} {pdl : PydanticLaws pd}
    (db : Database) (d : doc) (p : ConsultantProfile.t) (user_id : string) :
  d !! "consultant_id" = Some (VStr user_id) →
  profile_of_stored db d = Ok p → ConsultantProfile.user_id p = user_id.
Proof.
  unfold profile_of_stored, getitem. intros Hc H.
  destruct (d !! "_id") as [i|]; [|done]. simpl in H.
  rewrite lookup_insert_ne, Hc in H by done.
  apply ConsultantProfile_of_doc_user_id in H.
  rewrite (field_required_lookup _ _ _ (VStr user_id) user_id) in H;
    [by injection H as <-| |apply str_value_str].
  rewrite merge_user_data_other.
  2:{ rewrite !not_elem_of_cons. repeat split; try done. apply not_elem_of_nil. }
  apply lookup_insert_eq.
Qed.

Lemma ConsultantRepository_get_by_user_id_Ok {pd : Pydantic} {pdl : PydanticLaws pd}
    (user_id : string) (w w' : World)
    (r : option ConsultantProfile.t) :
  ConsultantRepository_get_by_user_id user_id w = (Ok r, w') →
  w' = w
  ∧ ∃ db, db_handle w = Some db
     ∧ match r with
       | Some p =>
         ConsultantProfile.user_id p = user_id
         ∧ is_Some (find_one [("consultant_id", VStr user_id)] (consultant_profiles db))
       | None =>
         find_one [("consultant_id", VStr user_id)] (consultant_profiles db) = None
       end.
Proof.
  intros H.
  pose proof (read_only_ConsultantRepository_get_by_user_id user_id w) as Hro.
  rewrite H in Hro. cbn [snd] in Hro. split; [done|].
  unfold ConsultantRepository_get_by_user_id, bind, get_database, lift in H.
  destruct (db_handle w) as [db|]; [|done]. exists db. split; [done|].
  destruct (find_one _ _) as [d|] eqn:Hd.
  - destruct (profile_of_stored db d) as [p|] eqn:Hp; [|done].
    injection H as <- _. split; [|done].
    apply find_one_matches in Hd as [Hm _]. apply matches_lookup in Hm.
    by eapply profile_of_stored_user_id.
  - by injection H as <- _.
Qed.

Lemma find_one_None_omap (k : string) (v : pyval) (c : collection) :
  find_one [(k, v)] c = None → v ∉ omap (λ d : doc, d !! k) c.
Proof.
  intros H Hin. apply list_elem_of_omap in Hin as (d & Hd & He).
  pose proof (find_one_None _ _ d H Hd) as Hm.
  rewrite matches_single in Hm. by apply bool_decide_eq_false in Hm.
Qed.

Lemma find_one_Some_omap (k : string) (v : pyval) (c : collection) :
  is_Some (find_one [(k, v)] c) → v ∈ omap (λ d : doc, d !! k) c.
Proof.
  intros [d Hd]. apply find_one_matches in Hd as [Hm Hin].
  apply matches_lookup in Hm. apply list_elem_of_omap. by exists d.
Qed.

(** The upsert at the end of [create_or_update], and the read that
    follows it. *)
Lemma upsert_profile {pd : Pydantic} {pdl : PydanticLaws pd}
    (env : Env) (user_id : string) (upd dflt : doc) (db : Database)
    (w : World) :
  db_handle w = Some db →
  upd !! "consultant_id" = None → upd !! "_id" = None →
  dflt !! "consultant_id" = Some (VStr user_id) → dflt !! "_id" = None →
  let r :=
    bind (lift (upsert_one (upsert_oid env) [("consultant_id", VStr user_id)] upd dflt
                  (consultant_profiles db)))
      (λ profiles,
         bind (put_database (set_consultant_profiles db profiles))
           (λ _, ConsultantRepository_get_by_user_id user_id)) w in
  ∃ db',
    db_handle r.2 = Some db'
    ∧ db' = set_consultant_profiles db (consultant_profiles db')
    ∧ (profile_owners db' = profile_owners db
       ∨ ((VStr user_id ∉ profile_owners db)
          ∧ profile_owners db' = profile_owners db ++ [VStr user_id]))
    ∧ (∀ x, r.1 = Ok x →
         ConsultantRepository_get_by_user_id user_id r.2 = (Ok x, r.2)
         ∧ VStr user_id ∈ profile_owners db'
         ∧ ∃ p, x = Some p ∧ ConsultantProfile.user_id p = user_id).
Proof.
  intros Hdb Hu1 Hu2 Hd1 Hd2 r. subst r.
  unfold bind at 1, lift.
  set (q := [("consultant_id", VStr user_id)]).
  assert (Hread : ∀ db' x,
            find_one q (consultant_profiles db') ≠ None →
            ∀ w', w' = {| db_handle := Some db'; files := files w; log := log w |} →
            (ConsultantRepository_get_by_user_id user_id w').1 = Ok x →
            ConsultantRepository_get_by_user_id user_id w' = (Ok x, w')
            ∧ VStr user_id ∈ profile_owners db'
            ∧ ∃ p, x = Some p ∧ ConsultantProfile.user_id p = user_id).
  { intros db' x Hsome w' Hw' Hx.
    destruct (ConsultantRepository_get_by_user_id user_id w') as [r1 w1] eqn:Hget.
    simpl in Hx. subst r1.
    apply ConsultantRepository_get_by_user_id_Ok in Hget as Hok.
    destruct Hok as (-> & db1 & Hdb1 & Hcase).
    rewrite Hw' in Hdb1. injection Hdb1 as <-.
    split; [done|]. split.
    - apply find_one_Some_omap. fold q.
      destruct (find_one q (consultant_profiles db')); [by eexists|done].
    - destruct x as [p|]; [|done]. destruct Hcase as [? _]. by exists p. }
  unfold upsert_one.
  destruct (find_one q (consultant_profiles db)) as [d|] eqn:Hfind.
  - unfold bind, put_database. cbn [db_handle files log].
    rewrite read_only_ConsultantRepository_get_by_user_id. cbn [db_handle].
    eexists. split; [reflexivity|]. split; [reflexivity|]. split.
    + left. unfold profile_owners. cbn [consultant_profiles set_consultant_profiles].
      apply omap_lookup_map, update_one_keeps_key. done.
    + intros x Hx. apply (Hread _ x); [|done|done].
      cbn [consultant_profiles set_consultant_profiles].
      by rewrite (find_one_update_one_some q upd _ d "consultant_id" (VStr user_id)).
  - set (d0 := upd ∪ dflt ∪ list_to_map q).
    assert (Hd0 : d0 !! "_id" = None).
    { unfold d0. rewrite !lookup_union_None. done. }
    assert (Hd0c : d0 !! "consultant_id" = Some (VStr user_id)).
    { unfold d0. apply lookup_union_Some_l. by rewrite lookup_union_r. }
    destruct (insert_one (upsert_oid env) d0 (consultant_profiles db))
      as [[[c d'] i]|e] eqn:Hins.
    + apply insert_one_Ok in Hins as (-> & -> & ->); [|done].
      unfold bind, put_database. cbn [db_handle files log fst].
      rewrite read_only_ConsultantRepository_get_by_user_id. cbn [db_handle].
      eexists. split; [reflexivity|]. split; [reflexivity|].
      assert (Hm : matches q (<["_id":=VOid (upsert_oid env)]> d0) = true).
      { unfold q. rewrite matches_single. apply bool_decide_eq_true.
        by rewrite lookup_insert_ne. }
      split.
      * right. split; [by apply find_one_None_omap|].
        unfold profile_owners. cbn [consultant_profiles set_consultant_profiles].
        rewrite omap_app. f_equal. cbn [omap list_omap].
        by rewrite lookup_insert_ne, Hd0c.
      * intros x Hx. apply (Hread _ x); [|done|done].
        cbn [consultant_profiles set_consultant_profiles].
        by rewrite (find_one_snoc q _ _ Hfind Hm).
    + cbn [fst snd]. exists db. split; [done|]. split; [by destruct db|].
      split; [by left|]. done.
Qed.

Lemma bind_Ok {A B} (m : M A) (k : A → M B) (w w1 : World) (a : A) :
  m w = (Ok a, w1) → bind m k w = k a w1.
Proof. intros H. unfold bind. by rewrite H. Qed.

(** What [create_or_update] does to the stored profiles. *)
Lemma ConsultantRepository_create_or_update_profiles {pd : Pydantic} {pdl : PydanticLaws pd}
    (env : Env) (user_id : string)
    (profile_data : doc) (w : World) (db : Database) :
  db_handle w = Some db →
  profile_data !! "consultant_id" = None → profile_data !! "_id" = None →
  let r := ConsultantRepository_create_or_update env user_id profile_data w in
  ∃ db',
    db_handle r.2 = Some db'
    ∧ (profile_owners db' = profile_owners db
       ∨ ((VStr user_id ∉ profile_owners db)
          ∧ profile_owners db' = profile_owners db ++ [VStr user_id]))
    ∧ (∀ x, r.1 = Ok x →
         ConsultantRepository_get_by_user_id user_id r.2 = (Ok x, r.2)
         ∧ VStr user_id ∈ profile_owners db'
         ∧ ∃ p, x = Some p ∧ ConsultantProfile.user_id p = user_id).
Proof.
  intros Hdb Hp1 Hp2 r. subst r.
  unfold ConsultantRepository_create_or_update.
  rewrite (bind_Ok get_database _ w w db) by (unfold get_database; by rewrite Hdb).
  set (upd := <["updated_at":=_]> (delete "email" _)).
  set (dflt := if bool_decide (is_Some (upd !! "tech_stack")) then _ else _).
  assert (Hu1 : upd !! "consultant_id" = None).
  { unfold upd. rewrite lookup_insert_ne, !lookup_delete_ne by done.
    by apply lookup_drop_none. }
  assert (Hu2 : upd !! "_id" = None).
  { unfold upd. rewrite lookup_insert_ne, !lookup_delete_ne by done.
    by apply lookup_drop_none. }
  assert (Hd1 : dflt !! "consultant_id" = Some (VStr user_id)).
  { unfold dflt. repeat case_bool_decide; by rewrite ?lookup_delete_ne. }
  assert (Hd2 : dflt !! "_id" = None).
  { unfold dflt. repeat case_bool_decide; by rewrite ?lookup_delete_ne. }
  assert (Htail : ∀ db1 w1,
            db_handle w1 = Some db1 →
            consultant_profiles db1 = consultant_profiles db →
            let r :=
              bind (lift (upsert_one (upsert_oid env) [("consultant_id", VStr user_id)]
                            upd dflt (consultant_profiles db1)))
                (λ profiles,
                   bind (put_database (set_consultant_profiles db1 profiles))
                     (λ _, ConsultantRepository_get_by_user_id user_id)) w1 in
            ∃ db',
              db_handle r.2 = Some db'
              ∧ (profile_owners db' = profile_owners db
                 ∨ ((VStr user_id ∉ profile_owners db)
                    ∧ profile_owners db' = profile_owners db ++ [VStr user_id]))
              ∧ (∀ x, r.1 = Ok x →
                   ConsultantRepository_get_by_user_id user_id r.2 = (Ok x, r.2)
                   ∧ VStr user_id ∈ profile_owners db'
                   ∧ ∃ p, x = Some p ∧ ConsultantProfile.user_id p = user_id)).
  { intros db1 w1 Hdb1 Hsame r.
    destruct (upsert_profile env user_id upd dflt db1 w1 Hdb1 Hu1 Hu2 Hd1 Hd2)
      as (db' & H1 & _ & H2 & H3).
    exists db'. split; [done|]. split; [|done].
    unfold profile_owners in *. by rewrite <- Hsame. }
  lazymatch goal with
  | |- context [bind ?m ?k w] =>
    assert (Hstep : ∃ db1 w1, m w = (Ok db1, w1) ∧ db_handle w1 = Some db1
                              ∧ consultant_profiles db1 = consultant_profiles db);
    [|destruct Hstep as (db1 & w1 & Hstep & Hdb1 & Hsame);
      rewrite (bind_Ok m k w w1 db1 Hstep); by apply Htail]
  end.
  case_bool_decide; [destruct (ObjectId (VStr user_id)) as [oid|]|];
    by eexists _, _.
Qed.

(** X11: [create_or_update] keeps one profile per consultant.  It
    changes no stored profile's [consultant_id]; it adds a profile only
    for a consultant who has none, and then exactly one; so if no two
    stored profiles belong to the same consultant before the call, none
    do after it.  When it returns, it returns a profile, never [None],
    and the profile is the caller's. *)
Theorem create_or_update_keeps_one_profile {pd : Pydantic} {pdl : PydanticLaws pd}
    (env : Env) (user_id : string)
    (profile_data : doc) (w : World) (db : Database) :
  db_handle w = Some db →
  profile_data !! "consultant_id" = None → profile_data !! "_id" = None →
  ∃ db',
    db_handle (ConsultantRepository_create_or_update env user_id profile_data w).2
    = Some db'
    ∧ (profile_owners db' = profile_owners db
       ∨ ((VStr user_id ∉ profile_owners db)
          ∧ profile_owners db' = profile_owners db ++ [VStr user_id]))
    ∧ (NoDup (profile_owners db) → NoDup (profile_owners db'))
    ∧ (∀ x, (ConsultantRepository_create_or_update env user_id profile_data w).1 = Ok x →
         VStr user_id ∈ profile_owners db'
         ∧ ∃ p, x = Some p ∧ ConsultantProfile.user_id p = user_id).
Proof.
  intros Hdb Hp1 Hp2.
  destruct (ConsultantRepository_create_or_update_profiles env user_id profile_data w db
              Hdb Hp1 Hp2) as (db' & Hdb' & Hown & Hok).
  exists db'. split; [done|]. split; [done|]. split.
  - intros Hnd. destruct Hown as [-> | [Hnew ->]]; [done|].
    apply NoDup_app. split; [done|]. split; [|apply NoDup_singleton].
    by intros x Hx ->%list_elem_of_singleton.
  - intros x Hx. by destruct (Hok x Hx) as (_ & ? & ?).
Qed.

(** X12: [GET /consultants/me] is refused to everyone but consultants,
    admins included.  For a consultant it returns the caller's profile,
    creating it when there is none and adding no second one, and asking
    again returns the same profile and changes nothing more. *)
Theorem get_my_profile_is_idempotent {pd : Pydantic} {pdl : PydanticLaws pd}
    (env env' : Env) (current_user : User.t)
    (w w' : World) (r : option ConsultantProfile.t) :
  get_my_profile env current_user w = (Ok r, w') →
  User.role current_user = CONSULTANT
  ∧ (∃ p, r = Some p ∧ ConsultantProfile.user_id p = User.id current_user)
  ∧ get_my_profile env' current_user w' = (Ok r, w')
  ∧ (∀ db db', db_handle w = Some db → db_handle w' = Some db' →
       profile_owners db' = profile_owners db
       ∨ ((VStr (User.id current_user) ∉ profile_owners db)
          ∧ profile_owners db' = profile_owners db ++ [VStr (User.id current_user)]))
  ∧ (∀ other, User.role other ≠ CONSULTANT →
       get_my_profile env other w
       = (Raise (HTTPException 403 "Only consultants have profiles"), w)).
Proof.
  unfold get_my_profile. intros H.
  assert (Hother : ∀ other, User.role other ≠ CONSULTANT →
            (if negb (bool_decide (User.role other = CONSULTANT))
             then raise (HTTPException 403 "Only consultants have profiles")
             else
               bind (ConsultantRepository_get_by_user_id (User.id other))
                 (λ profile,
                    match profile with
                    | Some profile0 => ret (Some profile0)
                    | None =>
                      ConsultantRepository_create_or_update env (User.id other)
                        (ConsultantProfileUpdate_experience 0)
                    end)) w
            = (Raise (HTTPException 403 "Only consultants have profiles"), w)).
  { intros other Hrole. by rewrite bool_decide_eq_false_2. }
  revert H.
  case_bool_decide as Hrole; [|done]. cbn [negb]. unfold bind at 1.
  destruct (ConsultantRepository_get_by_user_id (User.id current_user) w)
    as [[[p|]|e] w0] eqn:Hget; [| |done].
  - unfold ret. intros [= <- <-].
    apply ConsultantRepository_get_by_user_id_Ok in Hget as Hok.
    destruct Hok as (-> & db & Hdb & Hp & _).
    split; [done|]. split; [by exists p|]. split; [|split; [|done]].
    + unfold bind. by rewrite Hget.
    + intros db1 db2 H1 H2. left. congruence.
  - apply ConsultantRepository_get_by_user_id_Ok in Hget as Hok.
    destruct Hok as (-> & db & Hdb & _).
    intros Hcreate.
    destruct (ConsultantRepository_create_or_update_profiles env (User.id current_user)
                (ConsultantProfileUpdate_experience 0) w db Hdb eq_refl eq_refl)
      as (db' & Hdb' & Hown & Hok).
    rewrite Hcreate in Hdb', Hok. cbn [fst snd] in Hdb', Hok.
    destruct (Hok r eq_refl) as (Hread & _ & p & -> & Hp).
    split; [done|]. split; [by exists p|]. split; [|split; [|done]].
    + unfold bind. by rewrite Hread.
    + intros db1 db2 H1 H2. congruence.
Qed.

Lemma create_or_update_keeps_one_profile_witness :
  db_handle sample_world = Some sample_db
  ∧ ConsultantProfileUpdate_experience 2 !! "consultant_id" = None
  ∧ ConsultantProfileUpdate_experience 2 !! "_id" = None
  ∧ NoDup (profile_owners sample_db)
  ∧ ∃ db', db_handle (ConsultantRepository_create_or_update (pd:=strict_pydantic)
                        sample_env carl_id
                        (ConsultantProfileUpdate_experience 2) sample_world).2
           = Some db'
           ∧ NoDup (profile_owners db').
Proof.
  assert (H1 : ConsultantProfileUpdate_experience 2 !! "consultant_id" = None)
    by reflexivity.
  assert (H2 : ConsultantProfileUpdate_experience 2 !! "_id" = None) by reflexivity.
  assert (Hnd : NoDup (profile_owners sample_db)).
  { change (profile_owners sample_db)
      with [VStr carl_id; VStr "not-an-id"; VStr gone_id].
    apply (bool_decide_unpack _). by vm_compute. }
  split; [reflexivity|]. split; [exact H1|]. split; [exact H2|]. split; [exact Hnd|].
  destruct (create_or_update_keeps_one_profile (pd:=strict_pydantic) sample_env carl_id
              (ConsultantProfileUpdate_experience 2) sample_world sample_db
              eq_refl H1 H2) as (db' & Hdb' & _ & Hkeep & _).
  exists db'. split; [exact Hdb'|exact (Hkeep Hnd)].
Defined.

Lemma get_my_profile_is_idempotent_witness :
  ∃ r w', get_my_profile (pd:=strict_pydantic) sample_env rita_c sample_world = (Ok r, w')
          ∧ get_my_profile (pd:=strict_pydantic) sample_env rita_c w' = (Ok r, w')
          ∧ w' ≠ sample_world.
Proof.
  destruct (get_my_profile (pd:=strict_pydantic) sample_env rita_c sample_world)
    as [[r|e] w'] eqn:Hg.
  2:{ assert (H : is_ok (get_my_profile (pd:=strict_pydantic) sample_env rita_c
                           sample_world).1 = true)
        by reflexivity.
      rewrite Hg in H. discriminate H. }
  exists r, w'. split; [reflexivity|].
  destruct (get_my_profile_is_idempotent (pd:=strict_pydantic) sample_env sample_env rita_c
              sample_world w' r Hg) as (_ & _ & Hagain & _).
  split; [exact Hagain|].
  intros Heq.
  assert (H : (length ∘ consultant_profiles <$>
                 db_handle (get_my_profile (pd:=strict_pydantic) sample_env rita_c sample_world).2)
              = Some 4%nat) by reflexivity.
  rewrite Hg in H. cbn [snd] in H. rewrite Heq in H. discriminate H.
Defined.

(** ** Role gates *)

(** X13: an admin passes every role gate of [core/auth.py], whatever
    role the gate asks for, but not the role checks that the consultant
    endpoints write out themselves: the own profile, its update and the
    statistics are refused to an admin with 403 and nothing is changed.
    For any caller a gate answers either that caller, unchanged, or
    403. *)
Theorem admin_passes_gates_not_profile_checks {pd : Pydantic} (current_user : User.t) :
  User.role current_user = ADMIN →
  (∀ gate, gate ∈ [require_role ADMIN; require_role RECRUITER; require_role CONSULTANT;
                   require_admin; require_recruiter_or_admin;
                   require_consultant_or_admin] →
           gate current_user = Ok current_user
           ∧ ∀ user, gate user = Ok user
                     ∨ ∃ detail, gate user = Raise (HTTPException 403 detail))
  ∧ (∀ (cs : CursorSort) env profile_data w,
       get_my_profile env current_user w
       = (Raise (HTTPException 403 "Only consultants have profiles"), w)
       ∧ update_my_profile env profile_data current_user w
         = (Raise (HTTPException 403 "Only consultants can update their profile"), w)
       ∧ get_application_stats env current_user w
         = (Raise (HTTPException 403 "Only consultants can view their statistics"), w)).
Proof.
  intros Hrole. split.
  - intros gate Hgate. rewrite !elem_of_cons, elem_of_nil in Hgate.
    destruct Hgate as [->|[->|[->|[->|[->|[->|[]]]]]]];
      unfold require_role, require_admin, require_recruiter_or_admin,
        require_consultant_or_admin;
      (split; [by rewrite Hrole|]);
      intros user; destruct (negb _ && negb _) || destruct (negb _); eauto.
  - intros cs env profile_data w.
    unfold get_my_profile, update_my_profile, get_application_stats.
    by rewrite Hrole.
Qed.

Lemma admin_passes_gates_not_profile_checks_witness :
  User.role ada = ADMIN
  ∧ require_role CONSULTANT ada = Ok ada
  ∧ get_my_profile (pd:=strict_pydantic) sample_env ada sample_world
    = (Raise (HTTPException 403 "Only consultants have profiles"), sample_world).
Proof.
  destruct (admin_passes_gates_not_profile_checks (pd:=strict_pydantic) ada eq_refl)
    as [Hgates Hchecks].
  split; [reflexivity|]. split.
  - apply (Hgates (require_role CONSULTANT)). do 2 right. left.
  - apply (Hchecks insertion_sort sample_env ∅ sample_world).
Defined.

(** ** Listing jobs *)

Lemma cursor_limit_length (n : nat) (c : collection) :
  n ≠ 0%nat → (length (cursor_limit n c) ≤ n)%nat.
Proof.
  intros Hn. unfold cursor_limit. apply Nat.eqb_neq in Hn as ->.
  rewrite length_take. lia.
Qed.

(** X17: [GET /jobs/] never returns more than a hundred jobs and changes
    nothing; the endpoint has no way to ask for the rest.  For a caller
    who is not a consultant a status that is given and not empty is a
    filter: every job returned has it.  An empty status is no filter. *)
Theorem get_jobs_is_bounded_and_filtered {pd : Pydantic} {pdl : PydanticLaws pd}
    (status : option string)
    (current_user : User.t) (w w' : World) (l : list JobDescription.t) :
  get_jobs status current_user w = (Ok l, w') →
  w' = w
  ∧ (length l ≤ 100)%nat
  ∧ (User.role current_user ≠ CONSULTANT →
     (∀ s, status = Some s → s ≠ "" → Forall (λ jd, JobDescription.status jd = s) l)
     ∧ (status = Some "" → get_jobs None current_user w = (Ok l, w)))
  ∧ ∃ db, db_handle w = Some db ∧ (length l ≤ length (job_descriptions db))%nat.
Proof.
  intros H.
  assert (Hall : ∃ st, JobRepository_get_all 0 100 st w = (Ok l, w')
                       ∧ (User.role current_user ≠ CONSULTANT → st = status)).
  { unfold get_jobs in H. case_bool_decide; eexists; (split; [exact H|done]). }
  destruct Hall as (st & Hall & Hst).
  pose proof (read_only_JobRepository_get_all 0 100 st w) as Hro.
  rewrite Hall in Hro. cbn [snd] in Hro. subst w'. split; [done|].
  unfold JobRepository_get_all, bind, get_database, lift in Hall.
  destruct (db_handle w) as [db|] eqn:Hdb; [|done].
  injection Hall as Hall.
  apply mapM_result_Forall2 in Hall as Hf.
  apply Forall2_length in Hf as Hlen.
  split.
  { rewrite <- Hlen. by apply cursor_limit_length. }
  split.
  - intros Hrole. specialize (Hst Hrole). subst st. split.
    + intros s -> Hs. apply String.eqb_neq in Hs. rewrite Hs in Hall. cbn [negb] in Hall.
      apply Forall_forall. intros jd Hjd.
      destruct (mapM_result_elem _ _ _ _ Hall Hjd) as (d & Hd & Hok).
      apply (cursor_subseteq 0 100) in Hd. unfold find in Hd.
      apply list_elem_of_In, filter_In in Hd as [_ Hm]. apply matches_lookup in Hm.
      by eapply job_of_stored_status.
    + intros ->. unfold get_jobs. rewrite bool_decide_eq_false_2 by done.
      unfold JobRepository_get_all, bind, get_database, lift. rewrite Hdb.
      cbn [String.eqb negb] in Hall. by rewrite <- Hall.
  - exists db. split; [done|]. rewrite <- Hlen.
    unfold cursor_limit, cursor_skip, find. cbn [Nat.eqb drop].
    rewrite length_take. etrans; [apply Nat.le_min_r|]. apply List.filter_length_le.
Qed.

Lemma get_jobs_is_bounded_and_filtered_witness :
  ∃ l, get_jobs (pd:=strict_pydantic) (Some "CLOSED") rita sample_world = (Ok l, sample_world)
       ∧ Forall (λ jd, JobDescription.status jd = "CLOSED") l.
Proof.
  destruct (get_jobs (pd:=strict_pydantic) (Some "CLOSED") rita sample_world) as [[l|e] w'] eqn:Hl.
  2:{ assert (H : is_ok (get_jobs (pd:=strict_pydantic) (Some "CLOSED") rita sample_world).1 = true)
        by reflexivity.
      rewrite Hl in H. discriminate H. }
  destruct (get_jobs_is_bounded_and_filtered (pd:=strict_pydantic) (Some "CLOSED") rita
              sample_world w' l Hl)
    as (-> & _ & Hfilter & _).
  exists l. split; [reflexivity|].
  destruct (Hfilter ltac:(discriminate)) as [Hall _].
  apply (Hall "CLOSED"); [reflexivity|discriminate].
Defined.

(** ** Tokens *)

Global Instance clear_jwt_laws : JWTLaws clear_jwt.
Proof.
  constructor. intros sub token now exp Henc _. simpl in *.
  rewrite lookup_insert_ne, lookup_singleton_eq in Henc by done.
  injection Henc as ->. eexists. split; [done|]. by rewrite lookup_singleton_eq.
Qed.

Global Instance at_sign_validator_normal : EmailValidatorNormal at_sign_validator.
Proof.
  constructor; intros s s'; simpl; destruct (existsb _ _) eqn:E; try done.
  intros [= <-]. by rewrite E.
Qed.

Section TokenProperties.
Context {ev : EmailValidator} {ev_laws : EmailValidatorLaws ev}.
Context {ev_normal : EmailValidatorNormal ev}.
Context {ctx : CryptContext} {st : Settings} {jwt : JWT} {jwt_laws : JWTLaws jwt}.

Lemma User_of_doc_email (d : doc) (u : User.t) :
  User_of_doc d = Ok u →
  ∃ e, req_str d "email" = Ok e ∧ validate_email e = Some (User.email u).
Proof.
  unfold User_of_doc, UserBase_fields. intros H.
  head_ok H. destruct a as [[[e n] r] a]. repeat head_ok H.
  injection H as <-. simpl.
  repeat first [ head_ok E
               | match type of E with
                 | (let (_, _) := ?x in _) = _ => destruct x
                 end ].
  injection E as -> _ _ _.
  match goal with
  | Hc : UserBase_check ?x _ _ = Ok _ |- _ =>
    exists x; split; [done|]; unfold UserBase_check in Hc;
    destruct (validate_email x) as [e'|]; [|done];
    destruct (negb _); [done|];
    destruct (UserRole_of_string _); [|done];
    by injection Hc as -> _ _
  end.
Qed.

(** The account found for an address has that address, in its normal
    form. *)
Lemma get_user_by_email_Some (email : string) (w : World) (user : User.t) :
  get_user_by_email email w = Some user →
  is_blank email = false ∧ validate_email email = Some (User.email user).
Proof.
  unfold get_user_by_email. destruct (is_blank email); [done|].
  destruct (db_handle w) as [db|]; [|done]. cbv zeta.
  set (found := match match find_one _ (recruiters db) with
                      | Some d => Some d | None => _ end with
                | Some d => Some d | None => _ end).
  assert (Hfound : ∀ d, found = Some d → d !! "email" = Some (VStr email)).
  { intros d. unfold found.
    destruct (find_one _ (recruiters db)) as [d1|] eqn:H1.
    { intros [= <-]. by apply find_one_matches in H1 as [?%matches_lookup _]. }
    destruct (find_one _ (consultants db)) as [d2|] eqn:H2.
    { intros [= <-]. by apply find_one_matches in H2 as [?%matches_lookup _]. }
    intros H3. by apply find_one_matches in H3 as [?%matches_lookup _]. }
  destruct found as [d|]; [|done]. specialize (Hfound d eq_refl).
  destruct (getitem d "_id") as [i|]; [|done].
  destruct (User_of_doc _) as [u|] eqn:Hu; [|done]. intros [= ->].
  split; [done|].
  apply User_of_doc_email in Hu as (e & He & Hv).
  autorewrite with fields in He. unfold req_str in He. rewrite Hfound in He.
  by injection He as <-.
Qed.

Lemma get_user_by_email_db (email : string) (w w1 : World) :
  db_handle w1 = db_handle w → get_user_by_email email w1 = get_user_by_email email w.
Proof. intros H. unfold get_user_by_email. by rewrite H. Qed.

(** A token made for an account's address is accepted until it
    expires, when the address is in normal form and names the account. *)
Lemma token_accepted (env env' : Env) (user : User.t) (token : string) (w : World) :
  create_access_token env {[ "sub" := VStr (User.email user) ]}
    (Some (timedelta_minutes ACCESS_TOKEN_EXPIRE_MINUTES)) = Ok token →
  (utcnow env' <= utcnow env + timedelta_minutes ACCESS_TOKEN_EXPIRE_MINUTES)%Z →
  get_user_by_email (User.email user) w = Some user →
  get_current_user env' token w = (Ok user, w).
Proof.
  intros Htok Hexp Hget.
  apply get_user_by_email_Some in Hget as Hmail. destruct Hmail as [Hblank Hmail].
  unfold create_access_token in Htok.
  destruct (jwt_encode _) as [[]|tok] eqn:Henc; [done|done|].
  injection Htok as ->.
  destruct (jwt_decode_encode (User.email user) token (utcnow env')
              (utcnow env + timedelta_minutes ACCESS_TOKEN_EXPIRE_MINUTES))
    as (payload & Hdec & Hsub); [by destruct (_ =? 0)%Z in Henc|done|].
  unfold get_current_user, dict_get. rewrite Hdec, Hsub. cbn [from_option id].
  rewrite bool_decide_eq_false_2 by done.
  unfold TokenData_email. rewrite Hblank.
  rewrite (validate_email_at _ _ Hmail). cbn [negb].
  by rewrite Hget.
Qed.

(** X14: a token that [login] issued identifies the account it was
    issued for.  Until it expires, [get_current_user] accepts it and
    returns that account, the one [authenticate_user] accepted, which is
    active and whose address is the one given at login in its normal
    form; a token that [refresh_token] makes for that account is
    accepted in turn.  Whatever the token, [get_current_user] changes
    nothing and fails only with 401 "Could not validate credentials". *)
Theorem issued_token_identifies_account (env env' : Env) (email : string)
    (password : pystr) (w w' : World) (token : string) :
  login_for_token env email password w = (Ok token, w') →
  (utcnow env' <= utcnow env + timedelta_minutes ACCESS_TOKEN_EXPIRE_MINUTES)%Z →
  (∃ user,
     get_current_user env' token w' = (Ok user, w')
     ∧ validate_email email = Some (User.email user)
     ∧ User.is_active user = true
     ∧ authenticate_user (User.email user) password w = (Ok (Some user), w')
     ∧ login email password w = (Ok (User.email user), w')
     ∧ ∀ env1 env2 token',
         refresh_token env1 user = Ok token' →
         (utcnow env2 <= utcnow env1 + timedelta_minutes ACCESS_TOKEN_EXPIRE_MINUTES)%Z →
         get_current_user env2 token' w' = (Ok user, w'))
  ∧ (∀ env0 token0 w0,
       (get_current_user env0 token0 w0).2 = w0
       ∧ ((∃ user, (get_current_user env0 token0 w0).1 = Ok user)
          ∨ (get_current_user env0 token0 w0).1 = Raise credentials_exception)).
Proof.
  intros Hlogin Hexp. split.
  - unfold login_for_token in Hlogin. unfold login.
    destruct (validate_email email) as [e|] eqn:He; [|done].
    destruct (validate_password_present password) as [p|] eqn:Hp; [|done].
    assert (p = password) as ->.
    { unfold validate_password_present in Hp. by destruct (_ || _); [|injection Hp]. }
    unfold catch, bind in Hlogin. unfold bind.
    destruct (authenticate_user e password w) as [[[user|]|x] w1] eqn:Hauth;
      [|by cbn in Hlogin|by destruct x].
    destruct (User.is_active user) eqn:Hactive; [|by cbn in Hlogin].
    cbn [negb] in Hlogin |- *. unfold lift in Hlogin.
    destruct (create_access_token env _ _) as [tok|x] eqn:Htok;
      [|by destruct x]. injection Hlogin as -> ->.
    assert (Hget : get_user_by_email e w = Some user ∧ db_handle w' = db_handle w).
    { unfold authenticate_user in Hauth.
      destruct (get_user_by_email e w) as [u|]; [|done].
      destruct (verify_password _ _) as [l ok]. destruct ok; [|done].
      by injection Hauth as -> <-. }
    destruct Hget as [Hget Hdb].
    apply get_user_by_email_Some in Hget as Hmail. destruct Hmail as [Hblank Hmail].
    rewrite (validate_email_idem email e He) in Hmail. injection Hmail as Hmail.
    subst e. rewrite <- (get_user_by_email_db _ w w' Hdb) in Hget.
    exists user. split; [by eapply token_accepted|]. do 4 (split; [done|]).
    intros env1 env2 token' Href Hexp'. unfold refresh_token in Href.
    destruct (create_access_token env1 _ _) as [tok|] eqn:Htok'; [|done].
    injection Href as ->. by eapply token_accepted.
  - intros env0 token0 w0. unfold get_current_user.
    destruct (jwt_decode _ _) as [payload|]; [|by split; [|right]].
    case_bool_decide; [by split; [|right]|].
    destruct (TokenData_email _) as [[e|]|]; try by split; [|right].
    destruct (get_user_by_email e w0) as [u|]; [|by split; [|right]].
    split; [done|left]. by exists u.
Qed.

End TokenProperties.

Lemma issued_token_identifies_account_witness :
  ∃ token w',
    login_for_token (ev:=at_sign_validator) (ctx:=plain_context) (st:=default_settings)
      (jwt:=clear_jwt) sample_env "carl@example.com" plain_password_text
      token_world = (Ok token, w')
    ∧ (utcnow sample_env
       <= utcnow sample_env
          + timedelta_minutes (ACCESS_TOKEN_EXPIRE_MINUTES (Settings:=default_settings)))%Z
    ∧ ∃ user, get_current_user (ev:=at_sign_validator) (jwt:=clear_jwt) sample_env
                token w' = (Ok user, w')
              ∧ User.is_active user = true.
Proof.
  destruct (login_for_token (ev:=at_sign_validator) (ctx:=plain_context)
              (st:=default_settings) (jwt:=clear_jwt) sample_env "carl@example.com"
              plain_password_text token_world) as [[token|e] w'] eqn:Hl.
  2:{ assert (H : is_ok (login_for_token (ev:=at_sign_validator) (ctx:=plain_context)
                          (st:=default_settings) (jwt:=clear_jwt) sample_env
                          "carl@example.com" plain_password_text token_world).1
                  = true) by (by vm_compute).
      rewrite Hl in H. discriminate H. }
  assert (Hexp : (utcnow sample_env
                  <= utcnow sample_env
                     + timedelta_minutes
                         (ACCESS_TOKEN_EXPIRE_MINUTES (Settings:=default_settings)))%Z)
    by (vm_compute; discriminate).
  exists token, w'. split; [reflexivity|]. split; [exact Hexp|].
  destruct (issued_token_identifies_account (ev:=at_sign_validator)
              (ctx:=plain_context) (st:=default_settings) (jwt:=clear_jwt)
              sample_env sample_env "carl@example.com" plain_password_text
              token_world w' token Hl Hexp) as [(user & Hget & _ & Hactive & _) _].
  exists user. split; [exact Hget|exact Hactive].
Defined.

(** ** Uploads *)

Lemma no_slash_list_app (l1 l2 : list ascii) :
  no_slash_list (l1 ++ l2) = no_slash_list l1 && no_slash_list l2.
Proof. unfold no_slash_list. by rewrite existsb_app, negb_orb. Qed.

Lemma no_slash_list_cons (c : ascii) (l : list ascii) :
  no_slash_list (c :: l) = negb (Ascii.eqb "/" c) && no_slash_list l.
Proof. unfold no_slash_list. cbn [existsb]. by rewrite negb_orb. Qed.

Lemma list_ascii_of_string_app (s1 s2 : string) :
  list_ascii_of_string (s1 +:+ s2) = list_ascii_of_string s1 ++ list_ascii_of_string s2.
Proof. induction s1 as [|c s1 IH]; simpl; [done|]. by rewrite IH. Qed.

Lemma no_slash_app (s1 s2 : string) :
  no_slash (s1 +:+ s2) = no_slash s1 && no_slash s2.
Proof.
  unfold no_slash. rewrite list_ascii_of_string_app. apply no_slash_list_app.
Qed.

Lemma last_component_no_slash (acc s : list ascii) :
  no_slash_list acc = true → no_slash_list (last_component acc s) = true.
Proof.
  revert acc. induction s as [|c s IH]; intros acc Hacc; simpl; [done|].
  destruct (Ascii.eqb c "/") eqn:Hc; [by apply IH|].
  apply IH. rewrite no_slash_list_app, Hacc, no_slash_list_cons.
  by rewrite Ascii.eqb_sym, Hc.
Qed.

Lemma drop_leading_dots_no_slash (l : list ascii) :
  no_slash_list l = true → no_slash_list (drop_leading_dots l) = true.
Proof.
  induction l as [|c l IH]; simpl; [done|]. intros H.
  destruct (Ascii.eqb c "."); [|done]. apply IH.
  rewrite no_slash_list_cons in H. by apply andb_true_iff in H as [_ H].
Qed.

Lemma ext_from_last_dot_no_slash (l e : list ascii) :
  no_slash_list l = true → ext_from_last_dot l = Some e → no_slash_list e = true.
Proof.
  revert e. induction l as [|c l IH]; intros e Hl; simpl; [done|].
  assert (Hl' : no_slash_list l = true).
  { rewrite no_slash_list_cons in Hl. by apply andb_true_iff in Hl as [_ Hl]. }
  destruct (ext_from_last_dot l) as [e'|]; [intros [= <-]; by apply IH|].
  destruct (Ascii.eqb c "."); [|done]. by intros [= <-].
Qed.

(** The extension [os.path.splitext] returns has no slash. *)
Lemma splitext_ext_no_slash (filename : string) :
  no_slash (splitext_ext filename) = true.
Proof.
  unfold splitext_ext, no_slash.
  destruct (ext_from_last_dot _) as [e|] eqn:He; [|done].
  rewrite list_ascii_of_string_of_list_ascii.
  eapply ext_from_last_dot_no_slash; [|exact He].
  apply drop_leading_dots_no_slash. by apply last_component_no_slash.
Qed.

(** Text that [bytes.fromhex] reads has no slash: it is made of digits
    and white space. *)
Lemma fromhex_no_slash (s : string) :
  is_Some (fromhex s) → no_slash s = true.
Proof.
  unfold no_slash.
  assert (H : ∀ n s, (String.length s ≤ n)%nat → is_Some (fromhex s) →
                     no_slash_list (list_ascii_of_string s) = true).
  { clear s. induction n as [|n IH]; intros [|c s] Hlen; try done.
    - simpl in Hlen. lia.
    - cbn [fromhex list_ascii_of_string]. cbn [String.length] in Hlen.
      rewrite no_slash_list_cons.
      destruct (is_ascii_space c) eqn:Hsp.
      + intros Hs. rewrite (IH s) by (done || lia). rewrite andb_true_r.
        destruct (Ascii.eqb "/" c) eqn:E; [|done].
        apply Ascii.eqb_eq in E as <-. by vm_compute in Hsp.
      + destruct s as [|c' s]; [by intros []|].
        destruct (is_hex_digit c) eqn:Hc; [|by intros []].
        destruct (is_hex_digit c') eqn:Hc'; [|by intros []].
        cbn [andb list_ascii_of_string]. cbn [String.length] in Hlen.
        intros Hs. rewrite no_slash_list_cons, (IH s); [|lia|].
        2:{ destruct (fromhex s); [done|]. by destruct Hs. }
        destruct (Ascii.eqb "/" c) eqn:E.
        { apply Ascii.eqb_eq in E as <-. by vm_compute in Hc. }
        destruct (Ascii.eqb "/" c') eqn:E'; [|done].
        apply Ascii.eqb_eq in E' as <-. by vm_compute in Hc'. }
  by apply (H (String.length s)).
Qed.

Lemma ObjectId_no_slash (s oid : string) :
  ObjectId (VStr s) = Ok oid → no_slash s = true.
Proof.
  cbn [ObjectId]. destruct (_ =? _)%nat; [|done].
  destruct (fromhex s) eqn:H; [|done]. intros _.
  apply fromhex_no_slash. by rewrite H.
Qed.

Lemma Submission_of_doc_resume_path (d : doc) (s : Submission.t) :
  Submission_of_doc d = Ok s →
  req_str d "resume_path" = Ok (Submission.resume_path s).
Proof.
  unfold Submission_of_doc. intros H. repeat head_ok H. by injection H as <-.
Qed.

(** Storing a submission touches neither files nor log, and the
    submission returned has the given path. *)
Lemma SubmissionRepository_create_world (env : Env) (jd_id : string)
    (comments : option string) (consultant_id : string) (recruiter_id : pyval)
    (resume_path : string) (w : World) :
  let r := SubmissionRepository_create env jd_id comments consultant_id recruiter_id
             resume_path w in
  files r.2 = files w ∧ log r.2 = log w
  ∧ ∀ s, r.1 = Ok s → Submission.resume_path s = resume_path.
Proof.
  unfold SubmissionRepository_create, bind, get_database, lift.
  destruct (db_handle w) as [db|]; [|done].
  set (d0 := <["updated_at" := _]> _).
  assert (Hd0 : d0 !! "resume_path" = Some (VStr resume_path)).
  { unfold d0. by rewrite !lookup_insert_ne, lookup_insert_eq by done. }
  assert (Hid : d0 !! "_id" = None).
  { unfold d0. rewrite !lookup_insert_ne by done. simpl.
    by rewrite !lookup_insert_ne, lookup_empty by done. }
  destruct (insert_one (new_oid env) d0 (submissions db)) as [[[c d] i]|] eqn:Hins;
    [|done].
  apply insert_one_Ok in Hins as (_ & -> & _); [|done].
  unfold put_database. cbn [fst snd files log].
  destruct (Submission_of_doc _) as [s|] eqn:Hs; [|done].
  split; [done|]. split; [done|]. intros s' [= <-].
  apply Submission_of_doc_resume_path, req_str_lookup in Hs.
  rewrite !lookup_insert_ne in Hs by done. rewrite Hd0 in Hs. by injection Hs.
Qed.

Local Ltac unchanged :=
  intros <-; unfold raise, ret; cbn [fst snd];
  (split; [done|split; [by left|done]]).

(** X15: whatever the request, [create_submission] writes at most one
    file, with the uploaded content and directly inside [uploads/],
    when the caller's id and the random part have no slash: the name
    the client gave the upload contributes its extension at most, and
    the job id reaches the path only when [ObjectId] takes it, so it has
    no slash either.
    The file stays when storing the submission fails afterwards.  A
    submission that is returned names that file. *)
Theorem upload_stays_inside_upload_dir {pd : Pydantic} (env : Env) (jd_id : string)
    (comments : option string) (resume : UploadFile) (current_user : User.t)
    (w : World) :
  no_slash (User.id current_user) = true →
  no_slash (urandom_hex env) = true →
  let r := create_submission env jd_id comments resume current_user w in
  let path := resume_file_path env (User.id current_user) jd_id resume in
  log r.2 = log w
  ∧ (files r.2 = files w
     ∨ (files r.2 = <[path := file resume]> (files w)
        ∧ disk_ok env = true
        ∧ ∃ name, path = UPLOAD_DIR +:+ "/" +:+ name ∧ no_slash name = true))
  ∧ (∀ s, r.1 = Ok s →
          Submission.resume_path s = path
          ∧ files r.2 !! path = Some (file resume)).
Proof.
  intros Hid Hrand r path.
  assert (Hr : create_submission env jd_id comments resume current_user w = r) by done.
  clearbody r. revert Hr. unfold create_submission.
  unfold bind at 1, lift.
  destruct (require_role CONSULTANT current_user) as [u|] eqn:Hgate; [|unchanged].
  assert (u = current_user) as ->.
  { unfold require_role in Hgate. destruct (_ && _); [done|]. by injection Hgate. }
  unfold bind at 1.
  pose proof (read_only_JobRepository_get_by_id jd_id w) as Hro.
  destruct (JobRepository_get_by_id jd_id w) as [[[jd|]|e] w0] eqn:Hjd;
    simpl in Hro; subst w0; [|unchanged|unchanged].
  assert (Hjd_id : no_slash jd_id = true).
  { unfold JobRepository_get_by_id, bind, get_database, lift in Hjd.
    destruct (db_handle w); [|done].
    destruct (ObjectId (VStr jd_id)) as [oid|] eqn:Hoid; [|done].
    by apply ObjectId_no_slash in Hoid. }
  destruct (negb (String.eqb _ _)); [unchanged|].
  unfold bind at 1.
  destruct (ensure_profile_same env (User.id current_user) w)
    as (w1 & Hw1 & Hfiles & Hlog & _).
  rewrite Hw1.
  unfold catch, bind at 1, write_file.
  fold (resume_file_path env (User.id current_user) jd_id resume). fold path.
  destruct (disk_ok env).
  2:{ intros <-. unfold raise. cbn [fst snd]. split; [done|split; [by left|done]]. }
  match goal with
  | |- context [SubmissionRepository_create ?e ?j ?c ?u ?rid ?p ?w2] =>
    pose proof (SubmissionRepository_create_world e j c u rid p w2) as Hc;
    destruct (SubmissionRepository_create e j c u rid p w2) as [[s|x] w3]
  end; cbn [fst snd files log] in Hc; destruct Hc as (Hf & Hl & Hs);
    intros <-; unfold raise; cbn [fst snd].
  all: split; [congruence|]; rewrite Hf, Hfiles.
  all: split;
    [right; split; [done|]; split; [done|]; eexists; split; [done|];
     by rewrite !no_slash_app, Hid, Hjd_id, Hrand, splitext_ext_no_slash|].
  - intros s' [= <-]. split; [by apply Hs|]. by rewrite lookup_insert_eq.
  - done.
Qed.

Lemma upload_stays_inside_upload_dir_witness :
  no_slash (User.id carl) = true
  ∧ no_slash (urandom_hex sample_env) = true
  ∧ log (create_submission (pd:=strict_pydantic) sample_env open_job_id None resume_upload carl
           sample_world).2 = log sample_world.
Proof.
  assert (H1 : no_slash (User.id carl) = true) by reflexivity.
  assert (H2 : no_slash (urandom_hex sample_env) = true) by reflexivity.
  split; [exact H1|]. split; [exact H2|].
  exact (proj1 (upload_stays_inside_upload_dir (pd:=strict_pydantic) sample_env open_job_id None
                  resume_upload carl sample_world H1 H2)).
Defined.

(** ** The origins allowed by CORS *)

Lemma string_forallb_list (f : ascii → bool) (s : string) :
  string_forallb f s = forallb f (list_ascii_of_string s).
Proof. induction s as [|c s IH]; simpl; [done|]. by rewrite IH. Qed.

Lemma string_forallb_app (f : ascii → bool) (s1 s2 : string) :
  string_forallb f (s1 +:+ s2) = string_forallb f s1 && string_forallb f s2.
Proof. induction s1 as [|c s1 IH]; simpl; [done|]. by rewrite IH, andb_assoc. Qed.

Lemma blank_comma_free (s : string) : is_blank s = true → comma_free s = true.
Proof.
  intros Hs. unfold comma_free. rewrite string_forallb_list.
  assert (H : existsb (λ c, Ascii.eqb c ",") (list_ascii_of_string s) = false).
  { apply is_blank_bytes; [|done]. repeat constructor. }
  induction (list_ascii_of_string s) as [|c l IH]; [done|].
  cbn [existsb forallb] in *. apply orb_false_iff in H as [-> Hl]. by apply IH.
Qed.

Lemma py_split_nonempty (sep : ascii) (s : string) : py_split sep s ≠ [].
Proof.
  induction s as [|c s IH]; simpl; [done|].
  destruct (Ascii.eqb c sep); [done|]. by destruct (py_split sep s).
Qed.

Lemma py_split_comma_free (s : string) :
  comma_free s = true → py_split "," s = [s].
Proof.
  unfold comma_free. induction s as [|c s IH]; simpl; [done|].
  intros [Hc Hs]%andb_true_iff. apply negb_true_iff in Hc. by rewrite Hc, (IH Hs).
Qed.

Lemma py_split_app_sep (p rest : string) :
  comma_free p = true →
  py_split "," (p +:+ "," +:+ rest) = p :: py_split "," rest.
Proof.
  unfold comma_free. induction p as [|c p IH]; simpl; [done|].
  intros [Hc Hs]%andb_true_iff. apply negb_true_iff in Hc. by rewrite Hc, (IH Hs).
Qed.

(** Splitting what was joined gives the pieces back. *)
Lemma py_split_concat (ps : list string) :
  ps ≠ [] → Forall (λ p, comma_free p = true) ps →
  py_split "," (String.concat "," ps) = ps.
Proof.
  induction ps as [|p ps IH]; [done|]. intros _ Hps.
  apply Forall_cons in Hps as [Hp Hps].
  destruct ps as [|q ps]; [by apply py_split_comma_free|].
  change (String.concat "," (p :: q :: ps))
    with (p +:+ "," +:+ String.concat "," (q :: ps)).
  rewrite py_split_app_sep by done. by rewrite IH.
Qed.

Lemma forallb_rev_eq {A} (f : A → bool) (l : list A) :
  forallb f (rev l) = forallb f l.
Proof.
  induction l as [|c l IH]; simpl; [done|].
  rewrite forallb_app, IH. simpl. by rewrite andb_true_r, andb_comm.
Qed.

Lemma head_rev {A} (l : list A) : head (rev l) = last l.
Proof.
  induction l as [|c l _] using rev_ind; [done|].
  by rewrite rev_app_distr, last_snoc.
Qed.

Lemma starts_char_app (s1 s2 : string) :
  starts_char s1 = true → starts_char s2 = true → starts_char (s1 +:+ s2) = true.
Proof. by destruct s1. Qed.

(** Stripping an entry gives the origin between the white space. *)
Lemma strip_padded (pre o post : string) :
  is_blank pre = true → is_blank post = true → trimmed o →
  strip (pre +:+ o +:+ post) = o.
Proof.
  intros Hpre Hpost [Hstart Ho]. unfold strip.
  pose proof (is_blank_starts_char post Hpost) as Hpost'.
  rewrite (chars_app pre) by (by apply starts_char_app).
  rewrite (chars_app o) by done.
  unfold is_blank in Hpre, Hpost.
  rewrite drop_spaces_app by done.
  transitivity (join_chars (chars o)); [f_equal|apply join_chars_chars].
  destruct (chars o) as [|ch rest] eqn:Hchars.
  - cbn [app]. by rewrite (drop_spaces_blank _ Hpost).
  - rewrite (drop_spaces_head ((ch :: rest) ++ chars post) ch)
      by (done || (apply Ho; by left)).
    rewrite rev_app_distr, drop_spaces_app by (by rewrite forallb_rev_eq).
    destruct (last (ch :: rest)) as [ch'|] eqn:Hlast;
      [|by apply last_None in Hlast].
    rewrite (drop_spaces_head (rev (ch :: rest)) ch'), rev_involutive;
      [done|by rewrite head_rev|].
    apply Ho. by right.
Qed.

Lemma get_cors_origins_eq (CORS_ORIGINS_ENV : string) :
  get_cors_origins CORS_ORIGINS_ENV
  = DEFAULT_CORS_ORIGINS
    ++ omap (λ origin, if negb (String.eqb (strip origin) "")
                       then Some (strip origin) else None)
         (py_split "," CORS_ORIGINS_ENV).
Proof.
  unfold get_cors_origins. destruct (String.eqb_spec CORS_ORIGINS_ENV "") as [->|]; done.
Qed.

(** X16: the origins start with the five defaults, whatever the
    variable holds, and no origin added from it is empty.  When the
    variable is a list of origins separated by commas, each without a
    comma and possibly empty or between white space, the origins added
    are those of the list that are not empty, in order. *)
Theorem cors_origins_of_comma_list (items : list (string * string * string)) :
  Forall (λ item, is_blank item.1.1 = true ∧ is_blank item.2 = true
                  ∧ trimmed item.1.2 ∧ comma_free item.1.2 = true) items →
  get_cors_origins (String.concat "," (padded <$> items))
  = DEFAULT_CORS_ORIGINS
    ++ List.filter (λ o, negb (String.eqb o "")) ((λ item, item.1.2) <$> items)
  ∧ (∀ env, DEFAULT_CORS_ORIGINS `prefix_of` get_cors_origins env
            ∧ ∀ o, o ∈ drop 5 (get_cors_origins env) → o ≠ "").
Proof.
  intros Hitems. split.
  - rewrite get_cors_origins_eq. f_equal.
    destruct (decide (items = [])) as [->|Hne]; [done|].
    rewrite py_split_concat.
    + induction Hitems as [|[[pre o] post] items (Hpre & Hpost & Ho & _) _ IH]; [done|].
      destruct (decide (items = [])) as [->|Hne'].
      * cbn [fmap list_fmap omap list_omap padded List.filter fst snd].
        rewrite strip_padded by done. by destruct (negb _).
      * cbn [fmap list_fmap omap list_omap padded List.filter fst snd] in *.
        rewrite strip_padded by done. rewrite (IH Hne'). by destruct (negb _).
    + by destruct items.
    + apply Forall_fmap. eapply Forall_impl; [exact Hitems|].
      intros [[pre o] post] (Hpre & Hpost & _ & Ho). simpl in *.
      apply blank_comma_free in Hpre, Hpost. unfold comma_free in *.
      by rewrite !string_forallb_app, Ho, Hpre, Hpost.
  - intros env. rewrite get_cors_origins_eq. split; [by eexists|].
    change (drop 5 (DEFAULT_CORS_ORIGINS ++ ?l)) with l.
    intros o (p & _ & Hp)%list_elem_of_omap.
    destruct (String.eqb_spec (strip p) ""); [done|]. simpl in Hp. by injection Hp as <-.
Qed.

Lemma cors_origins_of_comma_list_witness :
  get_cors_origins "https://a.example, https://b.example ,,"
  = DEFAULT_CORS_ORIGINS ++ ["https://a.example"; "https://b.example"].
Proof.
  assert (H : Forall (λ item : string * string * string,
                        is_blank item.1.1 = true ∧ is_blank item.2 = true
                        ∧ trimmed item.1.2 ∧ comma_free item.1.2 = true)
                [("", "https://a.example", ""); (" ", "https://b.example", " ");
                 ("", "", ""); ("", "", "")]).
  { repeat constructor;
      intros ch [Hch|Hch]; vm_compute in Hch; by (discriminate || injection Hch as <-). }
  exact (proj1 (cors_origins_of_comma_list _ H)).
Defined.

(** ** Deactivation *)

Lemma update_one_none (q : list (string * pyval)) (upd : doc) (c : collection) :
  find_one q c = None → update_one q upd c = c.
Proof.
  unfold find_one. induction c as [|x c IH]; cbn [List.find update_one]; [done|].
  destruct (matches q x); [done|]. intros H. by rewrite IH.
Qed.

Lemma matches_union_other (k : string) (v : pyval) (upd d : doc) :
  upd !! k = None → matches [(k, v)] (upd ∪ d) = matches [(k, v)] d.
Proof. intros H. by rewrite !matches_single, lookup_union_r. Qed.

(** An update leaves the search by another key as it is when the
    document it changes is not the one searched. *)
Lemma find_one_other_kept (q : list (string * pyval)) (upd : doc) (c : collection)
    (k : string) (v : pyval) :
  upd !! k = None →
  (∀ d, find_one q c = Some d → d !! k ≠ Some v) →
  find_one [(k, v)] (update_one q upd c) = find_one [(k, v)] c.
Proof.
  intros Hk. unfold find_one.
  induction c as [|x c IH]; cbn [List.find update_one]; [done|].
  destruct (matches q x) eqn:Hx; intros Hd.
  - cbn [List.find]. rewrite matches_union_other by done.
    rewrite matches_single, bool_decide_eq_false_2; [done|]. by apply Hd.
  - cbn [List.find]. destruct (matches [(k, v)] x); [done|]. by apply IH.
Qed.

(** With one document per value of the key, the search finds the
    changed document. *)
Lemma find_one_other_updated (q : list (string * pyval)) (upd : doc) (c : collection)
    (k : string) (v : pyval) (d : doc) :
  upd !! k = None →
  NoDup (omap (λ d : doc, d !! k) c) →
  find_one q c = Some d → d !! k = Some v →
  find_one [(k, v)] c = Some d
  ∧ find_one [(k, v)] (update_one q upd c) = Some (upd ∪ d).
Proof.
  intros Hk. unfold find_one.
  induction c as [|x c IH]; cbn [List.find update_one]; [done|].
  intros Hnd Hd Hv. destruct (matches q x) eqn:Hx.
  - injection Hd as ->. cbn [List.find]. rewrite matches_union_other by done.
    by rewrite matches_single, bool_decide_eq_true_2.
  - cbn [List.find]. destruct (matches [(k, v)] x) eqn:Hxv.
    + exfalso. apply matches_lookup in Hxv.
      cbn [omap list_omap] in Hnd. rewrite Hxv in Hnd.
      apply NoDup_cons in Hnd as [Hnotin _]. apply Hnotin.
      apply list_elem_of_omap. exists d. split; [|done].
      apply list_elem_of_In. by apply (find_some _ _ Hd).
    + apply IH; [|done|done].
      cbn [omap list_omap] in Hnd. destruct (x !! k); [|done].
      by apply NoDup_cons in Hnd as [_ ?].
Qed.

Lemma find_one_not_in (k : string) (v : pyval) (c : collection) :
  v ∉ omap (λ d : doc, d !! k) c → find_one [(k, v)] c = None.
Proof.
  intros Hv. destruct (find_one [(k, v)] c) as [d|] eqn:Hd; [|done].
  exfalso. apply Hv. apply find_one_Some_omap. by rewrite Hd.
Qed.

(** The three account collections as one list around the collection of
    a role. *)
Lemma accounts_split (role : UserRole) (db : Database) :
  ∃ l1 l2,
    recruiters db ++ consultants db ++ admins db = l1 ++ role_collection role db ++ l2
    ∧ ∀ c, let db' := set_role_collection role db c in
           recruiters db' ++ consultants db' ++ admins db' = l1 ++ c ++ l2.
Proof.
  destruct role; simpl.
  - exists (recruiters db ++ consultants db), [].
    split; [|intros c]; by rewrite app_nil_r, <- !app_assoc.
  - by exists [], (consultants db ++ admins db).
  - by exists (recruiters db), (admins db).
Qed.

Lemma first_account_doc_find_one (email : string) (db : Database) :
  first_account_doc email db
  = find_one [("email", VStr email)] (recruiters db ++ consultants db ++ admins db).
Proof. unfold first_account_doc. by rewrite head_filter_find. Qed.

(** The document found for an address after the account with a given id
    was updated in its collection, with one account per address. *)
Lemma first_account_doc_updated (role : UserRole) (db : Database)
    (q : list (string * pyval)) (upd d : doc) (email : string) :
  upd !! "email" = None →
  NoDup (account_emails db) →
  find_one q (role_collection role db) = Some d →
  d !! "email" = Some (VStr email) →
  let db' := set_role_collection role db (update_one q upd (role_collection role db)) in
  first_account_doc email db = Some d
  ∧ first_account_doc email db' = Some (upd ∪ d)
  ∧ ∀ e, e ≠ email → first_account_doc e db' = first_account_doc e db.
Proof.
  intros Hupd Hnd Hd Hemail db'. unfold account_emails in Hnd.
  destruct (accounts_split role db) as (l1 & l2 & Hsplit & Hsplit').
  specialize (Hsplit' (update_one q upd (role_collection role db))). cbv zeta in Hsplit'.
  fold db' in Hsplit'.
  rewrite !first_account_doc_find_one. setoid_rewrite first_account_doc_find_one.
  rewrite Hsplit', Hsplit in *. clear Hsplit Hsplit'.
  rewrite !omap_app in Hnd.
  apply NoDup_app in Hnd as (_ & Hdisj & Hnd). apply NoDup_app in Hnd as (Hnd & _ & _).
  assert (Hin : VStr email ∈ omap (λ d : doc, d !! "email") (role_collection role db)).
  { apply list_elem_of_omap. exists d. split; [|done].
    by apply find_one_matches in Hd as [_ ?]. }
  assert (Hl1 : find_one [("email", VStr email)] l1 = None).
  { apply find_one_not_in. intros H1. apply (Hdisj _ H1). apply elem_of_app. by left. }
  destruct (find_one_other_updated q upd _ "email" (VStr email) d Hupd Hnd Hd Hemail)
    as [Hbefore Hafter].
  rewrite !find_one_app, Hl1, Hbefore, Hafter. split; [done|]. split; [done|].
  intros e He. rewrite !find_one_app.
  rewrite (find_one_other_kept q upd _ "email" (VStr e)); [done|done|].
  intros d' Hd'. rewrite Hd in Hd'. injection Hd' as <-. rewrite Hemail. congruence.
Qed.

Section DeactivationProperties.
Context {ev : EmailValidator} {ctx : CryptContext}.

Lemma get_user_by_email_first (email : string) (w : World) (db : Database) :
  db_handle w = Some db → is_blank email = false →
  get_user_by_email email w
  = match first_account_doc email db with
    | Some d => match stored_account d with Ok u => Some u | Raise _ => None end
    | None => None
    end.
Proof.
  intros Hdb Hblank. unfold get_user_by_email. rewrite Hdb, Hblank.
  rewrite first_account_doc_order. unfold stored_account.
  destruct (find_one _ (recruiters db)) as [d|];
    [|destruct (find_one _ (consultants db)) as [d|];
      [|destruct (find_one _ (admins db)) as [d|]; [|done]]];
    by destruct (getitem d "_id").
Qed.

(** The account of a document whose [is_active] and [updated_at] were
    set. *)
Lemma stored_account_set_active (d : doc) (user : User.t) (active : bool) (now : Z) :
  stored_account d = Ok user →
  stored_account
    (list_to_map [("is_active", VBool active); ("updated_at", VDate now)] ∪ d)
  = Ok (with_is_active active now user).
Proof.
  set (upd := list_to_map _).
  assert (Hother : ∀ k v, k ≠ "is_active" → k ≠ "updated_at" →
            (<["id" := v]> (upd ∪ d)) !! k = (<["id" := v]> d) !! k).
  { intros k v H1 H2. destruct (decide (k = "id")) as [->|Hid].
    - by rewrite !lookup_insert_eq.
    - rewrite !lookup_insert_ne by done. apply lookup_union_r. unfold upd. simpl.
      by rewrite !lookup_insert_ne, lookup_empty. }
  assert (Hactive : ∀ v, (<["id" := v]> (upd ∪ d)) !! "is_active" = Some (VBool active)).
  { intros v. rewrite lookup_insert_ne by done. by apply lookup_union_Some_l. }
  assert (Hdate : ∀ v, (<["id" := v]> (upd ∪ d)) !! "updated_at" = Some (VDate now)).
  { intros v. rewrite lookup_insert_ne by done. by apply lookup_union_Some_l. }
  unfold stored_account, getitem.
  rewrite (lookup_union_r upd d "_id") by done.
  destruct (d !! "_id") as [i|]; [|done]. cbn [fst snd].
  set (D := <["id" := VStr (py_str i)]> d).
  set (D' := <["id" := VStr (py_str i)]> (upd ∪ d)).
  assert (Es : ∀ k, k ≠ "is_active" → k ≠ "updated_at" → req_str D' k = req_str D k).
  { intros k H1 H2. unfold req_str, D', D. by rewrite Hother. }
  assert (Ec : req_date D' "created_at" = req_date D "created_at").
  { unfold req_date, D', D. by rewrite Hother. }
  assert (Ea : bool_or D' "is_active" true = Ok active).
  { unfold bool_or, D'. by rewrite Hactive. }
  assert (Eu : req_date D' "updated_at" = Ok now).
  { unfold req_date, D'. by rewrite Hdate. }
  unfold User_of_doc, UserBase_fields. rewrite !Es, Ec, Ea, Eu by done.
  destruct (req_str D "email") as [e|]; [|done].
  destruct (req_str D "name") as [n|]; [|done].
  destruct (req_str D "role") as [r|]; [|done]. cbv beta iota.
  destruct (UserBase_check e n r) as [[[e' n'] r']|]; [|done].
  destruct (bool_or D "is_active" true) as [a|]; [|done].
  destruct (req_str D "id") as [i'|]; [|done]. cbv beta iota.
  destruct (is_blank i'); [done|].
  destruct (req_date D "created_at") as [c|]; [|done].
  destruct (req_date D "updated_at") as [u|]; [|done].
  destruct (req_str D "hashed_password") as [h|]; [|done].
  by intros [= <-].
Qed.

Lemma account_emails_updated (role : UserRole) (db : Database)
    (q : list (string * pyval)) (upd : doc) :
  upd !! "email" = None →
  account_emails
    (set_role_collection role db (update_one q upd (role_collection role db)))
  = account_emails db.
Proof.
  intros Hupd. unfold account_emails.
  destruct (accounts_split role db) as (l1 & l2 & Hsplit & Hsplit').
  rewrite Hsplit', Hsplit, !omap_app. f_equal. f_equal.
  apply omap_lookup_map. by apply update_one_keeps_key.
Qed.

Lemma role_collection_updated (role : UserRole) (db : Database) (c : collection) :
  role_collection role (set_role_collection role db c) = c.
Proof. by destruct role. Qed.

(** What setting [is_active] does to the account with the given id,
    with one account per address. *)
Lemma set_is_active_effect (verb : string) (active : bool) (env : Env) (role : UserRole)
    (user_id oid email : string) (d : doc) (user : User.t) (w : World) (db : Database) :
  db_handle w = Some db →
  NoDup (account_emails db) →
  ObjectId (VStr user_id) = Ok oid →
  find_one [("_id", VOid oid)] (role_collection role db) = Some d →
  d !! "email" = Some (VStr email) →
  get_user_by_email email w = Some user →
  ∃ (db1 : Database) (d1 : doc) (modified : bool),
    let w1 := {| db_handle := Some db1; files := files w; log := log w |} in
    set_is_active verb active env role user_id w = (Ok modified, w1)
    ∧ (User.is_active user ≠ active → modified = true)
    ∧ NoDup (account_emails db1)
    ∧ find_one [("_id", VOid oid)] (role_collection role db1) = Some d1
    ∧ d1 !! "email" = Some (VStr email)
    ∧ get_user_by_email email w1 = Some (with_is_active active (utcnow env) user)
    ∧ (∀ e, e ≠ email → get_user_by_email e w1 = get_user_by_email e w)
    ∧ job_descriptions db1 = job_descriptions db
    ∧ submissions db1 = submissions db
    ∧ consultant_profiles db1 = consultant_profiles db.
Proof.
  intros Hdb Hnd Hoid Hd Hemail Hget.
  set (upd := list_to_map [("is_active", VBool active); ("updated_at", VDate (utcnow env))]
              : doc).
  set (q := [("_id", VOid oid)]) in *.
  assert (Hupd : upd !! "email" = None) by done.
  assert (Hupd_id : upd !! "_id" = None) by done.
  pose proof (first_account_doc_updated role db q upd d email Hupd Hnd Hd Hemail)
    as (Hfirst & Hfirst' & Hothers).
  assert (Hblank : is_blank email = false).
  { unfold get_user_by_email in Hget. by destruct (is_blank email). }
  assert (Huser : stored_account d = Ok user).
  { rewrite (get_user_by_email_first email w db Hdb Hblank), Hfirst in Hget.
    destruct (stored_account d); by simplify_eq. }
  pose proof (stored_account_set_active d user active (utcnow env) Huser) as Huser'.
  fold upd in Huser'.
  set (db0 := set_role_collection role db (update_one q upd (role_collection role db)))
    in *.
  set (modified := negb (bool_decide (upd ∪ d = d))).
  set (db1 := if modified then set_users db0 (update_one q upd (users db0)) else db0).
  assert (Hacc : ∀ e, first_account_doc e db1 = first_account_doc e db0).
  { intros e. unfold db1. by destruct modified. }
  assert (Hrole : role_collection role db1 = update_one q upd (role_collection role db)).
  { unfold db1. destruct modified; [|apply role_collection_updated].
    set (c := update_one q upd (role_collection role db)). by destruct role. }
  exists db1, (upd ∪ d), modified. cbv zeta.
  split; [|split; [|split; [|split; [|split; [|split; [|split]]]]]].
  - unfold set_is_active, catch, bind, lift, get_database, put_database, ret.
    rewrite Hoid. cbn [db_handle fst snd]. rewrite Hdb. cbn [fst snd].
    fold upd q db0. unfold modified_count. rewrite Hd.
    assert (Hm : (0 <? (if bool_decide (upd ∪ d = d) then 0 else 1))%nat = modified).
    { unfold modified. by destruct (bool_decide _). }
    rewrite Hm. by fold db1.
  - intros Hne. unfold modified. rewrite bool_decide_eq_false_2; [done|].
    intros Heq. rewrite Heq, Huser in Huser'. injection Huser' as Hu.
    apply Hne. by rewrite Hu.
  - assert (account_emails db1 = account_emails db0) as ->.
    { unfold db1. by destruct modified. }
    unfold db0. by rewrite account_emails_updated.
  - rewrite Hrole. by apply (find_one_update_one_some q upd _ d "_id" (VOid oid)).
  - by rewrite lookup_union_r.
  - rewrite (get_user_by_email_first email _ db1); [|done|done].
    by rewrite Hacc, Hfirst', Huser'.
  - intros e He. destruct (is_blank e) eqn:Hbe.
    + unfold get_user_by_email. by rewrite Hbe.
    + rewrite (get_user_by_email_first e _ db1); [|done|done].
      rewrite Hacc, (Hothers e He).
      by rewrite (get_user_by_email_first e w db Hdb Hbe).
  - unfold db1. destruct modified; by destruct role.
Qed.

Context {jwt : JWT}.

(** X18: deactivating an account closes [login] for it and nothing
    else.  With one account per address, for the account with the given
    id, found by an address in normal form: [deactivate] succeeds, and
    reports a change when the account was active; the account then
    reads as before but for [is_active] and [updated_at]; every other
    address finds what it found; no password logs in any more, the
    right one being answered 401 "User account is deactivated"; a token
    that [get_current_user] accepted is still accepted, for the same
    account; and [activate] undoes it: the right password logs in
    again. *)
Theorem deactivated_account_cannot_log_in (env env2 : Env) (role : UserRole)
    (user_id oid email : string) (d : doc) (user : User.t) (w : World) (db : Database) :
  db_handle w = Some db →
  NoDup (account_emails db) →
  ObjectId (VStr user_id) = Ok oid →
  find_one [("_id", VOid oid)] (role_collection role db) = Some d →
  d !! "email" = Some (VStr email) →
  validate_email email = Some email →
  get_user_by_email email w = Some user →
  ∃ w1 modified,
    UserRepository_deactivate env role user_id w = (Ok modified, w1)
    ∧ (User.is_active user = true → modified = true)
    ∧ files w1 = files w ∧ log w1 = log w
    ∧ get_user_by_email email w1 = Some (with_is_active false (utcnow env) user)
    ∧ (∀ e, e ≠ email → get_user_by_email e w1 = get_user_by_email e w)
    ∧ (∀ password s, (login email password w1).1 ≠ Ok s)
    ∧ (∀ password,
         validate_password_present password = Ok password →
         (verify_password password (User.hashed_password user)).2 = true →
         (login email password w1).1
         = Raise (HTTPException 401 "User account is deactivated"))
    ∧ (∀ env' token u,
         get_current_user env' token w = (Ok u, w) →
         ∃ u', get_current_user env' token w1 = (Ok u', w1)
               ∧ User.id u' = User.id u ∧ User.email u' = User.email u)
    ∧ ∃ w2 modified2,
        UserRepository_activate env2 role user_id w1 = (Ok modified2, w2)
        ∧ modified2 = true
        ∧ get_user_by_email email w2 = Some (with_is_active true (utcnow env2) user)
        ∧ (∀ password,
             validate_password_present password = Ok password →
             (verify_password password (User.hashed_password user)).2 = true →
             (login email password w2).1 = Ok (User.email user)).
Proof.
  intros Hdb Hnd Hoid Hd Hemail Hvalid Hget.
  destruct (set_is_active_effect "deactivate" false env role user_id oid email d user w
              db Hdb Hnd Hoid Hd Hemail Hget)
    as (db1 & d1 & modified & Hrun & Hmod & Hnd1 & Hd1 & Hemail1 & Hget1 & Hother1 & _).
  cbv zeta in *.
  set (w1 := {| db_handle := Some db1; files := files w; log := log w |}) in *.
  destruct (set_is_active_effect "activate" true env2 role user_id oid email d1
              (with_is_active false (utcnow env) user) w1 db1 eq_refl Hnd1 Hoid Hd1
              Hemail1 Hget1)
    as (db2 & d2 & modified2 & Hrun2 & Hmod2 & _ & _ & _ & Hget2 & _).
  cbv zeta in *.
  set (w2 := {| db_handle := Some db2; files := files w1; log := log w1 |}) in *.
  assert (Hlogin : ∀ (w' : World) (u : User.t) (password : pystr),
            get_user_by_email email w' = Some u →
            ∃ w'',
              login email password w'
              = (match validate_password_present password with
                 | Raise _ => Raise (HTTPException 422 "validation error")
                 | Ok p =>
                   if (verify_password p (User.hashed_password u)).2
                   then if User.is_active u then Ok (User.email u)
                        else Raise (HTTPException 401 "User account is deactivated")
                   else Raise (HTTPException 401 "Incorrect email or password")
                 end, w'')).
  { intros w' u password Hu. unfold login. rewrite Hvalid.
    destruct (validate_password_present password) as [p|]; [|by eexists].
    unfold bind, authenticate_user. rewrite Hu.
    destruct (verify_password p (User.hashed_password u)) as [l ok]. cbn [snd].
    destruct ok; [|by eexists]. cbn [fst snd].
    destruct (User.is_active u); by eexists. }
  exists w1, modified. split; [exact Hrun|]. split.
  { intros Hactive. apply Hmod. by rewrite Hactive. }
  split; [done|]. split; [done|]. split; [exact Hget1|]. split; [exact Hother1|].
  split; [|split; [|split]].
  - intros password s. destruct (Hlogin w1 _ password Hget1) as [w'' ->]. cbn [fst].
    destruct (validate_password_present password); [|done].
    by destruct (verify_password _ _).2.
  - intros password Hp Hok. destruct (Hlogin w1 _ password Hget1) as [w'' ->].
    cbn [fst]. rewrite Hp. cbn [with_is_active User.hashed_password User.is_active].
    by rewrite Hok.
  - intros env' token u. unfold get_current_user.
    destruct (jwt_decode _ _) as [payload|]; [|done].
    case_bool_decide; [done|].
    destruct (TokenData_email _) as [[e|]|]; [|done|done].
    destruct (decide (e = email)) as [->|He].
    + rewrite Hget, Hget1. intros [= <-]. by eexists.
    + rewrite (Hother1 e He). destruct (get_user_by_email e w) as [u'|]; [|done].
      intros [= <-]. by eexists.
  - exists w2, modified2. split; [exact Hrun2|]. split; [by apply Hmod2|].
    split; [exact Hget2|].
    intros password Hp Hok. destruct (Hlogin w2 _ password Hget2) as [w'' ->].
    cbn [fst]. rewrite Hp. cbn [with_is_active User.hashed_password User.is_active].
    by rewrite Hok.
Qed.

End DeactivationProperties.

Lemma deactivated_account_cannot_log_in_witness :
  NoDup (account_emails tidy_db)
  ∧ ObjectId (VStr carl_id) = Ok carl_id
  ∧ get_user_by_email (ev:=at_sign_validator) "carl@example.com" tidy_world = Some carl
  ∧ ∃ w1,
      UserRepository_deactivate sample_env CONSULTANT carl_id tidy_world = (Ok true, w1)
      ∧ get_user_by_email (ev:=at_sign_validator) "carl@example.com" w1
        = Some (with_is_active false (utcnow sample_env) carl).
Proof.
  assert (Hnd : NoDup (account_emails tidy_db)).
  { change (account_emails tidy_db)
      with [VStr "rita@example.com"; VStr "raul@example.com";
            VStr "carl@example.com"; VStr "ada@example.com"].
    apply (bool_decide_unpack _). by vm_compute. }
  assert (Hoid : ObjectId (VStr carl_id) = Ok carl_id) by reflexivity.
  assert (Hget : get_user_by_email (ev:=at_sign_validator) "carl@example.com" tidy_world
                 = Some carl) by reflexivity.
  assert (Hd : find_one [("_id", VOid carl_id)] (role_collection CONSULTANT tidy_db)
               = Some (account_doc carl_id "carl@example.com" "Carl" "CONSULTANT"
                         "h-carl")) by reflexivity.
  assert (Hemail : account_doc carl_id "carl@example.com" "Carl" "CONSULTANT" "h-carl"
                     !! "email" = Some (VStr "carl@example.com")) by reflexivity.
  split; [exact Hnd|]. split; [exact Hoid|]. split; [exact Hget|].
  destruct (deactivated_account_cannot_log_in (ev:=at_sign_validator)
              (ctx:=plain_context) (jwt:=clear_jwt) sample_env sample_env CONSULTANT
              carl_id carl_id "carl@example.com" _ carl tidy_world tidy_db
              eq_refl Hnd Hoid Hd Hemail eq_refl Hget)
    as (w1 & modified & Hrun & Hmod & _ & _ & Hget1 & _).
  exists w1. rewrite (Hmod eq_refl) in Hrun. split; [exact Hrun|exact Hget1].
Defined.

(** ** Deletion *)

Lemma find_one_other_kept_delete (q : list (string * pyval)) (c : collection)
    (k : string) (v : pyval) :
  (∀ d, find_one q c = Some d → d !! k ≠ Some v) →
  find_one [(k, v)] (delete_one q c) = find_one [(k, v)] c.
Proof.
  unfold find_one.
  induction c as [|x c IH]; cbn [List.find delete_one]; [done|].
  destruct (matches q x) eqn:Hx; intros Hd.
  - rewrite matches_single, bool_decide_eq_false_2; [done|]. by apply Hd.
  - cbn [List.find]. destruct (matches [(k, v)] x); [done|]. by apply IH.
Qed.

Lemma find_one_other_deleted (q : list (string * pyval)) (c : collection)
    (k : string) (v : pyval) (d : doc) :
  NoDup (omap (λ d : doc, d !! k) c) →
  find_one q c = Some d → d !! k = Some v →
  find_one [(k, v)] (delete_one q c) = None
  ∧ omap (λ d : doc, d !! k) (delete_one q c) ⊆ omap (λ d : doc, d !! k) c
  ∧ NoDup (omap (λ d : doc, d !! k) (delete_one q c)).
Proof.
  unfold find_one.
  induction c as [|x c IH]; cbn [List.find delete_one]; [done|].
  intros Hnd Hd Hv. destruct (matches q x) eqn:Hx.
  - injection Hd as ->. cbn [omap list_omap] in *. rewrite Hv in *.
    apply NoDup_cons in Hnd as [Hnotin Hnd]. split; [|split; [|done]].
    + by apply find_one_not_in.
    + by apply list_subseteq_cons.
  - cbn [omap list_omap] in Hnd |- *. cbn [List.find].
    assert (Hnd' : NoDup (omap (λ d : doc, d !! k) c)).
    { destruct (x !! k); [|done]. by apply NoDup_cons in Hnd as [_ ?]. }
    destruct (IH Hnd' Hd Hv) as (Hnone & Hsub & Hnd'').
    destruct (matches [(k, v)] x) eqn:Hxv.
    + exfalso. apply matches_lookup in Hxv. rewrite Hxv in Hnd.
      apply NoDup_cons in Hnd as [Hnotin _]. apply Hnotin.
      apply list_elem_of_omap. exists d. split; [|done].
      apply list_elem_of_In. by apply (find_some _ _ Hd).
    + split; [done|]. destruct (x !! k) as [y|]; [|done].
      apply NoDup_cons in Hnd as [Hnotin _]. split.
      * intros z [->|Hz]%elem_of_cons; [left|right; by apply Hsub].
      * apply NoDup_cons. split; [|done]. intros Hy. apply Hnotin. by apply Hsub.
Qed.

Lemma delete_one_none (q : list (string * pyval)) (c : collection) :
  find_one q c = None → delete_one q c = c.
Proof.
  unfold find_one. induction c as [|x c IH]; cbn [List.find delete_one]; [done|].
  destruct (matches q x); [done|]. intros H. by rewrite IH.
Qed.

(** The document found for an address after the account with a given id
    was deleted from its collection, with one account per address. *)
Lemma first_account_doc_deleted (role : UserRole) (db : Database)
    (q : list (string * pyval)) (d : doc) (email : string) :
  NoDup (account_emails db) →
  find_one q (role_collection role db) = Some d →
  d !! "email" = Some (VStr email) →
  let db' := set_role_collection role db (delete_one q (role_collection role db)) in
  first_account_doc email db' = None
  ∧ (∀ e, e ≠ email → first_account_doc e db' = first_account_doc e db)
  ∧ NoDup (account_emails db').
Proof.
  intros Hnd Hd Hemail db'. unfold account_emails in *.
  destruct (accounts_split role db) as (l1 & l2 & Hsplit & Hsplit').
  specialize (Hsplit' (delete_one q (role_collection role db))). cbv zeta in Hsplit'.
  fold db' in Hsplit'.
  rewrite !first_account_doc_find_one. setoid_rewrite first_account_doc_find_one.
  rewrite Hsplit', Hsplit in *. clear Hsplit Hsplit'.
  rewrite !omap_app in Hnd. rewrite !omap_app.
  apply NoDup_app in Hnd as (Hnd1 & Hdisj & Hnd).
  apply NoDup_app in Hnd as (Hnd & Hdisj2 & Hnd2).
  assert (Hin : VStr email ∈ omap (λ d : doc, d !! "email") (role_collection role db)).
  { apply list_elem_of_omap. exists d. split; [|done].
    by apply find_one_matches in Hd as [_ ?]. }
  assert (Hl1 : find_one [("email", VStr email)] l1 = None).
  { apply find_one_not_in. intros H1. apply (Hdisj _ H1). apply elem_of_app. by left. }
  assert (Hl2 : find_one [("email", VStr email)] l2 = None).
  { apply find_one_not_in. by apply Hdisj2. }
  destruct (find_one_other_deleted q _ "email" (VStr email) d Hnd Hd Hemail)
    as (Hgone & Hsub & Hnd').
  split; [by rewrite !find_one_app, Hl1, Hgone, Hl2|]. split.
  - intros e He. rewrite !find_one_app.
    rewrite (find_one_other_kept_delete q _ "email" (VStr e)); [done|].
    intros d' Hd'. rewrite Hd in Hd'. injection Hd' as <-. rewrite Hemail. congruence.
  - apply NoDup_app. split; [done|]. split.
    + intros x Hx [Hc|Hc]%elem_of_app; apply (Hdisj x Hx), elem_of_app;
        [left; by apply Hsub|by right].
    + apply NoDup_app. split; [done|]. split; [|done].
      intros x Hx. apply Hdisj2. by apply Hsub.
Qed.

Section DeletionProperties.
Context {ev : EmailValidator} {ctx : CryptContext} {jwt : JWT}.

(** X19: deleting an account makes it unknown, tokens included.  With
    one account per address, for the account with the given id and an
    address in normal form: [delete] succeeds and touches neither files
    nor log nor jobs, submissions and profiles; the address finds no
    account any more and can be registered again, while every other
    address finds what it found; [login] answers 401 "Incorrect email
    or password" whatever the password; and a token that
    [get_current_user] accepted is accepted as before or, when it is
    the deleted account's, refused with 401. *)
Theorem deleted_account_is_unknown (role : UserRole) (user_id oid email : string)
    (d : doc) (w : World) (db : Database) :
  db_handle w = Some db →
  NoDup (account_emails db) →
  ObjectId (VStr user_id) = Ok oid →
  find_one [("_id", VOid oid)] (role_collection role db) = Some d →
  d !! "email" = Some (VStr email) →
  validate_email email = Some email →
  ∃ w1 db1,
    UserRepository_delete role user_id w = (Ok true, w1)
    ∧ db_handle w1 = Some db1 ∧ files w1 = files w ∧ log w1 = log w
    ∧ job_descriptions db1 = job_descriptions db
    ∧ submissions db1 = submissions db
    ∧ consultant_profiles db1 = consultant_profiles db
    ∧ NoDup (account_emails db1) ∧ (VStr email ∉ account_emails db1)
    ∧ get_user_by_email email w1 = None
    ∧ (∀ e, e ≠ email → get_user_by_email e w1 = get_user_by_email e w)
    ∧ (∀ password,
         validate_password_present password = Ok password →
         login email password w1
         = (Raise (HTTPException 401 "Incorrect email or password"), w1))
    ∧ (∀ env' token u,
         get_current_user env' token w = (Ok u, w) →
         get_current_user env' token w1 = (Ok u, w1)
         ∨ (get_user_by_email email w = Some u
            ∧ get_current_user env' token w1 = (Raise credentials_exception, w1))).
Proof.
  intros Hdb Hnd Hoid Hd Hemail Hvalid.
  set (q := [("_id", VOid oid)]) in *.
  pose proof (first_account_doc_deleted role db q d email Hnd Hd Hemail)
    as (Hgone & Hothers & Hnd').
  set (db0 := set_role_collection role db (delete_one q (role_collection role db))) in *.
  set (db1 := set_users db0 (delete_one q (users db0))).
  set (w1 := {| db_handle := Some db1; files := files w; log := log w |}).
  assert (Hacc : ∀ e, first_account_doc e db1 = first_account_doc e db0) by done.
  assert (Hget1 : get_user_by_email email w1 = None).
  { destruct (is_blank email) eqn:Hblank.
    - unfold get_user_by_email. by rewrite Hblank.
    - rewrite (get_user_by_email_first email w1 db1); [|done|done].
      by rewrite Hacc, Hgone. }
  assert (Hother1 : ∀ e, e ≠ email → get_user_by_email e w1 = get_user_by_email e w).
  { intros e He. destruct (is_blank e) eqn:Hbe.
    - unfold get_user_by_email. by rewrite Hbe.
    - rewrite (get_user_by_email_first e w1 db1); [|done|done].
      rewrite Hacc, (Hothers e He).
      by rewrite (get_user_by_email_first e w db Hdb Hbe). }
  exists w1, db1. split.
  { unfold UserRepository_delete, catch, bind, lift, get_database, put_database, ret.
    rewrite Hoid. cbn [db_handle fst snd]. rewrite Hdb. cbn [fst snd].
    fold q. unfold deleted_count. rewrite Hd. cbn [Nat.ltb Nat.leb]. by fold db0 db1. }
  split; [done|]. split; [done|]. split; [done|].
  split; [by destruct role|]. split; [by destruct role|]. split; [by destruct role|].
  split; [done|]. split.
  { intros Hin. apply account_emails_stored in Hin.
    assert (Hf : first_account_doc email db1 = None) by (by rewrite Hacc).
    rewrite first_account_doc_order in Hf.
    destruct (find_one _ (recruiters db1)); [done|].
    destruct (find_one _ (consultants db1)); [done|].
    destruct (find_one _ (admins db1)); [done|].
    by destruct Hin as [[? ?]|[[? ?]|[? ?]]]. }
  split; [exact Hget1|]. split; [exact Hother1|]. split.
  - intros password Hp. unfold login. rewrite Hvalid, Hp.
    unfold bind, authenticate_user. by rewrite Hget1.
  - intros env' token u. unfold get_current_user.
    destruct (jwt_decode _ _) as [payload|]; [|done].
    case_bool_decide; [done|].
    destruct (TokenData_email _) as [[e|]|]; [|done|done].
    destruct (decide (e = email)) as [->|He].
    + rewrite Hget1. destruct (get_user_by_email email w) as [u'|]; [|done].
      intros [= <-]. by right.
    + rewrite (Hother1 e He). destruct (get_user_by_email e w) as [u'|]; [|done].
      intros [= <-]. by left.
Qed.

End DeletionProperties.

Lemma deleted_account_is_unknown_witness :
  NoDup (account_emails tidy_db)
  ∧ ObjectId (VStr carl_id) = Ok carl_id
  ∧ ∃ w1,
      UserRepository_delete CONSULTANT carl_id tidy_world = (Ok true, w1)
      ∧ get_user_by_email (ev:=at_sign_validator) "carl@example.com" w1 = None.
Proof.
  assert (Hnd : NoDup (account_emails tidy_db)).
  { change (account_emails tidy_db)
      with [VStr "rita@example.com"; VStr "raul@example.com";
            VStr "carl@example.com"; VStr "ada@example.com"].
    apply (bool_decide_unpack _). by vm_compute. }
  assert (Hoid : ObjectId (VStr carl_id) = Ok carl_id) by reflexivity.
  assert (Hd : find_one [("_id", VOid carl_id)] (role_collection CONSULTANT tidy_db)
               = Some (account_doc carl_id "carl@example.com" "Carl" "CONSULTANT"
                         "h-carl")) by reflexivity.
  assert (Hemail : account_doc carl_id "carl@example.com" "Carl" "CONSULTANT" "h-carl"
                     !! "email" = Some (VStr "carl@example.com")) by reflexivity.
  split; [exact Hnd|]. split; [exact Hoid|].
  destruct (deleted_account_is_unknown (ev:=at_sign_validator) (ctx:=plain_context)
              (jwt:=clear_jwt) CONSULTANT carl_id carl_id "carl@example.com" _
              tidy_world tidy_db eq_refl Hnd Hoid Hd Hemail eq_refl)
    as (w1 & db1 & Hrun & _ & _ & _ & _ & _ & _ & _ & _ & Hget1 & _).
  exists w1. split; [exact Hrun|exact Hget1].
Defined.
